(** * Grayco / KB Signs suite: status machine, calendar and ledger

    A shallow embedding of the pipeline logic of the CRM
    ([services/database_manager.py], [views/project_detail.py],
    [views/ledger.py], [api/lead_receiver.py]) and the properties its
    specification states about it.

    Conventions of the embedding:
    - SQL tables are lists of rows, a NULL column is [None];
    - every database function takes the state [db] and the clock and
      returns the new state together with its Python result;
    - a Python exception is the [Raise] result; the state reached before
      the exception is kept, because every statement that precedes it was
      committed;
    - status strings are ASCII, which is all the source ever writes. *)

From Stdlib Require Import Ascii ZArith QArith Lia.
From Stdlib Require String.
From stdpp Require Import base strings list list_numbers sorting gmap pretty.

#[local] Open Scope Z_scope.

(** * Part I: the program *)

(** ** Python results *)

Inductive exn : Type :=
  | TypeError
  | AttributeError
  | OverflowError
  | ValueError.

Inductive result (A : Type) : Type :=
  | Ok (a : A)
  | Raise (e : exn).
Arguments Ok {A} a.
Arguments Raise {A} e.

(** ** Strings: [str.lower] and [str.replace] on one character *)

Module Str.

Definition lower_ascii (c : ascii) : ascii :=
  let n := nat_of_ascii c in
  if (Nat.leb 65 n && Nat.leb n 90)%bool then ascii_of_nat (n + 32) else c.

Fixpoint lower (s : string) : string :=
  match s with
  | EmptyString => EmptyString
  | String c s' => String (lower_ascii c) (lower s')
  end.

(** [s.replace(a, b)] for one-character [a] and [b]. *)
Fixpoint replace_char (a b : ascii) (s : string) : string :=
  match s with
  | EmptyString => EmptyString
  | String c s' =>
      String (if Ascii.eqb c a then b else c) (replace_char a b s')
  end.

(** [x in [s1, s2, ...]] on strings. *)
Definition mem (x : string) (l : list string) : bool :=
  existsb (String.eqb x) l.

(** Truthiness of a Python string. *)
Definition truthy (s : string) : bool :=
  match s with EmptyString => false | _ => true end.

End Str.

(** ** Calendar: [datetime.date] *)

Record date : Type := mkDate { year : Z; month : Z; day : Z }.

#[global] Instance date_eq_dec : EqDecision date.
Proof. solve_decision. Defined.

Definition is_leap (y : Z) : bool :=
  (y mod 4 =? 0) && (negb (y mod 100 =? 0) || (y mod 400 =? 0)).

Definition days_in_month (y m : Z) : Z :=
  if (m =? 2) && is_leap y then 29
  else if m =? 2 then 28
  else if (m =? 4) || (m =? 6) || (m =? 9) || (m =? 11) then 30
  else 31.

Definition days_before_year (y : Z) : Z :=
  let y' := y - 1 in y' * 365 + y' / 4 - y' / 100 + y' / 400.

Fixpoint days_before_month_nat (y : Z) (m : nat) : Z :=
  match m with
  | O => 0
  | S m' => days_before_month_nat y m' + days_in_month y (Z.of_nat m)
  end.

(** Number of days of year [y] before the first of month [m]. *)
Definition days_before_month (y m : Z) : Z :=
  days_before_month_nat y (Z.to_nat (m - 1)).

(** [date.toordinal()]: 0001-01-01 is day 1. *)
Definition toordinal (d : date) : Z :=
  days_before_year (year d) + days_before_month (year d) (month d) + day d.

(** [date.weekday()]: Monday is 0, Sunday is 6. *)
Definition weekday_of_ordinal (n : Z) : Z := (n + 6) mod 7.
Definition weekday (d : date) : Z := weekday_of_ordinal (toordinal d).

Definition MINYEAR : Z := 1.
Definition MAXYEAR : Z := 9999.

Definition valid_date (d : date) : Prop :=
  MINYEAR <= year d <= MAXYEAR /\ 1 <= month d <= 12 /\
  1 <= day d <= days_in_month (year d) (month d).

(** A date whose month and day exist, whatever the year. *)
Definition wf_date (d : date) : Prop :=
  1 <= month d <= 12 /\ 1 <= day d <= days_in_month (year d) (month d).

(** Dates compare as the tuples (year, month, day). *)
Definition date_compare (a b : date) : comparison :=
  match year a ?= year b with
  | Eq => match month a ?= month b with
          | Eq => day a ?= day b
          | c => c
          end
  | c => c
  end.

Definition date_ltb (a b : date) : bool :=
  match date_compare a b with Lt => true | _ => false end.
Definition date_leb (a b : date) : bool :=
  match date_compare a b with Gt => false | _ => true end.

(** [d + timedelta(days=1)] and [d - timedelta(days=1)], by calendar
    roll-over. *)
Definition date_succ (d : date) : date :=
  if day d <? days_in_month (year d) (month d)
  then mkDate (year d) (month d) (day d + 1)
  else if month d <? 12 then mkDate (year d) (month d + 1) 1
  else mkDate (year d + 1) 1 1.

Definition date_pred (d : date) : result date :=
  if 1 <? day d then Ok (mkDate (year d) (month d) (day d - 1))
  else if 1 <? month d
       then Ok (mkDate (year d) (month d - 1)
                       (days_in_month (year d) (month d - 1)))
  else if MINYEAR <? year d then Ok (mkDate (year d - 1) 12 31)
  else Raise OverflowError.

(** [d.replace(day=n)] for a day that exists in every month. *)
Definition replace_day (d : date) (n : Z) : date :=
  mkDate (year d) (month d) n.

(** ** [datetime.datetime]: a date and the seconds since midnight *)

Record datetime : Type := mkDateTime { dt_date : date; dt_secs : Z }.

#[global] Instance datetime_eq_dec : EqDecision datetime.
Proof. solve_decision. Defined.

Definition datetime_ltb (a b : datetime) : bool :=
  match date_compare (dt_date a) (dt_date b) with
  | Lt => true
  | Eq => dt_secs a <? dt_secs b
  | Gt => false
  end.

Fixpoint date_add_days_nat (n : nat) (d : date) : date :=
  match n with O => d | S n' => date_add_days_nat n' (date_succ d) end.

Fixpoint date_sub_days_nat (n : nat) (d : date) : result date :=
  match n with
  | O => Ok d
  | S n' => match date_pred d with
            | Ok d' => date_sub_days_nat n' d'
            | Raise e => Raise e
            end
  end.

(** [dt + timedelta(hours=h)]. *)
Definition add_hours (dt : datetime) (h : Z) : result datetime :=
  let s := dt_secs dt + 3600 * h in
  let carry := s / 86400 in
  let secs := s mod 86400 in
  if 0 <=? carry
  then Ok (mkDateTime (date_add_days_nat (Z.to_nat carry) (dt_date dt)) secs)
  else match date_sub_days_nat (Z.to_nat (- carry)) (dt_date dt) with
       | Ok d => Ok (mkDateTime d secs)
       | Raise e => Raise e
       end.

(** A value that is a [date] or a [datetime]: the two Python types the
    calendar functions accept; [hasattr(x, 'date')] holds of the second. *)
Inductive pydate : Type :=
  | PyDate (d : date)
  | PyDateTime (dt : datetime).

Definition as_date (x : pydate) : date :=
  match x with
  | PyDate d => d
  | PyDateTime dt => dt_date dt
  end.

(** ** [calculate_business_days] (services/database_manager.py)

    The loop variable [current] is a date that is only compared with
    [to_date], asked for its weekday and advanced by one day; it is
    carried here as its ordinal, on which [<] is the order of dates
    ([date_compare_toordinal]), [weekday] is [(n + 6) mod 7] and one day
    more is [n + 1] ([toordinal_succ]).  The loop
    runs at most [to_date - from_date] times, which bounds the
    recursion; [business_days_loop_exit] shows that the bound is never
    what ends it. *)

Fixpoint business_days_loop (n : nat) (current to_date business_days : Z) : Z :=
  match n with
  | O => business_days
  | S n' =>
      if current <? to_date
      then business_days_loop n' (current + 1) to_date
             (if weekday_of_ordinal current <? 5
              then business_days + 1 else business_days)
      else business_days
  end.

Definition calculate_business_days (from_date to_date : option pydate) : Z :=
  match from_date, to_date with
  | None, _ | _, None => 0
  | Some f, Some t =>
      let from_ord := toordinal (as_date f) in
      let to_ord := toordinal (as_date t) in
      business_days_loop (Z.to_nat (to_ord - from_ord)) from_ord to_ord 0
  end.

(** The two readings of "business days between": the weekdays [d] with
    [from <= d < to], and the weekdays strictly between the two dates. *)
Definition is_weekday (n : Z) : bool := weekday_of_ordinal n <? 5.

Definition weekdays_from_until (lo hi : Z) : Z :=
  Z.of_nat (length (List.filter is_weekday (seqZ lo (hi - lo)))).

Definition weekdays_strictly_between (lo hi : Z) : Z :=
  weekdays_from_until (lo + 1) hi.

(** ** The database

    One record per table row, with the columns the pipeline logic reads
    or writes; a nullable column is an [option].  Money is a rational. *)

Definition TENANT_ID : string := "357145e4-b5a1-43e3-a9ba-f8e834b38034".

Record project : Type := mkProject {
  id : string;
  tenant_id : string;
  client_name : option string;
  status : option string;
  notes : option string;
  source : option string;
  is_active_v3 : option bool;
  estimated_value : option Q;
  commission_rate : option Q;
  deposit_received_date : option date;
  deposit_amount : option Q;
  master_spec_file_id : option string;
  master_spec_file_name : option string;
  master_spec_locked_at : option datetime;
  signed_spec_file_id : option string;
  signed_spec_file_name : option string;
  production_locked : option bool;
  primary_contact_name : option string;
  primary_contact_phone : option string;
  primary_contact_email : option string;
  site_address : option string;
  action_due_date : option date;
  snooze_until : option datetime;
  status_updated_at : option datetime;
  last_touched : option datetime;
  created_at : option datetime;
  updated_at : option datetime
}.

(** [UPDATE projects SET col = v]: one setter per column that some
    statement assigns. *)
Definition set_status (v : option string) (p : project) : project :=
  mkProject (id p) (tenant_id p) (client_name p) v (notes p) (source p)
      (is_active_v3 p) (estimated_value p) (commission_rate p)
      (deposit_received_date p) (deposit_amount p) (master_spec_file_id p)
      (master_spec_file_name p) (master_spec_locked_at p)
      (signed_spec_file_id p) (signed_spec_file_name p) (production_locked
      p) (primary_contact_name p) (primary_contact_phone p)
      (primary_contact_email p) (site_address p) (action_due_date p)
      (snooze_until p) (status_updated_at p) (last_touched p) (created_at p)
      (updated_at p).
Definition set_notes (v : option string) (p : project) : project :=
  mkProject (id p) (tenant_id p) (client_name p) (status p) v (source p)
      (is_active_v3 p) (estimated_value p) (commission_rate p)
      (deposit_received_date p) (deposit_amount p) (master_spec_file_id p)
      (master_spec_file_name p) (master_spec_locked_at p)
      (signed_spec_file_id p) (signed_spec_file_name p) (production_locked
      p) (primary_contact_name p) (primary_contact_phone p)
      (primary_contact_email p) (site_address p) (action_due_date p)
      (snooze_until p) (status_updated_at p) (last_touched p) (created_at p)
      (updated_at p).
Definition set_is_active_v3 (v : option bool) (p : project) : project :=
  mkProject (id p) (tenant_id p) (client_name p) (status p) (notes p)
      (source p) v (estimated_value p) (commission_rate p)
      (deposit_received_date p) (deposit_amount p) (master_spec_file_id p)
      (master_spec_file_name p) (master_spec_locked_at p)
      (signed_spec_file_id p) (signed_spec_file_name p) (production_locked
      p) (primary_contact_name p) (primary_contact_phone p)
      (primary_contact_email p) (site_address p) (action_due_date p)
      (snooze_until p) (status_updated_at p) (last_touched p) (created_at p)
      (updated_at p).
Definition set_deposit_received_date (v : option date) (p : project) : project :=
  mkProject (id p) (tenant_id p) (client_name p) (status p) (notes p)
      (source p) (is_active_v3 p) (estimated_value p) (commission_rate p) v
      (deposit_amount p) (master_spec_file_id p) (master_spec_file_name p)
      (master_spec_locked_at p) (signed_spec_file_id p)
      (signed_spec_file_name p) (production_locked p) (primary_contact_name
      p) (primary_contact_phone p) (primary_contact_email p) (site_address
      p) (action_due_date p) (snooze_until p) (status_updated_at p)
      (last_touched p) (created_at p) (updated_at p).
Definition set_deposit_amount (v : option Q) (p : project) : project :=
  mkProject (id p) (tenant_id p) (client_name p) (status p) (notes p)
      (source p) (is_active_v3 p) (estimated_value p) (commission_rate p)
      (deposit_received_date p) v (master_spec_file_id p)
      (master_spec_file_name p) (master_spec_locked_at p)
      (signed_spec_file_id p) (signed_spec_file_name p) (production_locked
      p) (primary_contact_name p) (primary_contact_phone p)
      (primary_contact_email p) (site_address p) (action_due_date p)
      (snooze_until p) (status_updated_at p) (last_touched p) (created_at p)
      (updated_at p).
Definition set_master_spec_file_id (v : option string) (p : project) : project :=
  mkProject (id p) (tenant_id p) (client_name p) (status p) (notes p)
      (source p) (is_active_v3 p) (estimated_value p) (commission_rate p)
      (deposit_received_date p) (deposit_amount p) v (master_spec_file_name
      p) (master_spec_locked_at p) (signed_spec_file_id p)
      (signed_spec_file_name p) (production_locked p) (primary_contact_name
      p) (primary_contact_phone p) (primary_contact_email p) (site_address
      p) (action_due_date p) (snooze_until p) (status_updated_at p)
      (last_touched p) (created_at p) (updated_at p).
Definition set_master_spec_file_name (v : option string) (p : project) : project :=
  mkProject (id p) (tenant_id p) (client_name p) (status p) (notes p)
      (source p) (is_active_v3 p) (estimated_value p) (commission_rate p)
      (deposit_received_date p) (deposit_amount p) (master_spec_file_id p) v
      (master_spec_locked_at p) (signed_spec_file_id p)
      (signed_spec_file_name p) (production_locked p) (primary_contact_name
      p) (primary_contact_phone p) (primary_contact_email p) (site_address
      p) (action_due_date p) (snooze_until p) (status_updated_at p)
      (last_touched p) (created_at p) (updated_at p).
Definition set_master_spec_locked_at (v : option datetime) (p : project) : project :=
  mkProject (id p) (tenant_id p) (client_name p) (status p) (notes p)
      (source p) (is_active_v3 p) (estimated_value p) (commission_rate p)
      (deposit_received_date p) (deposit_amount p) (master_spec_file_id p)
      (master_spec_file_name p) v (signed_spec_file_id p)
      (signed_spec_file_name p) (production_locked p) (primary_contact_name
      p) (primary_contact_phone p) (primary_contact_email p) (site_address
      p) (action_due_date p) (snooze_until p) (status_updated_at p)
      (last_touched p) (created_at p) (updated_at p).
Definition set_signed_spec_file_id (v : option string) (p : project) : project :=
  mkProject (id p) (tenant_id p) (client_name p) (status p) (notes p)
      (source p) (is_active_v3 p) (estimated_value p) (commission_rate p)
      (deposit_received_date p) (deposit_amount p) (master_spec_file_id p)
      (master_spec_file_name p) (master_spec_locked_at p) v
      (signed_spec_file_name p) (production_locked p) (primary_contact_name
      p) (primary_contact_phone p) (primary_contact_email p) (site_address
      p) (action_due_date p) (snooze_until p) (status_updated_at p)
      (last_touched p) (created_at p) (updated_at p).
Definition set_signed_spec_file_name (v : option string) (p : project) : project :=
  mkProject (id p) (tenant_id p) (client_name p) (status p) (notes p)
      (source p) (is_active_v3 p) (estimated_value p) (commission_rate p)
      (deposit_received_date p) (deposit_amount p) (master_spec_file_id p)
      (master_spec_file_name p) (master_spec_locked_at p)
      (signed_spec_file_id p) v (production_locked p) (primary_contact_name
      p) (primary_contact_phone p) (primary_contact_email p) (site_address
      p) (action_due_date p) (snooze_until p) (status_updated_at p)
      (last_touched p) (created_at p) (updated_at p).
Definition set_production_locked (v : option bool) (p : project) : project :=
  mkProject (id p) (tenant_id p) (client_name p) (status p) (notes p)
      (source p) (is_active_v3 p) (estimated_value p) (commission_rate p)
      (deposit_received_date p) (deposit_amount p) (master_spec_file_id p)
      (master_spec_file_name p) (master_spec_locked_at p)
      (signed_spec_file_id p) (signed_spec_file_name p) v
      (primary_contact_name p) (primary_contact_phone p)
      (primary_contact_email p) (site_address p) (action_due_date p)
      (snooze_until p) (status_updated_at p) (last_touched p) (created_at p)
      (updated_at p).
Definition set_snooze_until (v : option datetime) (p : project) : project :=
  mkProject (id p) (tenant_id p) (client_name p) (status p) (notes p)
      (source p) (is_active_v3 p) (estimated_value p) (commission_rate p)
      (deposit_received_date p) (deposit_amount p) (master_spec_file_id p)
      (master_spec_file_name p) (master_spec_locked_at p)
      (signed_spec_file_id p) (signed_spec_file_name p) (production_locked
      p) (primary_contact_name p) (primary_contact_phone p)
      (primary_contact_email p) (site_address p) (action_due_date p) v
      (status_updated_at p) (last_touched p) (created_at p) (updated_at p).
Definition set_status_updated_at (v : option datetime) (p : project) : project :=
  mkProject (id p) (tenant_id p) (client_name p) (status p) (notes p)
      (source p) (is_active_v3 p) (estimated_value p) (commission_rate p)
      (deposit_received_date p) (deposit_amount p) (master_spec_file_id p)
      (master_spec_file_name p) (master_spec_locked_at p)
      (signed_spec_file_id p) (signed_spec_file_name p) (production_locked
      p) (primary_contact_name p) (primary_contact_phone p)
      (primary_contact_email p) (site_address p) (action_due_date p)
      (snooze_until p) v (last_touched p) (created_at p) (updated_at p).
Definition set_last_touched (v : option datetime) (p : project) : project :=
  mkProject (id p) (tenant_id p) (client_name p) (status p) (notes p)
      (source p) (is_active_v3 p) (estimated_value p) (commission_rate p)
      (deposit_received_date p) (deposit_amount p) (master_spec_file_id p)
      (master_spec_file_name p) (master_spec_locked_at p)
      (signed_spec_file_id p) (signed_spec_file_name p) (production_locked
      p) (primary_contact_name p) (primary_contact_phone p)
      (primary_contact_email p) (site_address p) (action_due_date p)
      (snooze_until p) (status_updated_at p) v (created_at p) (updated_at p).
Definition set_updated_at (v : option datetime) (p : project) : project :=
  mkProject (id p) (tenant_id p) (client_name p) (status p) (notes p)
      (source p) (is_active_v3 p) (estimated_value p) (commission_rate p)
      (deposit_received_date p) (deposit_amount p) (master_spec_file_id p)
      (master_spec_file_name p) (master_spec_locked_at p)
      (signed_spec_file_id p) (signed_spec_file_name p) (production_locked
      p) (primary_contact_name p) (primary_contact_phone p)
      (primary_contact_email p) (site_address p) (action_due_date p)
      (snooze_until p) (status_updated_at p) (last_touched p) (created_at p)
      v.

Record commission : Type := mkCommission {
  c_project_id : string;
  c_total_value : option Q;
  c_deposit_amount : option Q;
  c_deposit_received_date : option date;
  c_final_payment_date : option date;
  c_total_amount_received : option Q;
  c_commission_notes : option string
}.

Record logistics : Type := mkLogistics {
  pl_project_id : string;
  target_installation_date : option date;
  production_status : option string
}.

Record history_entry : Type := mkHistory {
  h_project_id : string;
  h_entry_type : string;
  h_content : string
}.

Record touch : Type := mkTouch {
  t_project_id : string;
  t_touch_type : string;
  t_note : string
}.

(** The state: whether [get_engine()] yields an engine ([DATABASE_URL]
    is set and the engine could be created), and the tables. *)
Record db : Type := mkDb {
  engine : bool;
  projects : list project;
  commissions : list commission;
  production_logistics : list logistics;
  project_history : list history_entry;
  project_touches : list touch
}.

Definition with_projects (ps : list project) (s : db) : db :=
  mkDb (engine s) ps (commissions s) (production_logistics s)
       (project_history s) (project_touches s).
Definition with_commissions (cs : list commission) (s : db) : db :=
  mkDb (engine s) (projects s) cs (production_logistics s)
       (project_history s) (project_touches s).
Definition with_history (hs : list history_entry) (s : db) : db :=
  mkDb (engine s) (projects s) (commissions s) (production_logistics s)
       hs (project_touches s).
Definition with_touches (ts : list touch) (s : db) : db :=
  mkDb (engine s) (projects s) (commissions s) (production_logistics s)
       (project_history s) ts.

(** [WHERE id = :project_id AND tenant_id = :tenant_id] *)
Definition row_matches (project_id : string) (p : project) : bool :=
  String.eqb (id p) project_id && String.eqb (tenant_id p) TENANT_ID.

(** [UPDATE projects SET ... WHERE id = :project_id AND tenant_id = ...] *)
Definition update_projects (project_id : string) (f : project -> project)
    (s : db) : db :=
  with_projects
    (List.map (fun p => if row_matches project_id p then f p else p) (projects s)) s.

(** [execute_update]: no engine, no change and [False]; otherwise the
    statement runs, is committed, and the result is [True]. *)
Definition execute_update (stmt : db -> db) (s : db) : db * bool :=
  if engine s then (stmt s, true) else (s, false).

(** [add_project_history(project_id, entry_type, content)] *)
Definition add_project_history (project_id entry_type content : string)
    (s : db) : db * bool :=
  if engine s
  then (with_history (project_history s ++ [mkHistory project_id entry_type content]) s, true)
  else (s, false).

(** [add_project_touch(project_id, touch_type, note)] *)
Definition add_project_touch (project_id touch_type note : string)
    (s : db) : db * bool :=
  execute_update
    (fun s => with_touches (project_touches s ++ [mkTouch project_id touch_type note]) s) s.

(** [get_project_by_id]: the first row of the tenant with that id. *)
Definition get_project_by_id (project_id : string) (s : db) : option project :=
  if engine s then List.find (row_matches project_id) (projects s) else None.

(** [update_project_status(project_id, new_status)] *)
Definition update_project_status (now : datetime) (project_id new_status : string)
    (s : db) : db * bool :=
  execute_update
    (update_projects project_id
       (fun p => set_status (Some new_status)
                   (set_updated_at (Some now) (set_status_updated_at (Some now) p)))) s.

(** ** Status changes and production lock (services/database_manager.py) *)

(** [mark_project_won(project_id)] *)
Definition mark_project_won (now : datetime) (project_id : string) (s : db)
    : db * bool :=
  if engine s then
    let s1 := update_projects project_id
                (fun p => set_status (Some "Closed - Won")
                            (set_last_touched (Some now) p)) s in
    let s2 := (add_project_history project_id "STATUS_CHANGE"
                 "[SYSTEM] Project marked as WON - moved to Victory Vault" s1).1 in
    (s2, true)
  else (s, false).

(** [mark_project_lost(project_id, reason)] *)
Definition mark_project_lost (now : datetime) (project_id reason : string)
    (s : db) : db * bool :=
  if engine s then
    let s1 := update_projects project_id
                (fun p => set_status (Some "Closed - Lost")
                            (set_last_touched (Some now) p)) s in
    let reason_text := if Str.truthy reason then " Reason: " +:+ reason else "" in
    let s2 := (add_project_history project_id "STATUS_CHANGE"
                 ("[SYSTEM] Project marked as LOST - moved to Lost Deals."
                    +:+ reason_text) s1).1 in
    (s2, true)
  else (s, false).

(** [set_master_spec], [set_signed_spec] and [lock_production] end, when
    their update succeeded, in a call of [add_project_history] with two
    arguments where the function takes three: the update is committed
    and the call raises [TypeError]. *)
Definition set_master_spec (now : datetime)
    (project_id file_id file_name client_name : string) (s : db)
    : db * result bool :=
  let '(s1, success) :=
    execute_update
      (update_projects project_id
         (fun p => set_master_spec_file_id (Some file_id)
                     (set_master_spec_file_name (Some file_name)
                        (set_master_spec_locked_at (Some now)
                           (set_updated_at (Some now) p))))) s in
  if success then (s1, Raise TypeError) else (s1, Ok success).

Definition set_signed_spec (now : datetime)
    (project_id file_id file_name : string) (s : db) : db * result bool :=
  let '(s1, success) :=
    execute_update
      (update_projects project_id
         (fun p => set_signed_spec_file_id (Some file_id)
                     (set_signed_spec_file_name (Some file_name)
                        (set_updated_at (Some now) p)))) s in
  if success then (s1, Raise TypeError) else (s1, Ok success).

Definition lock_production (now : datetime) (project_id : string) (s : db)
    : db * result bool :=
  let '(s1, success) :=
    execute_update
      (update_projects project_id
         (fun p => set_production_locked (Some true)
                     (set_status (Some "ACTIVE PRODUCTION")
                        (set_status_updated_at (Some now)
                           (set_updated_at (Some now) p))))) s in
  if success then (s1, Raise TypeError) else (s1, Ok success).

(** [INSERT INTO commissions ... ON CONFLICT (project_id) DO UPDATE] of
    the deposit columns. *)
Definition upsert_deposit (project_id : string) (deposit_date : option date)
    (amount : Q) (cs : list commission) : list commission :=
  if existsb (fun c => String.eqb (c_project_id c) project_id) cs
  then List.map
         (fun c =>
            if String.eqb (c_project_id c) project_id
            then mkCommission (c_project_id c) (c_total_value c) (Some amount)
                   deposit_date (c_final_payment_date c)
                   (c_total_amount_received c) (c_commission_notes c)
            else c) cs
  else cs ++ [mkCommission project_id None (Some amount) deposit_date None None None].

(** [mark_deposit_received(project_id, deposit_date, deposit_amount)] *)
Definition mark_deposit_received (now : datetime) (project_id : string)
    (deposit_date : option date) (deposit_amount : Q) (s : db) : db * bool :=
  if engine s then
    let s1 := update_projects project_id
                (fun p => set_deposit_received_date deposit_date
                            (set_deposit_amount (Some deposit_amount)
                               (set_status (Some "ACTIVE PRODUCTION")
                                  (set_updated_at (Some now) p)))) s in
    (with_commissions
       (upsert_deposit project_id deposit_date deposit_amount (commissions s1)) s1,
     true)
  else (s, false).

(** [add_project_note(project_id, note_text)]; [formatted_note] is the
    note with its time stamp in front, as the f-string builds it. *)
Definition add_project_note (now : datetime) (project_id formatted_note : string)
    (s : db) : db * bool :=
  execute_update
    (update_projects project_id
       (fun p =>
          set_notes
            (match notes p with
             | None | Some "" => Some formatted_note
             | Some n => Some (n +:+ String (ascii_of_nat 10) formatted_note)
             end)
            (set_updated_at (Some now) p))) s.

(** [add_lead_note(project_id, note_content)]: the note goes to the
    history and a project in status ['New'] moves to ['Block A']. *)
Definition add_lead_note (now : datetime) (project_id note_content : string)
    (s : db) : db * bool :=
  if engine s then
    let s1 := with_history
                (project_history s ++ [mkHistory project_id "note" note_content]) s in
    (with_projects
       (List.map
          (fun p =>
             if row_matches project_id p
                && bool_decide (status p = Some "New")
             then set_status (Some "Block A")
                    (set_updated_at (Some now)
                       (set_status_updated_at (Some now) p))
             else p) (projects s1)) s1,
     true)
  else (s, false).

(** ** Closeout: [close_project_with_final_payment] *)

(** The first [production_logistics] row of the project, if any, and its
    [target_installation_date]. *)
Definition recorded_install_date (project_id : string) (s : db) : option date :=
  match List.find (fun r => String.eqb (pl_project_id r) project_id)
                  (production_logistics s) with
  | Some r => target_installation_date r
  | None => None
  end.

Definition closeout_status (install_date : option date) (today : date) : string :=
  match install_date with
  | Some d => if date_ltb today d then "Confirmed" else "completed"
  | None => "completed"
  end.

Definition record_final_payment (project_id : string) (amount : Q)
    (payment_date : date) (cs : list commission) : list commission :=
  match List.find (fun c => String.eqb (c_project_id c) project_id) cs with
  | Some _ =>
      List.map
        (fun c =>
           if String.eqb (c_project_id c) project_id
           then mkCommission (c_project_id c) (c_total_value c)
                  (c_deposit_amount c) (c_deposit_received_date c)
                  (Some payment_date) (Some amount) (c_commission_notes c)
           else c) cs
  | None =>
      cs ++ [mkCommission project_id (Some amount) None None
               (Some payment_date) (Some amount) None]
  end.

(** [now] is the clock; [today_mountain()] is its date. *)
Definition close_project_with_final_payment (now : datetime)
    (project_id : string) (total_amount_received : Q) (s : db) : db * bool :=
  if engine s then
    let install_date := recorded_install_date project_id s in
    let today := dt_date now in
    let new_status := closeout_status install_date today in
    let s1 := update_projects project_id
                (fun p => set_status (Some new_status)
                            (set_updated_at (Some now)
                               (set_status_updated_at (Some now) p))) s in
    (with_commissions
       (record_final_payment project_id total_amount_received today
          (commissions s1)) s1,
     true)
  else (s, false).

(** ** Lead intake: [create_lead], [create_lead_from_zapier] and the
    webhook handler (api/lead_receiver.py) *)

(** [x or None] on a string. *)
Definition or_none (x : string) : option string :=
  if Str.truthy x then Some x else None.

(** [create_lead(name, phone, email, notes, source, site_address)];
    [new_id] is the value of [uuid.uuid4()]. *)
Definition create_lead (now : datetime) (new_id : string)
    (name phone email notes source site_address : string) (s : db) : db * bool :=
  if engine s then
    let row :=
      mkProject new_id TENANT_ID
        (Some (if Str.truthy name then name else "Unknown"))
        (Some "New") (Some notes) (Some source) (Some true)
        None None None None None None None None None None
        (or_none name) (or_none phone) (or_none email) (or_none site_address)
        None None None None (Some now) (Some now) in
    let h1 := if Str.truthy phone then [mkHistory new_id "phone" phone] else [] in
    let h2 := if Str.truthy email then [mkHistory new_id "email" email] else [] in
    (with_history (project_history s ++ h1 ++ h2)
       (with_projects (projects s ++ [row]) s),
     true)
  else (s, false).

(** A field of the payload: a JSON string or [null], the shape the
    endpoint documents ([{name, phone, email, notes}]). *)
Inductive jval : Type :=
  | JNull
  | JStr (s : string).

(** [data.get(key, "") or rest] *)
Definition get_or (data : gmap string jval) (key : string) (rest : string)
    : string :=
  match data !! key with
  | Some (JStr s) => if Str.truthy s then s else rest
  | Some JNull => rest
  | None => rest
  end.

Definition create_lead_from_zapier (now : datetime) (new_id : string)
    (data : gmap string jval) (s : db) : db * (bool * string) :=
  let name := get_or data "name" (get_or data "client_name" "") in
  let phone := get_or data "phone" (get_or data "phone_number" "") in
  let email := get_or data "email" "" in
  let notes := get_or data "notes" (get_or data "message" (get_or data "details" "")) in
  if negb (Str.truthy name) && negb (Str.truthy phone) && negb (Str.truthy email)
  then (s, (false, "No lead data provided"))
  else
    let '(s1, success) := create_lead now new_id name phone email notes "zapier" "" s in
    if success
    then (s1, (true, "Lead created: "
                       +:+ (if Str.truthy name then name
                            else if Str.truthy email then email else phone)))
    else (s1, (false, "Failed to create lead")).

(** The body of a request after [json.loads]: not JSON at all, a JSON
    object, or a JSON value of another Python type. *)
Inductive body : Type :=
  | BadJson
  | JsonObject (data : gmap string jval)
  | JsonOther (type_name : string).

Record response : Type := mkResponse {
  code : Z;
  payload : option (string * string)   (* "status" and "message" *)
}.

(** [LeadReceiverHandler.do_POST] *)
Definition do_POST (now : datetime) (new_id : string) (path : string)
    (b : body) (s : db) : db * response :=
  if String.eqb path "/api/lead_receiver" then
    match b with
    | JsonObject data =>
        let '(s1, (success, message)) := create_lead_from_zapier now new_id data s in
        if success
        then (s1, mkResponse 200 (Some ("success", message)))
        else (s1, mkResponse 400 (Some ("error", message)))
    | BadJson => (s, mkResponse 400 (Some ("error", "Invalid JSON")))
    | JsonOther type_name =>
        (s, mkResponse 500
              (Some ("error",
                     "'" +:+ type_name +:+ "' object has no attribute 'get'")))
    end
  else (s, mkResponse 404 None).

(** ** Block D: deposit and production lock (views/project_detail.py,
    [render_block_d_deposit_handoff]) *)

(** [project.get(col, "") or ""] *)
Definition or_empty (x : option string) : string := default "" x.

(** A file offered as Golden Proof: a proposal or a photo, with the id
    the selector builds for it. *)
Inductive proof_file : Type :=
  | ProposalFile (file_id : string)
  | PhotoFile (file_id : string).

Definition proof_file_id (f : proof_file) : string :=
  match f with
  | ProposalFile i => "proposal_" +:+ i
  | PhotoFile i => "photo_" +:+ i
  end.

(** The "Lock as Master" button; it is drawn only while the project has
    no master spec. *)
Definition lock_master_click (now : datetime) (project_id : string)
    (master_spec_file_id : string) (selected_file : proof_file)
    (clean_name client_name : string) (s : db) : db * result bool :=
  if negb (Str.truthy master_spec_file_id)
  then set_master_spec now project_id (proof_file_id selected_file)
         clean_name client_name s
  else (s, Ok false).

(** The "Save Signed Spec" button; the uploader is drawn only while the
    project has no signed spec name.  The [TypeError] of
    [set_signed_spec] is caught by the handler. *)
Definition save_signed_click (now : datetime) (project_id : string)
    (signed_spec_file_name : string) (upload_name : string) (s : db) : db :=
  if negb (Str.truthy signed_spec_file_name)
  then
    let safe_name := Str.replace_char " " "_" upload_name in
    let save_path := "./project_files/" +:+ project_id +:+ "_signed_" +:+ safe_name in
    (set_signed_spec now project_id save_path upload_name s).1
  else s.

Definition btn_disabled (master_spec_file_id signed_spec_file_id : string) : bool :=
  let has_signed_spec := Str.truthy signed_spec_file_id in
  let has_master_spec := Str.truthy master_spec_file_id in
  negb has_signed_spec || negb has_master_spec.

(** The "Confirm Deposit & Lock Production" button; a disabled button
    never fires.  [note] and [touch_note] are the two formatted texts. *)
Definition confirm_deposit_click (now : datetime) (project_id : string)
    (master_spec_file_id signed_spec_file_id : string)
    (deposit_date : option date) (deposit_amt : Q) (note touch_note : string)
    (s : db) : db * result unit :=
  if btn_disabled master_spec_file_id signed_spec_file_id then (s, Ok tt)
  else
    let '(s1, success) :=
      mark_deposit_received now project_id deposit_date deposit_amt s in
    if success then
      match lock_production now project_id s1 with
      | (s2, Raise e) => (s2, Raise e)
      | (s2, Ok _) =>
          let s3 := (add_project_note now project_id note s2).1 in
          let s4 := (add_project_touch project_id "deposit_received" touch_note s3).1 in
          (s4, Ok tt)
      end
    else (s1, Ok tt).

(** ** Won and lost ([render_project_identity_header],
    [render_project_lost_dialog], [render_project_decision]) *)

(** [(status or "").lower().replace(" ", "_")] *)
Definition status_lower (status : option string) : string :=
  Str.replace_char " " "_" (Str.lower (or_empty status)).

Definition show_lost_button (status : option string) : bool :=
  negb (Str.mem (status_lower status)
          ["closed_-_won"; "closed_-_lost"; "completed"; "archived"]).

(** The "Project Lost" button followed by "Confirm Lost" in its dialog. *)
Definition project_lost_click (now : datetime) (project_id : string)
    (status : option string) (loss_reason : string) (s : db) : db :=
  if show_lost_button status
  then (mark_project_lost now project_id loss_reason s).1
  else s.

Definition production_statuses : list string :=
  ["active_production"; "in_production"; "production";
   "ready_for_install"; "installed"; "confirmed"].

(** Whether [render_project_decision] draws the "Project Won" button. *)
Definition show_won_button (status : option string)
    (deposit_received_date : option date) : bool :=
  if Str.mem (status_lower status)
       ["closed_-_won"; "closed_-_lost"; "completed"; "archived"; "new"]
  then false
  else
    let is_deposit_received := bool_decide (deposit_received_date <> None) in
    let is_in_production := Str.mem (status_lower status) production_statuses in
    if negb is_deposit_received && negb is_in_production then false else true.

Definition project_won_click (now : datetime) (project_id : string)
    (status : option string) (deposit_received_date : option date) (s : db) : db :=
  if show_won_button status deposit_received_date
  then (mark_project_won now project_id s).1
  else s.

(** ** The design-request email ([render_design_approval_dialog]) *)

Definition early_statuses : list string := ["migrated"; "lead"; "new"; "pending"].

(** What "Send Final Email" does after the send returned [success];
    [attachment_note] is the text about the attachments and
    [attached_filenames] their names. *)
Definition design_email_sent (now : datetime) (project_id recipient : string)
    (success : bool) (attachment_note : string)
    (attached_filenames : list string) (s : db) : db * result unit :=
  if success then
    let s1 := (add_project_touch project_id "email_sent"
                 ("Design request sent to Matt (" +:+ recipient +:+ ")"
                    +:+ attachment_note) s).1 in
    let current_status :=
      match get_project_by_id project_id s1 with
      | Some p => match status p with
                  | Some st => Ok (Str.lower st)
                  | None => Raise AttributeError
                  end
      | None => Ok ""
      end in
    match current_status with
    | Raise e => (s1, Raise e)
    | Ok current_status =>
        let s2 :=
          if Str.mem current_status early_statuses
          then
            let s' := (update_project_status now project_id "Design" s1).1 in
            (add_project_history project_id "STATUS_CHANGE"
               "[SYSTEM] Email sent to Matt - Project moved to Design" s').1
          else
            (add_project_history project_id "EMAIL_SENT"
               ("[SYSTEM] Design request email sent to Matt" +:+ attachment_note)
               s1).1 in
        let s3 :=
          match attached_filenames with
          | [] => s2
          | _ => (add_project_history project_id "EMAIL_ATTACHMENT"
                    ("[ATTACHMENTS] Sent to Matt: "
                       +:+ String.concat ", " attached_filenames) s2).1
          end in
        (s3, Ok tt)
    end
  else (s, Ok tt).

(** ** Alerts: [get_system_alerts] and [snooze_project_alert] *)

Definition datetime_leb (a b : datetime) : bool := negb (datetime_ltb b a).

(** [ORDER BY col ASC] on a nullable time stamp: NULL sorts last. *)
Definition timestamp_asc (a b : option datetime) : Prop :=
  match a, b with
  | Some x, Some y => datetime_leb x y = true
  | _, None => True
  | None, Some _ => False
  end.

#[global] Instance timestamp_asc_dec a b : Decision (timestamp_asc a b).
Proof. destruct a, b; cbn; apply _. Defined.

Definition by_status_updated_at (p q : project) : Prop :=
  timestamp_asc (status_updated_at p) (status_updated_at q).

#[global] Instance by_status_updated_at_dec p q : Decision (by_status_updated_at p q).
Proof. unfold by_status_updated_at. apply _. Defined.

(** [snooze_until IS NULL OR snooze_until < NOW()] *)
Definition not_snoozed (now : datetime) (p : project) : bool :=
  match snooze_until p with
  | None => true
  | Some t => datetime_ltb t now
  end.

(** The [WHERE] clause of the alert query. *)
Definition alert_candidate (now : datetime) (p : project) : bool :=
  String.eqb (tenant_id p) TENANT_ID
  && bool_decide (is_active_v3 p = Some true)
  && match status p with
     | Some st => Str.mem st ["Design"; "Quoting"; "Awaiting Deposit"]
     | None => false
     end
  && bool_decide (status_updated_at p <> None)
  && not_snoozed now p.

Definition alert_query (now : datetime) (s : db) : list project :=
  if engine s
  then merge_sort by_status_updated_at (List.filter (alert_candidate now) (projects s))
  else [].

Record alert : Type := mkAlert {
  a_id : string;
  a_client_name : option string;
  a_status : option string;
  alert_type : string;
  business_days : Z
}.

(** The body of the loop over the rows: the alert of one row, if any. *)
Definition alert_of (now : datetime) (p : project) : option alert :=
  let st := status_lower (status p) in
  match status_updated_at p with
  | None => None
  | Some status_updated =>
      let bd := calculate_business_days (Some (PyDateTime status_updated))
                  (Some (PyDateTime now)) in
      if String.eqb st "design" && (3 <? bd)
      then Some (mkAlert (id p) (client_name p) (status p) "matt_nudge" bd)
      else if String.eqb st "quoting" && (1 <? bd)
      then Some (mkAlert (id p) (client_name p) (status p) "bruno_nudge" bd)
      else if String.eqb st "awaiting_deposit" && (3 <? bd)
      then Some (mkAlert (id p) (client_name p) (status p) "customer_nudge" bd)
      else None
  end.

Definition get_system_alerts (now : datetime) (s : db) : list alert :=
  omap (alert_of now) (alert_query now s).

(** [snooze_project_alert(project_id, hours=24)]; [hours = None] is the
    call without the argument. *)
Definition snooze_project_alert (now : datetime) (project_id : string)
    (hours : option Z) (s : db) : db * result bool :=
  match add_hours now (default 24 hours) with
  | Raise e => (s, Raise e)
  | Ok snooze_until_time =>
      let '(s1, success) :=
        execute_update
          (update_projects project_id (set_snooze_until (Some snooze_until_time))) s in
      (s1, Ok success)
  end.

(** The "Snooze" button of an alert row (views/dashboard.py). *)
Definition snooze_click (now : datetime) (project_id : string) (s : db) : db :=
  (snooze_project_alert now project_id (Some 24) s).1.

(** ** The paid-commissions ledger: [get_paid_commissions_for_ledger] *)

(** A [payment_date] as the views may meet it: absent, a date, or text. *)
Inductive pyfield : Type :=
  | FNone
  | FDate (d : date)
  | FStr (s : string).

(** A row of the ledger query. *)
Record payment : Type := mkPayment {
  pay_id : string;
  pay_client_name : option string;
  pay_status : option string;
  project_value : Q;
  payment_amount : Q;
  pay_commission_rate : Q;
  payment_date : pyfield;
  pay_commission_notes : option string;
  payment_type : string
}.

(** [COALESCE(x, 0)] *)
Definition coalesce0 (x : option Q) : Q := default 0%Q x.

Definition Qlt_bool (a b : Q) : bool := negb (Qle_bool b a).

(** [GREATEST(0, x)] *)
Definition greatest0 (x : Q) : Q := if Qle_bool 0 x then x else 0%Q.

Definition field_of_date (d : option date) : pyfield :=
  match d with Some d => FDate d | None => FNone end.

(** [p.tenant_id = :tenant_id AND p.is_active_v3 = TRUE] *)
Definition in_ledger_scope (p : project) : bool :=
  String.eqb (tenant_id p) TENANT_ID && bool_decide (is_active_v3 p = Some true).

(** [projects p INNER JOIN commissions c ON p.id = c.project_id] *)
Definition joined (s : db) : list (project * commission) :=
  p ← projects s;
  c ← List.filter (fun c => String.eqb (id p) (c_project_id c)) (commissions s);
  [(p, c)].

Definition ledger_project_value (p : project) (c : commission) : Q :=
  match c_total_value c with
  | Some v => v
  | None => coalesce0 (estimated_value p)
  end.

Definition deposit_where (pc : project * commission) : bool :=
  in_ledger_scope pc.1 && bool_decide (c_deposit_received_date pc.2 <> None).

Definition deposit_row (pc : project * commission) : payment :=
  let '(p, c) := pc in
  mkPayment (id p) (client_name p) (status p) (ledger_project_value p c)
    (coalesce0 (c_deposit_amount c))
    (default (10 # 1)%Q (commission_rate p))
    (field_of_date (c_deposit_received_date c))
    (c_commission_notes c) "deposit".

Definition final_where (pc : project * commission) : bool :=
  in_ledger_scope pc.1
  && bool_decide (c_final_payment_date pc.2 <> None)
  && Qle_bool (coalesce0 (c_deposit_amount pc.2))
              (coalesce0 (c_total_amount_received pc.2))
  && Qlt_bool 0 (coalesce0 (c_total_amount_received pc.2)).

Definition final_row (pc : project * commission) : payment :=
  let '(p, c) := pc in
  mkPayment (id p) (client_name p) (status p) (ledger_project_value p c)
    (greatest0 (coalesce0 (c_total_amount_received c)
                - coalesce0 (c_deposit_amount c))%Q)
    (default (10 # 1)%Q (commission_rate p))
    (field_of_date (c_final_payment_date c))
    (c_commission_notes c) "final".

Definition deposit_payments (s : db) : list payment :=
  deposit_row <$> List.filter deposit_where (joined s).

Definition final_payments (s : db) : list payment :=
  final_row <$> List.filter final_where (joined s).

(** [ORDER BY payment_date DESC]; every row of the query has a date. *)
Definition payment_date_desc (a b : payment) : Prop :=
  match payment_date a, payment_date b with
  | FDate x, FDate y => date_leb y x = true
  | _, _ => True
  end.

#[global] Instance payment_date_desc_dec a b : Decision (payment_date_desc a b).
Proof. unfold payment_date_desc. destruct (payment_date a), (payment_date b); apply _. Defined.

Definition get_paid_commissions_for_ledger (s : db) : list payment :=
  if engine s
  then merge_sort payment_date_desc (deposit_payments s ++ final_payments s)
  else [].

(** ** Pay periods (views/ledger.py) *)

Definition month_names : list string :=
  ["January"; "February"; "March"; "April"; "May"; "June"; "July";
   "August"; "September"; "October"; "November"; "December"].

(** [d.strftime("%B %Y")] *)
Definition strftime_B_Y (d : date) : string :=
  default "" (month_names !! Z.to_nat (month d - 1)) +:+ " " +:+ pretty (year d).

(** [monthrange(year, month)[1]] *)
Definition monthrange_days (y m : Z) : Z := days_in_month y m.

Section Ledger.

(** [datetime.strptime(s, "%Y-%m-%d").date()], a function of the Python
    library: a date, or [ValueError]. *)
Variable strptime : string -> result date.

(** The date of a [payment_date] that is present. *)
Definition to_date (x : pyfield) : result date :=
  match x with
  | FDate d => Ok d
  | FStr s => strptime s
  | FNone => Raise AttributeError
  end.

(** [not payment_date] *)
Definition field_missing (x : pyfield) : bool :=
  match x with
  | FNone => true
  | FStr s => negb (Str.truthy s)
  | FDate _ => false
  end.

Definition period_of_day (day : Z) : Z * string * string * string :=
  if day <=? 15
  then (1, "1st - 15th", "Paid on the 20th", "Submission Due: 16th")
  else (2, "16th - End of Month", "Paid on the 5th", "Submission Due: 1st").

Definition get_pay_period_info (payment_date : pyfield)
    : result (Z * string * string * string) :=
  match to_date payment_date with
  | Ok d => Ok (period_of_day (day d))
  | Raise e => Raise e
  end.

(** [get_current_period()] *)
Definition get_current_period (today : date) : Z :=
  if day today <=? 15 then 1 else 2.

(** [get_report_period_info()]: year, month, period, the label, and the
    first and last day of the filter. *)
Definition get_report_period_info (today : date)
    : result (Z * Z * Z * string * Z * Z) :=
  if day today =? 16 then
    Ok (year today, month today, 1, strftime_B_Y today +:+ " 1st - 15th", 1, 15)
  else if day today =? 1 then
    match date_pred (replace_day today 1) with
    | Raise e => Raise e
    | Ok prev_month =>
        let y := year prev_month in
        let m := month prev_month in
        let last_day := monthrange_days y m in
        Ok (y, m, 2,
            strftime_B_Y prev_month +:+ " 16th - " +:+ pretty last_day +:+ "th",
            16, 31)
    end
  else if day today <=? 15 then
    Ok (year today, month today, 1, strftime_B_Y today +:+ " 1st - 15th", 1, 15)
  else
    let last_day := monthrange_days (year today) (month today) in
    Ok (year today, month today, 2,
        strftime_B_Y today +:+ " 16th - " +:+ pretty last_day +:+ "th", 16, 31).

(** [get_report_period_commissions(commissions)] *)
Fixpoint report_filter (y m start_day end_day : Z) (commissions : list payment)
    : result (list payment) :=
  match commissions with
  | [] => Ok []
  | comm :: rest =>
      if field_missing (payment_date comm)
      then report_filter y m start_day end_day rest
      else
        match to_date (payment_date comm) with
        | Raise e => Raise e
        | Ok d =>
            match report_filter y m start_day end_day rest with
            | Raise e => Raise e
            | Ok filtered =>
                if (year d =? y) && (month d =? m)
                   && (start_day <=? day d) && (day d <=? end_day)
                then Ok (comm :: filtered) else Ok filtered
            end
        end
  end.

Definition get_report_period_commissions (today : date)
    (commissions : list payment) : result (list payment) :=
  match get_report_period_info today with
  | Raise e => Raise e
  | Ok (y, m, _, _, start_day, end_day) =>
      report_filter y m start_day end_day commissions
  end.

(** *** [group_commissions_by_period] *)

Definition period_key : Type := Z * Z * Z.

Record period_group : Type := mkGroup {
  month_name : string;
  period_num : Z;
  period_label : string;
  paid_on : string;
  submission_due : string;
  g_year : Z;
  g_month : Z;
  g_commissions : list payment
}.

Definition append_commission (comm : payment) (g : period_group) : period_group :=
  mkGroup (month_name g) (period_num g) (period_label g) (paid_on g)
    (submission_due g) (g_year g) (g_month g) (g_commissions g ++ [comm]).

(** The loop over the commissions; [grouped] is the dictionary. *)
Fixpoint group_loop (commissions : list payment)
    (grouped : gmap period_key period_group)
    : result (gmap period_key period_group) :=
  match commissions with
  | [] => Ok grouped
  | comm :: rest =>
      if field_missing (payment_date comm) then group_loop rest grouped
      else
        match to_date (payment_date comm) with
        | Raise e => Raise e
        | Ok d =>
            match get_pay_period_info (FDate d) with
            | Raise e => Raise e
            | Ok (period_num, period_label, paid_on, submission_due) =>
                let key := (year d, month d, period_num) in
                let grouped1 :=
                  match grouped !! key with
                  | Some _ => grouped
                  | None =>
                      <[key := mkGroup (strftime_B_Y d) period_num period_label
                                 paid_on submission_due (year d) (month d) []]>
                        grouped
                  end in
                group_loop rest (alter (append_commission comm) key grouped1)
            end
        end
  end.

End Ledger.

(** Tuples compare lexicographically; [sorted(..., reverse=True)] puts
    the greatest key first. *)
Definition key_compare (a b : period_key) : comparison :=
  match a.1.1 ?= b.1.1 with
  | Eq => match a.1.2 ?= b.1.2 with
          | Eq => a.2 ?= b.2
          | c => c
          end
  | c => c
  end.

Definition key_ge (a b : period_key) : Prop := key_compare a b <> Lt.
Definition key_gt (a b : period_key) : Prop := key_compare a b = Gt.

#[global] Instance key_ge_dec a b : Decision (key_ge a b).
Proof. unfold key_ge. apply _. Defined.

Definition group_commissions_by_period (strptime : string -> result date)
    (commissions : list payment) : result (list (period_key * period_group)) :=
  match group_loop strptime commissions ∅ with
  | Raise e => Raise e
  | Ok grouped =>
      let sorted_keys := merge_sort key_ge (map_to_list grouped).*1 in
      Ok (omap (fun key => (fun g => (key, g)) <$> grouped !! key) sorted_keys)
  end.

(** ** Deletion: [delete_project]

    The child rows are deleted first, then the row of the project; when
    that row does not exist the transaction is rolled back.  Of the
    child tables only [project_touches] is among the tables modelled
    here. *)
Definition delete_project (project_id : string) (s : db)
    : db * (bool * option string) :=
  if engine s then
    if existsb (row_matches project_id) (projects s)
    then
      (with_projects
         (List.filter (fun p => negb (row_matches project_id p)) (projects s))
         (with_touches
            (List.filter (fun t => negb (String.eqb (t_project_id t) project_id))
                         (project_touches s)) s),
       (true, None))
    else (s, (false, Some "Project not found or already deleted"))
  else (s, (false, Some "Database engine not available")).

(** A row transformer that leaves the key, the lock flag and the two
    references alone. *)
Definition keeps_lock_columns (g : project -> project) : Prop :=
  forall p,
    id (g p) = id p /\ tenant_id (g p) = tenant_id p /\
    production_locked (g p) = production_locked p /\
    master_spec_file_id (g p) = master_spec_file_id p /\
    signed_spec_file_id (g p) = signed_spec_file_id p.

(** ** The actions of the application as a step relation

    One constructor per action modelled above.  A view renders the row
    it read with [get_project_by_id] and its buttons act on that row; a
    new row gets an id that no row has yet.  The last constructor stands
    for the remaining [UPDATE projects ... WHERE id = ... AND tenant_id
    = ...] statements of the application (identity, permit, action,
    archive and restore, promotion, ...), none of which assigns
    [production_locked], [master_spec_file_id] or [signed_spec_file_id]. *)

Definition project_ids (s : db) : list string := id <$> projects s.

Inductive ui_step (s : db) : db -> Prop :=
  | step_create_lead now new_id name phone email notes source site_address :
      new_id ∉ project_ids s ->
      ui_step s (create_lead now new_id name phone email notes source
                   site_address s).1
  | step_webhook now new_id path b :
      new_id ∉ project_ids s ->
      ui_step s (do_POST now new_id path b s).1
  | step_add_lead_note now project_id note :
      ui_step s (add_lead_note now project_id note s).1
  | step_update_status now project_id new_status :
      ui_step s (update_project_status now project_id new_status s).1
  | step_design_email now project_id recipient success note files :
      ui_step s (design_email_sent now project_id recipient success note files s).1
  | step_lock_master now project_id p file clean_name client :
      get_project_by_id project_id s = Some p ->
      ui_step s (lock_master_click now project_id
                   (or_empty (master_spec_file_id p)) file clean_name client s).1
  | step_save_signed now project_id p upload_name :
      get_project_by_id project_id s = Some p ->
      ui_step s (save_signed_click now project_id
                   (or_empty (signed_spec_file_name p)) upload_name s)
  | step_confirm_deposit now project_id p deposit_date deposit_amt note touch_note :
      get_project_by_id project_id s = Some p ->
      ui_step s (confirm_deposit_click now project_id
                   (or_empty (master_spec_file_id p))
                   (or_empty (signed_spec_file_id p))
                   deposit_date deposit_amt note touch_note s).1
  | step_closeout now project_id amount :
      ui_step s (close_project_with_final_payment now project_id amount s).1
  | step_won now project_id p :
      get_project_by_id project_id s = Some p ->
      ui_step s (project_won_click now project_id (status p)
                   (deposit_received_date p) s)
  | step_lost now project_id p reason :
      get_project_by_id project_id s = Some p ->
      ui_step s (project_lost_click now project_id (status p) reason s)
  | step_snooze now project_id :
      ui_step s (snooze_click now project_id s)
  | step_delete project_id :
      ui_step s (delete_project project_id s).1
  | step_other_update project_id f :
      keeps_lock_columns f ->
      ui_step s (execute_update (update_projects project_id f) s).1.

(** A reference to a file is present when the column holds a non-empty
    text. *)
Definition has_ref (x : option string) : Prop := Str.truthy (or_empty x) = true.

Definition specs_present (p : project) : Prop :=
  production_locked p = Some true ->
  has_ref (master_spec_file_id p) /\ has_ref (signed_spec_file_id p).

(** The invariant of the production lock: ids are a key of [projects]
    and a locked row has both references. *)
Definition lock_invariant (s : db) : Prop :=
  NoDup (project_ids s) /\ forall p, p ∈ projects s -> specs_present p.

(** Every row an update of [project_id] touches has both references. *)
Definition specs_on_file (project_id : string) (s : db) : Prop :=
  forall q, q ∈ projects s -> row_matches project_id q = true ->
    has_ref (master_spec_file_id q) /\ has_ref (signed_spec_file_id q).

(** The keys of the closed statuses, as both views spell them. *)
Definition closed_statuses : list string :=
  ["closed_-_won"; "closed_-_lost"; "completed"; "archived"].


(** The name, phone and email of a payload, aliases included. *)
Definition lead_name (data : gmap string jval) : string :=
  get_or data "name" (get_or data "client_name" "").
Definition lead_phone (data : gmap string jval) : string :=
  get_or data "phone" (get_or data "phone_number" "").
Definition lead_email (data : gmap string jval) : string :=
  get_or data "email" "".

Definition ENDPOINT : string := "/api/lead_receiver".

(** *** Reading the periods

    The period of a date, the month before a date, and the events of a
    list that fall in a period: what the report filter and the grouping
    are compared with. *)

Definition pay_period_of (d : date) : Z := (period_of_day (day d)).1.1.1.

Definition previous_month (today : date) : Z * Z :=
  if month today =? 1 then (year today - 1, 12) else (year today, month today - 1).

(** The date of an event, if it has one that can be read. *)
Definition event_date (strptime : string -> result date) (comm : payment)
    : option date :=
  if field_missing (payment_date comm) then None
  else match to_date strptime (payment_date comm) with
       | Ok d => Some d
       | Raise _ => None
       end.

(** Every date that is present can be read, and is a date of the
    calendar. *)
Definition dates_readable (strptime : string -> result date)
    (commissions : list payment) : Prop :=
  forall comm, comm ∈ commissions ->
    field_missing (payment_date comm) = true \/
    exists d, to_date strptime (payment_date comm) = Ok d /\ valid_date d.

Definition in_period (strptime : string -> result date) (y m period : Z)
    (comm : payment) : bool :=
  match event_date strptime comm with
  | Some d => (year d =? y) && (month d =? m) && (pay_period_of d =? period)
  | None => false
  end.

Definition event_key (strptime : string -> result date) (comm : payment)
    : option period_key :=
  (fun d => (year d, month d, pay_period_of d)) <$> event_date strptime comm.

(** The events of a list that belong to a key, in their order. *)
Definition events_of_key (strptime : string -> result date) (k : period_key)
    (commissions : list payment) : list payment :=
  List.filter (fun comm => bool_decide (event_key strptime comm = Some k)) commissions.

(** The key a group was created for. *)
Definition group_key (g : period_group) : period_key :=
  (g_year g, g_month g, period_num g).

(** The list a dictionary entry holds after more events arrived. *)
Definition extend (o : option (list payment)) (l : list payment)
    : option (list payment) :=
  match o with
  | Some l0 => Some (l0 ++ l)
  | None => match l with [] => None | _ => Some l end
  end.

(** The events a dictionary holds under a key, and the dictionaries
    whose groups sit under their own key. *)
Definition group_events (G : gmap period_key period_group) (k : period_key)
    : option (list payment) :=
  g_commissions <$> G !! k.

Definition keyed (G : gmap period_key period_group) : Prop :=
  forall k g, G !! k = Some g -> group_key g = k.

(** ** Cold storage, promotion and the status lists
    (services/database_manager.py) *)

(** [archive_project(project_id)] *)
Definition archive_project (now : datetime) (project_id : string) (s : db)
    : db * bool :=
  if engine s then
    let s1 := update_projects project_id
                (fun p => set_status (Some "Archived")
                            (set_last_touched (Some now) p)) s in
    let s2 := (add_project_history project_id "STATUS_CHANGE"
                 "[SYSTEM] Project moved to Cold Storage" s1).1 in
    (s2, true)
  else (s, false).

(** [restore_project(project_id)] *)
Definition restore_project (now : datetime) (project_id : string) (s : db)
    : db * bool :=
  if engine s then
    let s1 := update_projects project_id
                (fun p => set_status (Some "Block A")
                            (set_last_touched (Some now) p)) s in
    let s2 := (add_project_history project_id "STATUS_CHANGE"
                 "[SYSTEM] Project restored from Cold Storage to Block A" s1).1 in
    (s2, true)
  else (s, false).

(** The loop of [promote_projects] and [demote_projects]: one update
    per id, [flag] being the new [is_active_v3]. *)
Fixpoint set_active_each (flag : bool) (project_ids : list string) (s : db) : db :=
  match project_ids with
  | [] => s
  | pid :: rest =>
      set_active_each flag rest
        (update_projects pid (set_is_active_v3 (Some flag)) s)
  end.

(** [promote_projects(project_ids)] *)
Definition promote_projects (project_ids : list string) (s : db) : db * bool :=
  match project_ids with
  | [] => (s, false)
  | _ => if engine s then (set_active_each true project_ids s, true)
         else (s, false)
  end.

(** [demote_projects(project_ids)] *)
Definition demote_projects (project_ids : list string) (s : db) : db * bool :=
  match project_ids with
  | [] => (s, false)
  | _ => if engine s then (set_active_each false project_ids s, true)
         else (s, false)
  end.

(** [update_lead_status(project_id, new_status)] *)
Definition update_lead_status (now : datetime) (project_id new_status : string)
    (s : db) : db * bool :=
  execute_update
    (update_projects project_id
       (fun p => set_status (Some new_status)
                   (set_updated_at (Some now) (set_status_updated_at (Some now) p)))) s.

(** [ORDER BY col DESC NULLS LAST] on a nullable time stamp. *)
Definition timestamp_desc (a b : option datetime) : Prop :=
  match a, b with
  | Some x, Some y => datetime_leb y x = true
  | _, None => True
  | None, Some _ => False
  end.

#[global] Instance timestamp_desc_dec a b : Decision (timestamp_desc a b).
Proof. destruct a, b; cbn; apply _. Defined.

Definition by_last_touched_desc (p q : project) : Prop :=
  timestamp_desc (last_touched p) (last_touched q).

#[global] Instance by_last_touched_desc_dec p q : Decision (by_last_touched_desc p q).
Proof. unfold by_last_touched_desc. apply _. Defined.

(** [tenant_id = :tenant_id AND is_active_v3 = TRUE AND LOWER(status) =
    key]; a NULL status matches no key. *)
Definition listed_under (key : string) (p : project) : bool :=
  in_ledger_scope p
  && match status p with
     | Some st => String.eqb (Str.lower st) key
     | None => false
     end.

(** The three lists of closed projects; each query selects columns of
    the rows returned here. *)
Definition status_list (key : string) (s : db) : list project :=
  if engine s
  then merge_sort by_last_touched_desc (List.filter (listed_under key) (projects s))
  else [].

Definition get_archived_projects (s : db) : list project := status_list "archived" s.
Definition get_won_projects (s : db) : list project := status_list "closed - won" s.
Definition get_lost_projects (s : db) : list project := status_list "closed - lost" s.

(** [LOWER(status) NOT IN ('archived', 'closed - won', 'closed - lost')];
    NULL is in no list and passes no [NOT IN]. *)
Definition status_open (p : project) : bool :=
  match status p with
  | Some st => negb (Str.mem (Str.lower st)
                       ["archived"; "closed - won"; "closed - lost"])
  | None => false
  end.

(** [get_urgent_items()] *)
Definition by_deposit_date_asc (p q : project) : Prop :=
  match deposit_received_date p, deposit_received_date q with
  | Some x, Some y => date_leb x y = true
  | _, None => True
  | None, Some _ => False
  end.

#[global] Instance by_deposit_date_asc_dec p q : Decision (by_deposit_date_asc p q).
Proof.
  unfold by_deposit_date_asc.
  destruct (deposit_received_date p), (deposit_received_date q); apply _.
Defined.

Definition urgent_where (p : project) : bool :=
  in_ledger_scope p
  && bool_decide (status p = Some "CONFIRMED")
  && bool_decide (deposit_received_date p <> None)
  && status_open p.

Definition get_urgent_items (s : db) : list project :=
  if engine s
  then merge_sort by_deposit_date_asc (List.filter urgent_where (projects s))
  else [].

(** ** Hot leads: [get_new_leads] and the contact buttons *)

(** A row of [get_new_leads]. *)
Record lead : Type := mkLead {
  l_id : string;
  l_name : option string;
  l_phone : string;
  l_email : string;
  l_notes : option string;
  l_source : option string;
  l_status : option string;
  l_created_at : option datetime
}.

(** [COALESCE((SELECT content FROM project_history WHERE project_id = id
    AND entry_type = t ORDER BY created_at DESC LIMIT 1), '')]: the
    entries are kept in the order they were written, so the newest is
    the last. *)
Definition latest_history (project_id entry_type : string) (s : db) : string :=
  default ""
    (h_content <$>
       last (List.filter
               (fun h => String.eqb (h_project_id h) project_id
                         && String.eqb (h_entry_type h) entry_type)
               (project_history s))).

(** [ORDER BY created_at DESC], without [NULLS LAST]: in descending
    order NULL sorts first. *)
Definition by_created_at_desc (p q : project) : Prop :=
  match created_at p, created_at q with
  | Some x, Some y => datetime_leb y x = true
  | None, _ => True
  | Some _, None => False
  end.

#[global] Instance by_created_at_desc_dec p q : Decision (by_created_at_desc p q).
Proof.
  unfold by_created_at_desc. destruct (created_at p), (created_at q); apply _.
Defined.

(** [tenant_id = :tenant_id AND status = 'New' AND is_active_v3 = TRUE] *)
Definition new_lead_where (p : project) : bool :=
  String.eqb (tenant_id p) TENANT_ID
  && bool_decide (status p = Some "New")
  && bool_decide (is_active_v3 p = Some true).

Definition lead_of_project (s : db) (p : project) : lead :=
  mkLead (id p) (client_name p) (latest_history (id p) "phone" s)
    (latest_history (id p) "email" s) (notes p) (source p) (status p)
    (created_at p).

Definition get_new_leads (s : db) : list lead :=
  if engine s
  then lead_of_project s
         <$> merge_sort by_created_at_desc (List.filter new_lead_where (projects s))
  else [].

(** The "Call" button of a hot lead card (views/dashboard.py,
    [render_hot_lead_card]). *)
Definition hot_lead_call_click (now : datetime) (project_id lead_name : string)
    (s : db) : db :=
  let s1 := (update_lead_status now project_id "Block A" s).1 in
  (add_project_history project_id "LEAD_CALLED" ("Called " +:+ lead_name) s1).1.

(** ** Victory lap: [get_victory_lap_items] and its email *)

(** The [contacts] table, which the state above does not hold. *)
Record contact : Type := mkContact {
  ct_project_id : string;
  ct_email : option string;
  ct_is_primary : option bool
}.

Record victory_item : Type := mkVictoryItem {
  v_id : string;
  v_client_name : option string;
  v_status : option string;
  v_target_installation_date : option date;
  v_customer_email : option string
}.

(** [LOWER(p.status) NOT IN ('completed', 'cancelled', 'lost',
    'archived', 'closed - won', 'closed - lost')] *)
Definition victory_status_ok (p : project) : bool :=
  match status p with
  | Some st =>
      negb (Str.mem (Str.lower st)
              ["completed"; "cancelled"; "lost"; "archived";
               "closed - won"; "closed - lost"])
  | None => false
  end.

(** [(SELECT email FROM contacts WHERE project_id = p.id AND is_primary
    = TRUE LIMIT 1)] *)
Definition primary_email (contacts : list contact) (project_id : string)
    : option string :=
  match List.find (fun c => String.eqb (ct_project_id c) project_id
                            && bool_decide (ct_is_primary c = Some true))
                  contacts with
  | Some c => ct_email c
  | None => None
  end.

Section VictoryLap.

(** [ORDER BY p.client_name ASC] compares names under the collation of
    the database. *)
Variable client_name_leb : option string -> option string -> bool.

Definition by_client_name (a b : project * logistics) : Prop :=
  client_name_leb (client_name a.1) (client_name b.1) = true.

#[local] Instance by_client_name_dec a b : Decision (by_client_name a b).
Proof. unfold by_client_name. apply _. Defined.

(** The rows of [projects p LEFT JOIN production_logistics pl ON p.id =
    pl.project_id] that pass [pl.target_installation_date =
    CURRENT_DATE - INTERVAL '1 day']; no recorded date equals the day
    before 0001-01-01. *)
Definition victory_rows (today : date) (s : db) : list (project * logistics) :=
  match date_pred today with
  | Raise _ => []
  | Ok yesterday =>
      p ← projects s;
      pl ← List.filter
             (fun pl => String.eqb (id p) (pl_project_id pl)
                        && bool_decide (target_installation_date pl = Some yesterday))
             (production_logistics s);
      if in_ledger_scope p && victory_status_ok p then [(p, pl)] else []
  end.

Definition get_victory_lap_items (contacts : list contact) (today : date)
    (s : db) : list victory_item :=
  if engine s
  then (fun r : project * logistics =>
          mkVictoryItem (id r.1) (client_name r.1) (status r.1)
            (target_installation_date r.2) (primary_email contacts (id r.1)))
         <$> merge_sort by_client_name (victory_rows today s)
  else [].

End VictoryLap.

(** "Send Email" of the Victory Lap dialog (views/dashboard.py,
    [render_victory_lap_dialog]); [success] is the result of the send,
    which is not attempted without a recipient. *)
Definition victory_email_click (now : datetime) (project_id recipient : string)
    (success : bool) (s : db) : db :=
  if negb (Str.truthy recipient) then s
  else if success then
    let s1 := (add_project_touch project_id "email_sent"
                 ("Victory Lap review request sent to " +:+ recipient) s).1 in
    let s2 := (add_project_history project_id "EMAIL_SENT"
                 ("[VICTORY LAP] Thank you / review request sent to " +:+ recipient)
                 s1).1 in
    let s3 := (update_project_status now project_id "Completed" s2).1 in
    (add_project_history project_id "STATUS_CHANGE"
       "[SYSTEM] Project completed after Victory Lap email" s3).1
  else s.

(** ** Commission amounts and the closeout block *)

(** The two upserts of [save_commission_amounts]: with a deposit date
    the date is written too, without one it is left as it is. *)
Definition upsert_amounts (project_id : string) (total_value deposit_amount : Q)
    (deposit_date : option date) (notes : option string)
    (cs : list commission) : list commission :=
  if existsb (fun c => String.eqb (c_project_id c) project_id) cs
  then List.map
         (fun c =>
            if String.eqb (c_project_id c) project_id
            then mkCommission (c_project_id c) (Some total_value) (Some deposit_amount)
                   (match deposit_date with
                    | Some d => Some d
                    | None => c_deposit_received_date c
                    end)
                   (c_final_payment_date c) (c_total_amount_received c) notes
            else c) cs
  else cs ++ [mkCommission project_id (Some total_value) (Some deposit_amount)
                deposit_date None None notes].

(** [save_commission_amounts(project_id, total_value, deposit_amount,
    deposit_date, notes)] *)
Definition save_commission_amounts (project_id : string)
    (total_value deposit_amount : Q) (deposit_date : option date)
    (notes : option string) (s : db) : db * bool :=
  if engine s
  then (with_commissions
          (upsert_amounts project_id total_value deposit_amount deposit_date notes
             (commissions s)) s, true)
  else (s, false).

(** [get_commission_data(project_id)]: the first row of the project, or
    the default row. *)
Definition get_commission_data (project_id : string) (s : db) : commission :=
  let default_row :=
    mkCommission project_id (Some 0%Q) (Some 0%Q) None None (Some 0%Q) (Some "") in
  if engine s
  then default default_row
         (List.find (fun c => String.eqb (c_project_id c) project_id) (commissions s))
  else default_row.

(** Block G (views/project_detail.py, [render_block_g_project_closeout]):
    the statuses in which the block is drawn, and whether it offers the
    "Final Balance Received - Close Project" button. *)
Definition closeout_statuses : list string :=
  ["ACTIVE PRODUCTION"; "in_production"; "production"; "ready_for_install";
   "installed"; "permit_pending"].

Definition closeout_offered (project_id : string) (status : option string)
    (s : db) : bool :=
  let key := status_lower status in
  let is_production :=
    Str.mem key
      (List.map (fun st => Str.replace_char " " "_" (Str.lower st))
                closeout_statuses) in
  let is_completed := String.eqb key "completed" in
  if negb is_production && negb is_completed then false
  else
    let final_payment_date := c_final_payment_date (get_commission_data project_id s) in
    if is_completed && bool_decide (final_payment_date <> None) then false
    else true.

(** The click on that button; [note] and [touch_note] are the two
    formatted texts. *)
Definition closeout_click (now : datetime) (project_id : string)
    (status : option string) (final_amount : Q) (note touch_note : string)
    (s : db) : db * bool :=
  if closeout_offered project_id status s then
    let '(s1, success) :=
      close_project_with_final_payment now project_id final_amount s in
    if success then
      let s2 := (add_project_note now project_id note s1).1 in
      ((add_project_touch project_id "project_closed" touch_note s2).1, true)
    else (s1, false)
  else (s, false).

(** ** The pricing-request email ([render_pricing_approval_dialog]) *)

Definition pricing_statuses : list string :=
  ["migrated"; "lead"; "new"; "pending"; "design"].

(** What "Send Final Email" of the pricing dialog does after the send
    returned [success]; [attach_note] is the text about the files and
    [attached_filenames] the names of the files that could be read. *)
Definition pricing_email_sent (now : datetime) (project_id recipient : string)
    (success : bool) (attached_filenames : list string) (s : db)
    : db * result unit :=
  if success then
    let attach_note :=
      match attached_filenames with
      | [] => ""
      | _ => " with " +:+ pretty (length attached_filenames) +:+ " file(s)"
      end in
    let s1 := (add_project_touch project_id "email_sent"
                 ("Pricing request sent to Bruno (" +:+ recipient +:+ ")"
                    +:+ attach_note) s).1 in
    let s2 :=
      fold_left
        (fun acc fname =>
           (add_project_history project_id "EMAIL_ATTACHMENT"
              ("[SYSTEM] File permissions updated and attachment attempted for "
                 +:+ fname) acc).1)
        attached_filenames s1 in
    match get_project_by_id project_id s2 with
    | Some p =>
        match status p with
        | None => (s2, Raise AttributeError)
        | Some st =>
            if Str.mem (Str.lower st) pricing_statuses
            then
              let s3 := (update_project_status now project_id "Quoting" s2).1 in
              ((add_project_history project_id "STATUS_CHANGE"
                  "[SYSTEM] Email sent to Bruno - Project moved to Quoting" s3).1,
               Ok tt)
            else
              ((add_project_history project_id "EMAIL_SENT"
                  "[SYSTEM] Pricing request email sent to Bruno" s2).1, Ok tt)
        end
    | None =>
        ((add_project_history project_id "EMAIL_SENT"
            "[SYSTEM] Pricing request email sent to Bruno" s2).1, Ok tt)
    end
  else (s, Ok tt).

(** ** Dates against today (services/timezone_utils.py)

    [today] is [today_mountain()]; a [datetime] argument is reduced to
    its date. *)

Definition is_today_mountain (today : date) (dt : option pydate) : bool :=
  match dt with
  | None => false
  | Some x => bool_decide (as_date x = today)
  end.

Definition is_overdue_mountain (today : date) (dt : option pydate) : bool :=
  match dt with
  | None => false
  | Some x => date_ltb (as_date x) today
  end.

(** [(dt - today).days] is the difference of the ordinals. *)
Definition days_until_mountain (today : date) (dt : option pydate) : Z :=
  match dt with
  | None => 0
  | Some x => toordinal (as_date x) - toordinal today
  end.

(** ** Deadline days and report labels (views/ledger.py) *)

Definition deadline_text (period : string) (month_name : string) : string :=
  "Period " +:+ period +:+ " Complete (" +:+ month_name
    +:+ "). Review and send commission report to Bruno today.".

(** [get_deadline_alert()] *)
Definition get_deadline_alert (today : date) : result (bool * string) :=
  if day today =? 16 then Ok (true, deadline_text "1" (strftime_B_Y today))
  else if day today =? 1 then
    match date_pred (replace_day today 1) with
    | Raise e => Raise e
    | Ok prev_month => Ok (true, deadline_text "2" (strftime_B_Y prev_month))
    end
  else Ok (false, "").

(** The [date_range] that [send_period_report(year, month, period_num,
    ...)] hands to the report; [datetime(year, month, 1)] raises
    [ValueError] outside the calendar. *)
Definition period_report_range (y m period_num : Z) : result string :=
  if (MINYEAR <=? y) && (y <=? MAXYEAR) && (1 <=? m) && (m <=? 12) then
    let month_name := strftime_B_Y (mkDate y m 1) in
    if period_num =? 1 then Ok (month_name +:+ " 1st - 15th")
    else Ok (month_name +:+ " 16th - " +:+ pretty (monthrange_days y m) +:+ "th")
  else Raise ValueError.

(** ** The action hub (views/dashboard.py, [render_action_hub]) *)

(** The columns of an action or urgent item that the hub reads. *)
Record action_item : Type := mkActionItem {
  ai_id : string;
  ai_due_date : pyfield;
  ai_action_note : option string
}.

Record buckets : Type := mkBuckets {
  red_items : list action_item;
  yellow_items : list action_item;
  grey_items : list action_item
}.

Section ActionHub.

(** [datetime.fromisoformat(str(x).replace('Z', '+00:00')).date()], or
    [None] when it raises. *)
Variable fromisoformat : string -> option date.

(** [str.strip], a function of the Python library. *)
Variable strip : string -> string.

(** The date an item is due, if it has one that can be read. *)
Definition due_of (x : pyfield) : option date :=
  match x with
  | FNone => None
  | FDate d => Some d
  | FStr s => if Str.truthy s then fromisoformat s else None
  end.

(** The first loop: the action items, one after the other. *)
Definition place_action (tomorrow day_5 : date) (b : buckets) (item : action_item)
    : buckets :=
  if field_missing (ai_due_date item) then
    if Str.truthy (strip (or_empty (ai_action_note item)))
    then mkBuckets (red_items b) (yellow_items b) (grey_items b ++ [item])
    else b
  else
    match due_of (ai_due_date item) with
    | Some due =>
        if date_leb due tomorrow
        then mkBuckets (red_items b ++ [item]) (yellow_items b) (grey_items b)
        else if date_leb due day_5
        then mkBuckets (red_items b) (yellow_items b ++ [item]) (grey_items b)
        else mkBuckets (red_items b) (yellow_items b ++ [item]) (grey_items b)
    | None => b
    end.

(** The second loop: an urgent item joins the red ones unless its id is
    among them already. *)
Definition place_urgent (b : buckets) (item : action_item) : buckets :=
  if existsb (fun r => String.eqb (ai_id r) (ai_id item)) (red_items b)
  then b
  else mkBuckets (red_items b ++ [item]) (yellow_items b) (grey_items b).

Definition action_hub_buckets (today : date)
    (action_items urgent_items : list action_item) : buckets :=
  let tomorrow := date_succ today in
  let day_5 := date_add_days_nat 5 today in
  fold_left place_urgent urgent_items
    (fold_left (place_action tomorrow day_5) action_items (mkBuckets [] [] [])).

End ActionHub.

(** ** Sample data

    Concrete rows and states on which the properties below are run. *)

(** A project in ACTIVE PRODUCTION with an installation date. *)
Definition closeout_project : project :=
  mkProject "p1" TENANT_ID (Some "Acme Co") (Some "ACTIVE PRODUCTION") None None
    (Some true) None None None None None None None None None None
    None None None None None None None None None None.

Definition closeout_db (install : option date) : db :=
  mkDb true [closeout_project] []
    [mkLogistics "p1" install (Some "in_production")] [] [].

(** A project awaiting its deposit, with a Golden Proof and a signed
    spec on file. *)
Definition deposit_project : project :=
  mkProject "p1" TENANT_ID (Some "Acme Co") (Some "Awaiting Deposit") None None
    (Some true) None None None None
    (Some "proposal_7") (Some "proof.pdf") None
    (Some "./project_files/p1_signed_proof.pdf") (Some "proof.pdf") None
    None None None None None None None None None None.

Definition deposit_db : db := mkDb true [deposit_project] [] [] [] [].

Definition clock0 : datetime := mkDateTime (mkDate 2024 3 14) 36000.

(** [deposit_db] after "Confirm Deposit & Lock Production". *)
Definition deposit_db_locked : db :=
  (confirm_deposit_click clock0 "p1"
     (or_empty (master_spec_file_id deposit_project))
     (or_empty (signed_spec_file_id deposit_project))
     (Some (mkDate 2024 3 14)) 2500 "Deposit received" "Deposit received" deposit_db).1.

(** A project with a recorded deposit; [active] is its [is_active_v3]. *)
Definition ledger_project (active : bool) : project :=
  mkProject "p1" TENANT_ID (Some "Acme Co") (Some "ACTIVE PRODUCTION") None None
    (Some active) (Some 5000%Q) None None None None None None None None None
    None None None None None None None None None None.

Definition ledger_commission : commission :=
  mkCommission "p1" (Some 5000%Q) (Some 2500%Q) (Some (mkDate 2024 3 14))
    None None None.

Definition ledger_db (active : bool) : db :=
  mkDb true [ledger_project active] [ledger_commission] [] [] [].

(** A project of the tenant in a given status, alone in the database. *)
Definition project_in (st : string) : project :=
  mkProject "p1" TENANT_ID (Some "Acme Co") (Some st) None None
    (Some true) None None None None None None None None None None
    None None None None None None None None None None.

Definition db_in (st : string) : db := mkDb true [project_in st] [] [] [] [].

(** A project in 'Design' since 2024-03-01, snoozed or not. *)
Definition design_project (snooze : option datetime) : project :=
  mkProject "p1" TENANT_ID (Some "Acme Co") (Some "Design") None None
    (Some true) None None None None None None None None None None
    None None None None None snooze
    (Some (mkDateTime (mkDate 2024 3 1) 32400)) None None None.

Definition design_db (snooze : option datetime) : db :=
  mkDb true [design_project snooze] [] [] [] [].

(** The payload [{"name": "Acme Co", "phone": "555-1234"}] and an empty
    database, with and without an engine. *)
Definition acme_payload : gmap string jval :=
  <["name" := JStr "Acme Co"]> (<["phone" := JStr "555-1234"]> ∅).

Definition empty_db (engine_available : bool) : db :=
  mkDb engine_available [] [] [] [] [].

(** A reader of text dates that knows no date, and three events of
    March and April 2024. *)
Definition no_strptime (_ : string) : result date := Raise ValueError.

Definition event_on (pid : string) (d : date) : payment :=
  mkPayment pid (Some "Acme Co") (Some "ACTIVE PRODUCTION") 5000%Q 2500%Q
    (10 # 1)%Q (FDate d) None "deposit".

Definition sample_events : list payment :=
  [event_on "p1" (mkDate 2024 3 15); event_on "p2" (mkDate 2024 4 2);
   event_on "p3" (mkDate 2024 3 16)].

(** * Part II: properties *)

Lemma Str_mem_In x l : Str.mem x l = true <-> In x l.
Proof.
  unfold Str.mem. rewrite existsb_exists. split.
  - intros (y & Hy & Heq). apply String.eqb_eq in Heq. by subst.
  - intros Hin. exists x. split; [done | apply String.eqb_refl].
Qed.

(** ** Calendar facts *)


Lemma valid_date_wf d : valid_date d -> wf_date d.
Proof. unfold valid_date, wf_date. tauto. Qed.

Lemma days_in_month_bounds y m : 28 <= days_in_month y m <= 31.
Proof.
  unfold days_in_month.
  repeat match goal with |- context [if ?b then _ else _] => destruct b end; lia.
Qed.

Lemma days_before_month_succ y m :
  1 <= m -> days_before_month y (m + 1) = days_before_month y m + days_in_month y m.
Proof.
  intros Hm. unfold days_before_month.
  replace (Z.to_nat (m + 1 - 1)) with (S (Z.to_nat (m - 1))) by lia.
  cbn [days_before_month_nat]. do 2 f_equal. lia.
Qed.

Lemma days_before_month_12 y :
  days_before_month y 12 = if is_leap y then 335 else 334.
Proof.
  unfold days_before_month. change (Z.to_nat (12 - 1)) with 11%nat.
  cbn [days_before_month_nat]. unfold days_in_month.
  destruct (is_leap y); reflexivity.
Qed.

Lemma days_before_year_succ y :
  days_before_year (y + 1) = days_before_year y + if is_leap y then 366 else 365.
Proof.
  unfold days_before_year, is_leap. cbn zeta.
  replace (y + 1 - 1) with y by lia.
  destruct (y mod 4 =? 0) eqn:H4; destruct (y mod 100 =? 0) eqn:H100;
    destruct (y mod 400 =? 0) eqn:H400; cbn [andb orb negb];
    rewrite ?Z.eqb_eq, ?Z.eqb_neq in *;
    Z.div_mod_to_equations; lia.
Qed.

Lemma toordinal_succ d : wf_date d -> toordinal (date_succ d) = toordinal d + 1.
Proof.
  intros [Hm Hd]. unfold date_succ, toordinal.
  destruct (day d <? _) eqn:Hlt; [cbn; lia |].
  apply Z.ltb_ge in Hlt.
  destruct (month d <? 12) eqn:Hm12; cbn [year month day].
  - rewrite days_before_month_succ by lia. lia.
  - apply Z.ltb_ge in Hm12. assert (month d = 12) as Hmd by lia.
    rewrite Hmd in *. rewrite days_before_year_succ, days_before_month_12.
    change (days_before_month (year d + 1) 1) with 0.
    assert (days_in_month (year d) 12 = 31) as H31 by reflexivity.
    destruct (is_leap (year d)); lia.
Qed.

Lemma date_succ_wf d : wf_date d -> wf_date (date_succ d).
Proof.
  intros [Hm Hd]. unfold date_succ, wf_date.
  destruct (day d <? _) eqn:Hlt; [apply Z.ltb_lt in Hlt; cbn; lia |].
  destruct (month d <? 12) eqn:Hm12; cbn [year month day].
  - apply Z.ltb_lt in Hm12.
    pose proof (days_in_month_bounds (year d) (month d + 1)). lia.
  - pose proof (days_in_month_bounds (year d + 1) 1). lia.
Qed.

Lemma toordinal_add_days n d :
  wf_date d -> toordinal (date_add_days_nat n d) = toordinal d + Z.of_nat n.
Proof.
  revert d. induction n as [|n IH]; intros d Hd; cbn [date_add_days_nat].
  - lia.
  - rewrite IH by (by apply date_succ_wf). rewrite toordinal_succ by done. lia.
Qed.

Lemma days_before_month_nat_mono y (m n : nat) :
  (m <= n)%nat -> days_before_month_nat y m <= days_before_month_nat y n.
Proof.
  induction 1 as [| n Hle IH]; [lia |]. cbn [days_before_month_nat].
  pose proof (days_in_month_bounds y (Z.of_nat (S n))). lia.
Qed.

Lemma days_before_month_mono y m n :
  m <= n -> days_before_month y m <= days_before_month y n.
Proof. intros H. apply days_before_month_nat_mono. lia. Qed.

Lemma days_before_year_mono y1 y2 :
  y1 <= y2 -> days_before_year y1 <= days_before_year y2.
Proof.
  intros H. unfold days_before_year. cbn zeta.
  assert (forall a, a / 100 = a / 4 / 25) as H100
    by (intros a; rewrite Z.div_div by lia; reflexivity).
  assert (forall a, a / 400 = a / 4 / 25 / 4) as H400
    by (intros a; rewrite !Z.div_div by lia; reflexivity).
  rewrite !H100, !H400.
  Z.div_mod_to_equations. lia.
Qed.

(** The last day of a month is before the first of the next. *)
Lemma toordinal_bounds d :
  wf_date d ->
  days_before_year (year d) + days_before_month (year d) (month d) < toordinal d /\
  toordinal d <= days_before_year (year d) + days_before_month (year d) (month d + 1) /\
  toordinal d <= days_before_year (year d + 1).
Proof.
  intros [Hm Hd]. unfold toordinal.
  rewrite days_before_month_succ by lia.
  split; [lia |]. split; [lia |].
  rewrite days_before_year_succ.
  pose proof (days_before_month_mono (year d) (month d + 1) 13) as Hmono.
  rewrite days_before_month_succ in Hmono by lia.
  replace 13 with (12 + 1) in Hmono by lia.
  rewrite (days_before_month_succ _ 12), days_before_month_12 in Hmono by lia.
  change (days_in_month (year d) 12) with 31 in Hmono.
  destruct (is_leap (year d)); lia.
Qed.

Lemma toordinal_lt a b :
  wf_date a -> wf_date b -> date_compare a b = Lt -> toordinal a < toordinal b.
Proof.
  intros Ha Hb. unfold date_compare.
  pose proof (toordinal_bounds a Ha) as (_ & Ha2 & Ha3).
  pose proof (toordinal_bounds b Hb) as (Hb1 & _ & _).
  destruct (Z.compare_spec (year a) (year b)) as [Hy | Hy | Hy]; [| | done].
  - destruct (Z.compare_spec (month a) (month b)) as [Hm | Hm | Hm]; [| | done].
    + intros Hd. change (day a < day b) in Hd. unfold toordinal.
      rewrite Hy, Hm. lia.
    + intros _. rewrite Hy in *.
      pose proof (days_before_month_mono (year b) (month a + 1) (month b)). lia.
  - intros _. pose proof (days_before_year_mono (year a + 1) (year b)).
    pose proof (days_before_month_mono (year b) 1 (month b)) as Hpos.
    change (days_before_month (year b) 1) with 0 in Hpos.
    destruct Hb as [? _]. lia.
Qed.

(** On dates of the calendar the order of the tuples is the order of
    the ordinals. *)
Lemma date_compare_toordinal a b :
  wf_date a -> wf_date b -> date_compare a b = (toordinal a ?= toordinal b).
Proof.
  intros Ha Hb. destruct (date_compare a b) eqn:Hc.
  - unfold date_compare in Hc.
    destruct (Z.compare_spec (year a) (year b)); try done.
    destruct (Z.compare_spec (month a) (month b)); try done.
    apply Z.compare_eq in Hc. unfold toordinal.
    symmetry. apply Z.compare_eq_iff. congruence.
  - symmetry. apply Z.compare_lt_iff. by apply toordinal_lt.
  - symmetry. apply Z.compare_gt_iff. apply toordinal_lt; [done .. |].
    unfold date_compare in *. rewrite (Z.compare_antisym (year a)),
      (Z.compare_antisym (month a)), (Z.compare_antisym (day a)).
    destruct (year a ?= year b), (month a ?= month b), (day a ?= day b); done.
Qed.

(** ** The business-day loop counts the weekdays of the half-open range *)

Lemma weekdays_from_until_empty lo hi : hi <= lo -> weekdays_from_until lo hi = 0.
Proof.
  intros H. unfold weekdays_from_until, seqZ.
  replace (Z.to_nat (hi - lo)) with 0%nat by lia. reflexivity.
Qed.

Lemma weekdays_from_until_step lo hi :
  lo < hi ->
  weekdays_from_until lo hi =
    (if is_weekday lo then 1 else 0) + weekdays_from_until (lo + 1) hi.
Proof.
  intros H. unfold weekdays_from_until.
  rewrite seqZ_cons by lia. cbn [List.filter].
  replace (Z.succ lo) with (lo + 1) by lia.
  replace (Z.pred (hi - lo)) with (hi - (lo + 1)) by lia.
  destruct (is_weekday lo); cbn [List.length]; lia.
Qed.

Lemma business_days_loop_exit n current to_date business_days :
  (Z.to_nat (to_date - current) <= n)%nat ->
  business_days_loop n current to_date business_days =
    business_days + weekdays_from_until current to_date.
Proof.
  revert current business_days.
  induction n as [|n IH]; intros current acc Hn; cbn [business_days_loop].
  - rewrite weekdays_from_until_empty by lia. lia.
  - destruct (current <? to_date) eqn:Hlt.
    + apply Z.ltb_lt in Hlt. rewrite IH by lia.
      rewrite (weekdays_from_until_step current) by done.
      unfold is_weekday. destruct (weekday_of_ordinal current <? 5); lia.
    + apply Z.ltb_ge in Hlt. rewrite weekdays_from_until_empty by lia. lia.
Qed.

Lemma calculate_business_days_count f t :
  calculate_business_days (Some f) (Some t) =
    weekdays_from_until (toordinal (as_date f)) (toordinal (as_date t)).
Proof.
  unfold calculate_business_days. cbn zeta.
  rewrite business_days_loop_exit by lia. lia.
Qed.

Lemma is_weekday_shift lo k w :
  weekday_of_ordinal lo = w -> is_weekday (lo + k) = ((w + k) mod 7 <? 5).
Proof.
  intros <-. unfold is_weekday, weekday_of_ordinal. f_equal.
  Z.div_mod_to_equations. lia.
Qed.

(** Four days from a Monday hold four weekdays, three days from a Friday
    hold one. *)
Lemma weekdays_monday_run lo :
  weekday_of_ordinal lo = 0 -> weekdays_from_until lo (lo + 4) = 4.
Proof.
  intros Hw.
  rewrite (weekdays_from_until_step lo) by lia.
  rewrite (weekdays_from_until_step (lo + 1)) by lia.
  rewrite (weekdays_from_until_step (lo + 1 + 1)) by lia.
  rewrite (weekdays_from_until_step (lo + 1 + 1 + 1)) by lia.
  rewrite weekdays_from_until_empty by lia.
  rewrite <- (Z.add_0_r lo) at 1. rewrite <- !Z.add_assoc.
  rewrite !(is_weekday_shift lo _ 0 Hw). reflexivity.
Qed.

Lemma weekdays_friday_run lo :
  weekday_of_ordinal lo = 4 -> weekdays_from_until lo (lo + 3) = 1.
Proof.
  intros Hw.
  rewrite (weekdays_from_until_step lo) by lia.
  rewrite (weekdays_from_until_step (lo + 1)) by lia.
  rewrite (weekdays_from_until_step (lo + 1 + 1)) by lia.
  rewrite weekdays_from_until_empty by lia.
  rewrite <- (Z.add_0_r lo) at 1. rewrite <- !Z.add_assoc.
  rewrite !(is_weekday_shift lo _ 4 Hw). reflexivity.
Qed.

Lemma weekdays_from_until_members lo hi n :
  In n (List.filter is_weekday (seqZ lo (hi - lo))) <->
  lo <= n < hi /\ weekday_of_ordinal n < 5.
Proof.
  rewrite filter_In, <- list_elem_of_In, elem_of_seqZ.
  unfold is_weekday. rewrite Z.ltb_lt. lia.
Qed.

(** ** C2: business days between two dates *)

(** C2 (as amended): [calculate_business_days] returns 0 when either
    argument is absent and otherwise the number of weekdays (Monday to
    Friday) [d] with [from <= d < to]: the start date is counted, the end
    date is not.  Hence 0 on [(d, d)], 4 from a Monday to the Friday of
    that week and 1 from a Friday to the Monday after it. *)
Theorem calculate_business_days_half_open :
  (forall t, calculate_business_days None t = 0) /\
  (forall f, calculate_business_days f None = 0) /\
  (forall f t,
     calculate_business_days (Some f) (Some t) =
       weekdays_from_until (toordinal (as_date f)) (toordinal (as_date t))) /\
  (forall d, calculate_business_days (Some d) (Some d) = 0) /\
  (forall d, valid_date d -> weekday d = 0 ->
     calculate_business_days (Some (PyDate d))
       (Some (PyDate (date_add_days_nat 4 d))) = 4) /\
  (forall d, valid_date d -> weekday d = 4 ->
     calculate_business_days (Some (PyDate d))
       (Some (PyDate (date_add_days_nat 3 d))) = 1).
Proof.
  repeat split.
  - intros f. by destruct f.
  - apply calculate_business_days_count.
  - intros d. rewrite calculate_business_days_count.
    apply weekdays_from_until_empty. lia.
  - intros d Hd Hw. rewrite calculate_business_days_count. cbn [as_date].
    rewrite toordinal_add_days by (by apply valid_date_wf).
    by apply weekdays_monday_run.
  - intros d Hd Hw. rewrite calculate_business_days_count. cbn [as_date].
    rewrite toordinal_add_days by (by apply valid_date_wf).
    by apply weekdays_friday_run.
Qed.

(** Monday 2024-01-01 to Friday 2024-01-05. *)
Lemma calculate_business_days_half_open_witness :
  valid_date (mkDate 2024 1 1) /\ weekday (mkDate 2024 1 1) = 0 /\
  calculate_business_days (Some (PyDate (mkDate 2024 1 1)))
    (Some (PyDate (mkDate 2024 1 5))) = 4.
Proof.
  assert (valid_date (mkDate 2024 1 1)) as Hv.
  { unfold valid_date, MINYEAR, MAXYEAR. cbn. lia. }
  split; [exact Hv |]. split; [reflexivity |].
  exact (proj1 (proj2 (proj2 (proj2 (proj2 calculate_business_days_half_open))))
           (mkDate 2024 1 1) Hv eq_refl).
Defined.

(** The start date is counted: from Friday 2024-01-05 to Monday
    2024-01-08 the function returns 1, the Friday, although no weekday
    lies strictly between the two dates. *)
Lemma calculate_business_days_counts_start_date :
  let fri := mkDate 2024 1 5 in
  let mon := mkDate 2024 1 8 in
  weekday fri = 4 /\ weekday mon = 0 /\
  calculate_business_days (Some (PyDate fri)) (Some (PyDate mon)) = 1 /\
  weekdays_strictly_between (toordinal fri) (toordinal mon) = 0 /\
  calculate_business_days (Some (PyDate fri)) (Some (PyDate mon)) <>
    weekdays_strictly_between (toordinal fri) (toordinal mon).
Proof. vm_compute. repeat split; congruence. Qed.

(** ** Row updates *)

Lemma elem_of_filter_bool {A} (c : A -> bool) (l : list A) x :
  x ∈ List.filter c l <-> x ∈ l /\ c x = true.
Proof. by rewrite !list_elem_of_In, filter_In. Qed.

Lemma lookup_map {A B} (f : A -> B) (l : list A) (i : nat) :
  List.map f l !! i = f <$> (l !! i).
Proof.
  revert i. induction l as [|x l IH]; intros [|i]; cbn; done.
Qed.

Lemma update_projects_lookup project_id f s i :
  projects (update_projects project_id f s) !! i =
    (fun p => if row_matches project_id p then f p else p) <$> (projects s !! i).
Proof. unfold update_projects. cbn. apply lookup_map. Qed.

Lemma date_compare_succ d : wf_date d -> date_compare d (date_succ d) = Lt.
Proof.
  intros [Hm Hd]. unfold date_compare, date_succ.
  destruct (day d <? _) eqn:Hlt; cbn [year month day].
  - rewrite !Z.compare_refl. apply Z.compare_lt_iff. lia.
  - destruct (month d <? 12) eqn:Hm12; cbn [year month day].
    + rewrite Z.compare_refl.
      assert ((month d ?= month d + 1) = Lt) as -> by (apply Z.compare_lt_iff; lia).
      done.
    + assert ((year d ?= year d + 1) = Lt) as -> by (apply Z.compare_lt_iff; lia).
      done.
Qed.

(** ** C3: closeout with a final payment *)

(** C3: when [close_project_with_final_payment] runs with an engine, it
    returns [True] and every row of the project gets the status
    ['Confirmed'] if the recorded target installation date exists and is
    strictly after today, and otherwise the status Completed, statuses
    being compared as the views compare them, without regard to case and
    separators ([status_lower]).  In particular a project whose target
    installation date is tomorrow ends with status ['Confirmed'], which
    is not Completed. *)
Theorem close_project_with_final_payment_status
    now project_id amount s i p :
  engine s = true ->
  projects s !! i = Some p ->
  row_matches project_id p = true ->
  let r := close_project_with_final_payment now project_id amount s in
  let today := dt_date now in
  let install_date := recorded_install_date project_id s in
  r.2 = true /\
  exists p', projects r.1 !! i = Some p' /\ id p' = id p /\
    ((exists d, install_date = Some d /\ date_ltb today d = true) ->
       status p' = Some "Confirmed") /\
    ((install_date = None \/
      exists d, install_date = Some d /\ date_ltb today d = false) ->
       status_lower (status p') = status_lower (Some "Completed") /\
       status_lower (status p') <> status_lower (Some "Confirmed")) /\
    (wf_date today -> install_date = Some (date_succ today) ->
       status p' = Some "Confirmed" /\
       status_lower (status p') <> status_lower (Some "Completed")).
Proof.
  intros He Hp Hm. cbn zeta. unfold close_project_with_final_payment.
  rewrite He. cbn [fst snd]. split; [done |].
  eexists. split.
  { cbn [with_commissions projects]. rewrite update_projects_lookup, Hp.
    cbn. rewrite Hm. reflexivity. }
  split; [done |]. cbn [status set_status]. split; [| split].
  - intros (d & -> & Hlt). cbn. by rewrite Hlt.
  - intros [-> | (d & -> & Hlt)]; cbn [closeout_status]; rewrite ?Hlt;
      split; [reflexivity | by vm_compute | reflexivity | by vm_compute].
  - intros Hwf ->. cbn [closeout_status]. unfold date_ltb.
    rewrite date_compare_succ by done. split; [done | by vm_compute].
Qed.

(** The project of [closeout_db], installation planned for 2024-03-15,
    closed out on 2024-03-14. *)
Lemma close_project_with_final_payment_status_witness :
  let now := mkDateTime (mkDate 2024 3 14) 36000 in
  let s := closeout_db (Some (mkDate 2024 3 15)) in
  exists p',
    projects (close_project_with_final_payment now "p1" 5000 s).1 !! 0%nat = Some p' /\
    id p' = "p1" /\ status p' = Some "Confirmed".
Proof.
  cbn zeta.
  destruct (close_project_with_final_payment_status
              (mkDateTime (mkDate 2024 3 14) 36000) "p1" 5000
              (closeout_db (Some (mkDate 2024 3 15))) 0 closeout_project
              eq_refl eq_refl eq_refl) as (_ & p' & H1 & H2 & H3 & _).
  exists p'. split; [assumption |]. split; [assumption |].
  apply H3. exists (mkDate 2024 3 15). by split.
Defined.

(** ** The production lock *)

Lemma keeps_lock_columns_cond (c : project -> bool) f :
  keeps_lock_columns f -> keeps_lock_columns (fun p => if c p then f p else p).
Proof. intros Hf p. destruct (c p); [apply Hf | done]. Qed.

Lemma keeps_lock_columns_specs g p : keeps_lock_columns g -> specs_present p -> specs_present (g p).
Proof.
  intros Hg Hp. destruct (Hg p) as (_ & _ & Hl & Hm & Hs).
  unfold specs_present. rewrite Hl, Hm, Hs. exact Hp.
Qed.

Lemma elem_of_map {A B} (f : A -> B) (l : list A) (y : B) :
  y ∈ List.map f l <-> exists x, y = f x /\ x ∈ l.
Proof.
  rewrite list_elem_of_In, in_map_iff. split.
  - intros (x & <- & Hx). exists x. by rewrite list_elem_of_In.
  - intros (x & -> & Hx). exists x. by rewrite <- list_elem_of_In.
Qed.

Lemma map_ids (g : project -> project) (ps : list project) :
  (forall p, p ∈ ps -> id (g p) = id p) -> id <$> List.map g ps = id <$> ps.
Proof.
  induction ps as [|p ps IH]; intros Hg; [done |].
  cbn. rewrite Hg by left. f_equal. apply IH. intros q Hq. apply Hg. by right.
Qed.

Lemma lock_invariant_map g s :
  (forall p, p ∈ projects s -> id (g p) = id p) ->
  (forall p, p ∈ projects s -> specs_present p -> specs_present (g p)) ->
  lock_invariant s ->
  lock_invariant (with_projects (List.map g (projects s)) s).
Proof.
  intros Hid Hsp [Hnd Hall]. split.
  - unfold project_ids. cbn. by rewrite map_ids.
  - cbn. intros q (p & -> & Hp)%elem_of_map. apply Hsp; auto.
Qed.

Lemma lock_invariant_update project_id f s :
  keeps_lock_columns f -> lock_invariant s ->
  lock_invariant (update_projects project_id f s).
Proof.
  intros Hf. apply lock_invariant_map.
  - intros p _. by apply (keeps_lock_columns_cond _ _ Hf).
  - intros p _ Hp.
    apply (keeps_lock_columns_specs (fun p => if row_matches project_id p then f p else p));
      [by apply keeps_lock_columns_cond | done].
Qed.

Lemma lock_invariant_same_projects s s' :
  projects s' = projects s -> lock_invariant s -> lock_invariant s'.
Proof. unfold lock_invariant, project_ids. by intros ->. Qed.

Lemma specs_on_file_update project_id pid' f s :
  keeps_lock_columns f -> specs_on_file project_id s ->
  specs_on_file project_id (update_projects pid' f s).
Proof.
  intros Hf Hok q Hq Hm. unfold update_projects in Hq. cbn in Hq.
  apply elem_of_map in Hq as (p & -> & Hp).
  pose proof (keeps_lock_columns_cond (row_matches pid') _ Hf p) as (Hi & Ht & _ & Hms & Hss).
  cbn beta in *. rewrite Hms, Hss. apply Hok; [done |].
  unfold row_matches in Hm |- *. by rewrite <- Hi, <- Ht.
Qed.

Lemma row_matches_id project_id p : row_matches project_id p = true -> id p = project_id.
Proof.
  unfold row_matches. intros [H _]%andb_prop. by apply String.eqb_eq.
Qed.

Lemma NoDup_ids_eq (ps : list project) p q :
  NoDup (id <$> ps) -> p ∈ ps -> q ∈ ps -> id p = id q -> p = q.
Proof.
  induction ps as [|x ps IH]; intros Hnd Hp Hq Heq; [by apply elem_of_nil in Hp |].
  cbn in Hnd. apply NoDup_cons in Hnd as [Hx Hnd].
  apply elem_of_cons in Hp as [-> | Hp]; apply elem_of_cons in Hq as [-> | Hq].
  - done.
  - exfalso. apply Hx. rewrite Heq. by apply list_elem_of_fmap_2.
  - exfalso. apply Hx. rewrite <- Heq. by apply list_elem_of_fmap_2.
  - by apply IH.
Qed.

Lemma find_elem {A} (c : A -> bool) (l : list A) x :
  List.find c l = Some x -> x ∈ l /\ c x = true.
Proof.
  intros [H1 H2]%find_some. by rewrite list_elem_of_In.
Qed.

(** What the button read on the rendered row holds of every row the
    update will touch. *)
Lemma specs_on_file_of_view project_id s p :
  NoDup (project_ids s) ->
  get_project_by_id project_id s = Some p ->
  btn_disabled (or_empty (master_spec_file_id p))
               (or_empty (signed_spec_file_id p)) = false ->
  specs_on_file project_id s.
Proof.
  intros Hnd Hget Hbtn q Hq Hm. unfold get_project_by_id in Hget.
  destruct (engine s); [| done].
  apply find_elem in Hget as [Hp Hpm].
  assert (q = p) as ->.
  { apply (NoDup_ids_eq (projects s)); try done.
    by rewrite (row_matches_id _ _ Hm), (row_matches_id _ _ Hpm). }
  unfold btn_disabled in Hbtn. cbn zeta in Hbtn.
  apply orb_false_elim in Hbtn as [H1 H2].
  apply negb_false_iff in H1, H2. by split.
Qed.

Ltac keeps_lock_columns_tac :=
  let p := fresh "p" in intros p; repeat split; reflexivity.

Lemma lock_invariant_execute_update stmt s :
  (lock_invariant s -> lock_invariant (stmt s)) ->
  lock_invariant s -> lock_invariant (execute_update stmt s).1.
Proof. unfold execute_update. destruct (engine s); cbn; auto. Qed.

Lemma lock_invariant_history project_id entry_type content s :
  lock_invariant s ->
  lock_invariant (add_project_history project_id entry_type content s).1.
Proof.
  unfold add_project_history. destruct (engine s); cbn; [| done].
  by apply lock_invariant_same_projects.
Qed.

Lemma lock_invariant_touch project_id touch_type note s :
  lock_invariant s -> lock_invariant (add_project_touch project_id touch_type note s).1.
Proof.
  unfold add_project_touch. apply lock_invariant_execute_update.
  by apply lock_invariant_same_projects.
Qed.

Lemma lock_invariant_status now project_id new_status s :
  lock_invariant s ->
  lock_invariant (update_project_status now project_id new_status s).1.
Proof.
  apply lock_invariant_execute_update, lock_invariant_update. keeps_lock_columns_tac.
Qed.

Lemma lock_invariant_note now project_id note s :
  lock_invariant s -> lock_invariant (add_project_note now project_id note s).1.
Proof.
  apply lock_invariant_execute_update, lock_invariant_update. keeps_lock_columns_tac.
Qed.

Lemma lock_invariant_insert row s :
  id row ∉ project_ids s -> production_locked row = None ->
  lock_invariant s -> lock_invariant (with_projects (projects s ++ [row]) s).
Proof.
  intros Hfresh Hrow [Hnd Hall]. split.
  - unfold project_ids in *. cbn. rewrite fmap_app. cbn.
    apply NoDup_app. split; [done |]. split.
    + intros x Hx ->%list_elem_of_singleton. done.
    + apply NoDup_singleton.
  - cbn. intros q [Hq | ->%list_elem_of_singleton]%elem_of_app; [auto |].
    unfold specs_present. by rewrite Hrow.
Qed.

Lemma lock_invariant_create_lead now new_id name phone email notes source addr s :
  new_id ∉ project_ids s -> lock_invariant s ->
  lock_invariant (create_lead now new_id name phone email notes source addr s).1.
Proof.
  intros Hfresh Hinv. unfold create_lead. destruct (engine s); cbn [fst]; [| done].
  cbn zeta.
  match goal with |- context [projects s ++ [?row]] =>
    apply lock_invariant_same_projects with (with_projects (projects s ++ [row]) s);
      [done | by apply lock_invariant_insert]
  end.
Qed.

Lemma lock_invariant_webhook now new_id path b s :
  new_id ∉ project_ids s -> lock_invariant s ->
  lock_invariant (do_POST now new_id path b s).1.
Proof.
  intros Hfresh Hinv. unfold do_POST.
  destruct (String.eqb path _); [| done]. destruct b as [| data |]; try done.
  unfold create_lead_from_zapier.
  destruct (negb _ && negb _ && negb _); [done |].
  match goal with |- context [create_lead ?a ?b ?c ?d ?e ?f ?g ?h s] =>
    pose proof (lock_invariant_create_lead a b c d e f g h s Hfresh Hinv) as H;
    destruct (create_lead a b c d e f g h s) as [s1 [|]] end; exact H.
Qed.

Lemma lock_invariant_lead_note now project_id note s :
  lock_invariant s -> lock_invariant (add_lead_note now project_id note s).1.
Proof.
  intros Hinv. unfold add_lead_note. destruct (engine s); cbn [fst]; [| done].
  apply (lock_invariant_map _ (with_history _ s)).
  - intros p _. by destruct (_ && _).
  - intros p _ Hp. destruct (_ && _); [| done].
    revert Hp. apply (keeps_lock_columns_specs (fun p => set_status _ (set_updated_at _ (set_status_updated_at _ p)))).
    keeps_lock_columns_tac.
  - by apply lock_invariant_same_projects with s.
Qed.

Lemma lock_invariant_design_email now project_id recipient success note files s :
  lock_invariant s ->
  lock_invariant (design_email_sent now project_id recipient success note files s).1.
Proof.
  intros Hinv. unfold design_email_sent. destruct success; [| done].
  set (s1 := (add_project_touch _ _ _ s).1).
  assert (lock_invariant s1) as H1 by (by apply lock_invariant_touch).
  destruct (get_project_by_id project_id s1) as [p |];
    [destruct (status p) |]; cbn [fst]; try done.
  all: destruct (Str.mem _ early_statuses); destruct files; cbn [fst];
    repeat first [ apply lock_invariant_history | apply lock_invariant_status ]; done.
Qed.

Lemma lock_invariant_closeout now project_id amount s :
  lock_invariant s ->
  lock_invariant (close_project_with_final_payment now project_id amount s).1.
Proof.
  intros Hinv. unfold close_project_with_final_payment.
  destruct (engine s); cbn [fst]; [| done].
  eapply lock_invariant_same_projects; [done |].
  apply lock_invariant_update; [keeps_lock_columns_tac | done].
Qed.

Lemma lock_invariant_won now project_id s :
  lock_invariant s -> lock_invariant (mark_project_won now project_id s).1.
Proof.
  intros Hinv. unfold mark_project_won. destruct (engine s); cbn [fst]; [| done].
  apply lock_invariant_history, lock_invariant_update; [keeps_lock_columns_tac | done].
Qed.

Lemma lock_invariant_lost now project_id reason s :
  lock_invariant s -> lock_invariant (mark_project_lost now project_id reason s).1.
Proof.
  intros Hinv. unfold mark_project_lost. destruct (engine s); cbn [fst]; [| done].
  apply lock_invariant_history, lock_invariant_update; [keeps_lock_columns_tac | done].
Qed.

Lemma lock_invariant_snooze now project_id hours s :
  lock_invariant s -> lock_invariant (snooze_project_alert now project_id hours s).1.
Proof.
  intros Hinv. unfold snooze_project_alert.
  destruct (add_hours now _); [| done].
  match goal with |- context [execute_update ?stmt s] =>
    pose proof (lock_invariant_execute_update stmt s) as H;
    destruct (execute_update stmt s) as [s1 ok] end.
  cbn [fst] in *. apply H; [| done].
  apply lock_invariant_update. keeps_lock_columns_tac.
Qed.

Lemma append_truthy a b : Str.truthy a = true -> Str.truthy (a +:+ b) = true.
Proof. by destruct a. Qed.

Lemma lock_invariant_lock_master now project_id master file name client s :
  lock_invariant s ->
  lock_invariant (lock_master_click now project_id master file name client s).1.
Proof.
  intros Hinv. unfold lock_master_click, set_master_spec, execute_update.
  destruct (negb _); [| done]. destruct (engine s); cbn [fst]; [| done].
  apply lock_invariant_map; [by intros p _; destruct (row_matches _ p) | | done].
  intros p _ Hp. destruct (row_matches _ p); [| done].
  intros Hl. destruct (Hp Hl) as [_ Hs]. split; [| exact Hs].
  unfold has_ref. cbn. by destruct file.
Qed.

Lemma lock_invariant_save_signed now project_id name upload s :
  lock_invariant s ->
  lock_invariant (save_signed_click now project_id name upload s).
Proof.
  intros Hinv. unfold save_signed_click, set_signed_spec, execute_update.
  destruct (negb _); [| done]. destruct (engine s); cbn [fst]; [| done].
  apply lock_invariant_map; [by intros p _; destruct (row_matches _ p) | | done].
  intros p _ Hp. destruct (row_matches _ p); [| done].
  intros Hl. destruct (Hp Hl) as [Hm _]. split; [exact Hm |].
  unfold has_ref. cbn [signed_spec_file_id set_signed_spec_file_id or_empty default].
  by apply append_truthy.
Qed.

Lemma lock_invariant_lock_production now project_id s :
  specs_on_file project_id s -> lock_invariant s ->
  lock_invariant (lock_production now project_id s).1.
Proof.
  intros Hok Hinv. unfold lock_production, execute_update.
  destruct (engine s); cbn [fst]; [| done].
  apply lock_invariant_map; [by intros p _; destruct (row_matches _ p) | | done].
  intros p Hp Hsp. destruct (row_matches _ p) eqn:Hm; [| done].
  intros _. exact (Hok p Hp Hm).
Qed.

Lemma lock_invariant_confirm_deposit
    now project_id p deposit_date deposit_amt note touch_note s :
  get_project_by_id project_id s = Some p ->
  lock_invariant s ->
  lock_invariant
    (confirm_deposit_click now project_id (or_empty (master_spec_file_id p))
       (or_empty (signed_spec_file_id p)) deposit_date deposit_amt
       note touch_note s).1.
Proof.
  intros Hget Hinv. unfold confirm_deposit_click.
  destruct (btn_disabled _ _) eqn:Hbtn; [done |].
  pose proof (specs_on_file_of_view _ _ _ (proj1 Hinv) Hget Hbtn) as Hok.
  unfold mark_deposit_received. destruct (engine s) eqn:He; [| done].
  set (f := fun p => set_deposit_received_date _ _).
  set (s1 := with_commissions _ _).
  assert (keeps_lock_columns f) as Hf by keeps_lock_columns_tac.
  assert (lock_invariant s1) as H1.
  { apply lock_invariant_same_projects with (update_projects project_id f s);
      [done | by apply lock_invariant_update]. }
  assert (specs_on_file project_id s1) as Hok1.
  { intros q Hq. apply (specs_on_file_update _ _ _ _ Hf Hok q Hq). }
  pose proof (lock_invariant_lock_production now project_id s1 Hok1 H1) as H2.
  destruct (lock_production now project_id s1) as [s2 [r | e]]; cbn [fst] in *;
    [| done].
  by apply lock_invariant_touch, lock_invariant_note.
Qed.

Lemma lock_invariant_delete project_id s :
  lock_invariant s -> lock_invariant (delete_project project_id s).1.
Proof.
  intros [Hnd Hall]. unfold delete_project.
  destruct (engine s); [| done]. destruct (existsb _ _); [| done].
  cbn [fst]. split.
  - unfold project_ids in *. cbn [projects with_projects].
    revert Hnd. generalize (projects s) as ps.
    induction ps as [|p ps IH]; intros Hnd; [done |].
    cbn in Hnd. apply NoDup_cons in Hnd as [Hp Hnd]. cbn [List.filter].
    destruct (negb _); [| by apply IH]. cbn. apply NoDup_cons. split; [| by apply IH].
    intros Hin. apply Hp. apply list_elem_of_fmap in Hin as (q & -> & Hq).
    apply elem_of_filter_bool in Hq as [Hq _]. by apply list_elem_of_fmap_2.
  - cbn [projects with_projects]. intros p [Hp _]%elem_of_filter_bool. by apply Hall.
Qed.

Lemma lock_invariant_step s s' :
  ui_step s s' -> lock_invariant s -> lock_invariant s'.
Proof.
  intros Hstep Hinv. destruct Hstep.
  - by apply lock_invariant_create_lead.
  - by apply lock_invariant_webhook.
  - by apply lock_invariant_lead_note.
  - by apply lock_invariant_status.
  - by apply lock_invariant_design_email.
  - by apply lock_invariant_lock_master.
  - by apply lock_invariant_save_signed.
  - by apply lock_invariant_confirm_deposit.
  - by apply lock_invariant_closeout.
  - unfold project_won_click. destruct (show_won_button _ _); [| done].
    by apply lock_invariant_won.
  - unfold project_lost_click. destruct (show_lost_button _); [| done].
    by apply lock_invariant_lost.
  - by apply lock_invariant_snooze.
  - by apply lock_invariant_delete.
  - apply lock_invariant_execute_update; [| done].
    by apply lock_invariant_update.
Qed.

(** ** C1: a locked project has a master spec and a signed spec *)

(** C1: the "Confirm Deposit & Lock Production" button does nothing at
    all unless both the master-spec and the signed-spec reference are
    non-empty, whatever the deposit amount; and in every state reached
    from one that satisfies the invariant, by any sequence of the
    actions, every project with [production_locked] set has both
    references. *)
Theorem production_locked_has_specs :
  (forall master signed, btn_disabled master signed = false <->
     master <> "" /\ signed <> "") /\
  (forall now project_id master signed deposit_date deposit_amt note touch_note s,
     master = "" \/ signed = "" ->
     confirm_deposit_click now project_id master signed deposit_date
       deposit_amt note touch_note s = (s, Ok tt)) /\
  (forall s0 s, lock_invariant s0 -> rtc ui_step s0 s ->
     forall p, p ∈ projects s -> production_locked p = Some true ->
       has_ref (master_spec_file_id p) /\ has_ref (signed_spec_file_id p)).
Proof.
  split; [| split].
  - intros master signed. unfold btn_disabled. cbn zeta.
    destruct master, signed; cbn; split; try done; intros [? ?]; done.
  - intros now project_id master signed dd da n tn s Hempty.
    unfold confirm_deposit_click.
    assert (btn_disabled master signed = true) as ->; [| done].
    destruct Hempty as [-> | ->]; unfold btn_disabled; cbn;
      [by destruct (Str.truthy signed) | done].
  - intros s0 s Hinv Hsteps.
    assert (lock_invariant s) as [_ Hall].
    { induction Hsteps as [| x y z Hxy _ IH]; [done |].
      apply IH. by apply (lock_invariant_step x). }
    intros p Hp. by apply Hall.
Qed.

(** The deposit of [deposit_project] is confirmed: the row is locked and
    has both references. *)
Lemma production_locked_has_specs_witness :
  lock_invariant deposit_db /\ rtc ui_step deposit_db deposit_db_locked /\
  exists p, p ∈ projects deposit_db_locked /\ production_locked p = Some true /\
    has_ref (master_spec_file_id p) /\ has_ref (signed_spec_file_id p).
Proof.
  assert (lock_invariant deposit_db) as Hinv.
  { split.
    - apply NoDup_singleton.
    - intros p ->%list_elem_of_singleton. intros _. by split. }
  assert (rtc ui_step deposit_db deposit_db_locked) as Hrun.
  { apply rtc_once. by apply step_confirm_deposit. }
  split; [exact Hinv |]. split; [exact Hrun |].
  eexists. split; [apply list_elem_of_here |]. split; [reflexivity |].
  apply (proj2 (proj2 production_locked_has_specs) deposit_db deposit_db_locked Hinv Hrun);
    [apply list_elem_of_here | reflexivity].
Defined.

(** ** The ledger query *)

Lemma elem_of_joined s p c :
  (p, c) ∈ joined s <->
  p ∈ projects s /\ c ∈ commissions s /\ id p = c_project_id c.
Proof.
  unfold joined. rewrite list_elem_of_bind. split.
  - intros (p' & Hin & Hp'). apply list_elem_of_bind in Hin as (c' & Hin & Hc').
    apply list_elem_of_singleton in Hin. injection Hin as -> ->.
    apply elem_of_filter_bool in Hc' as [Hc' Heq].
    by apply String.eqb_eq in Heq.
  - intros (Hp & Hc & Heq). exists p. split; [| done].
    apply list_elem_of_bind. exists c. split; [by apply list_elem_of_singleton |].
    apply elem_of_filter_bool. split; [done |]. by apply String.eqb_eq.
Qed.

Lemma elem_of_ledger s e :
  engine s = true ->
  e ∈ get_paid_commissions_for_ledger s <->
  (exists pc, e = deposit_row pc /\ pc ∈ joined s /\ deposit_where pc = true) \/
  (exists pc, e = final_row pc /\ pc ∈ joined s /\ final_where pc = true).
Proof.
  intros He. unfold get_paid_commissions_for_ledger. rewrite He.
  rewrite merge_sort_Permutation, elem_of_app.
  unfold deposit_payments, final_payments.
  rewrite !list_elem_of_fmap.
  by setoid_rewrite elem_of_filter_bool.
Qed.

Lemma commission_unique s c c' :
  NoDup (c_project_id <$> commissions s) ->
  c ∈ commissions s -> c' ∈ commissions s ->
  c_project_id c = c_project_id c' -> c = c'.
Proof.
  generalize (commissions s) as cs.
  induction cs as [|x cs IH]; intros Hnd Hc Hc' Heq; [by apply elem_of_nil in Hc |].
  cbn in Hnd. apply NoDup_cons in Hnd as [Hx Hnd].
  apply elem_of_cons in Hc as [-> | Hc]; apply elem_of_cons in Hc' as [-> | Hc'].
  - done.
  - exfalso. apply Hx. rewrite Heq. by apply list_elem_of_fmap_2.
  - exfalso. apply Hx. rewrite <- Heq. by apply list_elem_of_fmap_2.
  - by apply IH.
Qed.

Lemma Qlt_bool_iff a b : Qlt_bool a b = true <-> (a < b)%Q.
Proof.
  unfold Qlt_bool. rewrite negb_true_iff. split.
  - intros H. apply Qnot_le_lt. intros Hle. apply Qle_bool_iff in Hle. congruence.
  - intros H. destruct (Qle_bool b a) eqn:Hle; [| done].
    apply Qle_bool_iff in Hle. by apply Qlt_not_le in H.
Qed.

Lemma final_where_iff p c :
  final_where (p, c) = true <->
  in_ledger_scope p = true /\ c_final_payment_date c <> None /\
  (coalesce0 (c_deposit_amount c) <= coalesce0 (c_total_amount_received c))%Q /\
  (0 < coalesce0 (c_total_amount_received c))%Q.
Proof.
  unfold final_where. cbn [fst snd].
  rewrite !andb_true_iff, bool_decide_eq_true, Qle_bool_iff, Qlt_bool_iff. tauto.
Qed.

Lemma deposit_where_iff p c :
  deposit_where (p, c) = true <->
  in_ledger_scope p = true /\ c_deposit_received_date c <> None.
Proof.
  unfold deposit_where. cbn [fst snd].
  by rewrite andb_true_iff, bool_decide_eq_true.
Qed.

(** ** C4: deposit and final events of the ledger *)

(** C4 (as amended): for every Commission row of a project that belongs
    to the tenant and is active ([is_active_v3]), the ledger contains a
    'deposit' event of the project exactly when [deposit_received_date]
    is set, and a 'final' event exactly when [final_payment_date] is set
    and [total_amount_received >= deposit_amount] and
    [total_amount_received > 0] (NULL amounts read as 0); a row whose
    [total_amount_received] is 0 never gives a 'final' event.  The
    commissions table holds one row per project. *)
Theorem ledger_events_of_commission s p c :
  engine s = true ->
  NoDup (c_project_id <$> commissions s) ->
  p ∈ projects s -> c ∈ commissions s -> id p = c_project_id c ->
  in_ledger_scope p = true ->
  let ledger := get_paid_commissions_for_ledger s in
  ((exists e, e ∈ ledger /\ pay_id e = id p /\ payment_type e = "deposit") <->
     c_deposit_received_date c <> None) /\
  ((exists e, e ∈ ledger /\ pay_id e = id p /\ payment_type e = "final") <->
     c_final_payment_date c <> None /\
     (coalesce0 (c_deposit_amount c) <= coalesce0 (c_total_amount_received c))%Q /\
     (0 < coalesce0 (c_total_amount_received c))%Q) /\
  ((coalesce0 (c_total_amount_received c) == 0)%Q ->
     ~ exists e, e ∈ ledger /\ pay_id e = id p /\ payment_type e = "final").
Proof.
  intros He Hnd Hp Hc Hid Hscope. cbn zeta.
  assert (forall p' c', (p', c') ∈ joined s -> id p' = id p -> c' = c) as Huniq.
  { intros p' c' (_ & Hc' & Hid')%elem_of_joined Heq.
    apply (commission_unique s); [done .. |]. congruence. }
  assert (((exists e, e ∈ get_paid_commissions_for_ledger s /\ pay_id e = id p /\
                      payment_type e = "final") <->
           c_final_payment_date c <> None /\
           (coalesce0 (c_deposit_amount c) <= coalesce0 (c_total_amount_received c))%Q /\
           (0 < coalesce0 (c_total_amount_received c))%Q)) as Hfinal.
  { split.
    - intros (e & He' & Hpid & Hty). apply elem_of_ledger in He'; [| done].
      destruct He' as [([p' c'] & -> & Hj & Hw) | ([p' c'] & -> & Hj & Hw)];
        [discriminate Hty |].
      cbn in Hpid. rewrite (Huniq p' c' Hj Hpid) in Hw.
      apply final_where_iff in Hw. tauto.
    - intros Hcond. exists (final_row (p, c)). split; [| done].
      apply elem_of_ledger; [done |]. right. exists (p, c).
      split; [done |]. split; [by apply elem_of_joined |].
      apply final_where_iff. tauto. }
  split; [| split; [exact Hfinal |]].
  - split.
    + intros (e & He' & Hpid & Hty). apply elem_of_ledger in He'; [| done].
      destruct He' as [([p' c'] & -> & Hj & Hw) | ([p' c'] & -> & Hj & Hw)];
        [| discriminate Hty].
      cbn in Hpid. rewrite (Huniq p' c' Hj Hpid) in Hw.
      by apply deposit_where_iff in Hw as [_ Hw].
    + intros Hdate. exists (deposit_row (p, c)). split; [| done].
      apply elem_of_ledger; [done |]. left. exists (p, c).
      split; [done |]. split; [by apply elem_of_joined |].
      by apply deposit_where_iff.
  - intros Hzero Hex. apply Hfinal in Hex as (_ & _ & Hpos).
    rewrite Hzero in Hpos. by apply Qlt_irrefl in Hpos.
Qed.

(** The active project of [ledger_db] has a deposit on 2024-03-14. *)
Lemma ledger_events_of_commission_witness :
  exists e, e ∈ get_paid_commissions_for_ledger (ledger_db true) /\
    pay_id e = "p1" /\ payment_type e = "deposit".
Proof.
  assert (NoDup (c_project_id <$> commissions (ledger_db true))) as Hnd
    by apply NoDup_singleton.
  destruct (ledger_events_of_commission (ledger_db true)
              (ledger_project true) ledger_commission eq_refl Hnd
              (list_elem_of_here _ _) (list_elem_of_here _ _) eq_refl eq_refl)
    as [[_ Hdep] _].
  apply Hdep. discriminate.
Defined.

(** The same Commission row under a project that is not active: the
    deposit date is set and the ledger has no event at all. *)
Lemma ledger_skips_inactive_project :
  ledger_commission ∈ commissions (ledger_db false) /\
  c_deposit_received_date ledger_commission <> None /\
  get_paid_commissions_for_ledger (ledger_db false) = [] /\
  ~ exists e, e ∈ get_paid_commissions_for_ledger (ledger_db false) /\
      payment_type e = "deposit".
Proof.
  split; [apply list_elem_of_here |]. split; [discriminate |].
  assert (get_paid_commissions_for_ledger (ledger_db false) = []) as H
    by (by vm_compute).
  split; [exact H |]. rewrite H. intros (e & He & _). by apply elem_of_nil in He.
Qed.

(** ** C5: the design-request email and the status *)

Lemma get_project_by_id_touch project_id pid' touch_type note s :
  get_project_by_id project_id (add_project_touch pid' touch_type note s).1 =
    get_project_by_id project_id s.
Proof.
  unfold add_project_touch, execute_update, get_project_by_id.
  by destruct (engine s) eqn:He; cbn; rewrite He.
Qed.

Lemma projects_history project_id entry_type content s :
  projects (add_project_history project_id entry_type content s).1 = projects s.
Proof. unfold add_project_history. by destruct (engine s). Qed.

Lemma projects_touch project_id touch_type note s :
  projects (add_project_touch project_id touch_type note s).1 = projects s.
Proof. unfold add_project_touch, execute_update. by destruct (engine s). Qed.

Lemma engine_touch project_id touch_type note s :
  engine (add_project_touch project_id touch_type note s).1 = engine s.
Proof. unfold add_project_touch, execute_update. by destruct (engine s) eqn:He. Qed.

Lemma get_project_by_id_engine project_id s p :
  get_project_by_id project_id s = Some p -> engine s = true.
Proof. unfold get_project_by_id. by destruct (engine s). Qed.

(** C5 (as amended): after a design-request email was sent successfully
    the status of the project becomes ['Design'] if and only if its
    current status, in lower case, is one of [migrated], [lead], [new],
    [pending]; in every other status, ['Block A'] included, the projects
    table is left as it was.  A failed send changes nothing. *)
Theorem design_email_status now project_id recipient note files s p st :
  get_project_by_id project_id s = Some p ->
  status p = Some st ->
  let r := design_email_sent now project_id recipient true note files s in
  r.2 = Ok tt /\
  (Str.mem (Str.lower st) early_statuses = true ->
     forall i q, projects s !! i = Some q -> row_matches project_id q = true ->
       exists q', projects r.1 !! i = Some q' /\ id q' = id q /\
                  status q' = Some "Design") /\
  (Str.mem (Str.lower st) early_statuses = false -> projects r.1 = projects s) /\
  (Str.lower st = "block a" -> projects r.1 = projects s) /\
  design_email_sent now project_id recipient false note files s = (s, Ok tt).
Proof.
  intros Hget Hst. cbn zeta. unfold design_email_sent.
  rewrite get_project_by_id_touch, Hget, Hst.
  assert (forall s' : db,
            projects (match files with
                      | [] => s'
                      | _ :: _ =>
                          (add_project_history project_id "EMAIL_ATTACHMENT"
                             ("[ATTACHMENTS] Sent to Matt: "
                                +:+ String.concat ", " files) s').1
                      end) = projects s') as Hfiles.
  { intros s'. destruct files; [done | apply projects_history]. }
  assert (Str.mem (Str.lower st) early_statuses = false ->
          projects (design_email_sent now project_id recipient true note files s).1
          = projects s) as Hother.
  { intros Hne. unfold design_email_sent.
    rewrite get_project_by_id_touch, Hget, Hst, Hne. cbn [fst].
    by rewrite Hfiles, projects_history, projects_touch. }
  unfold design_email_sent in Hother.
  rewrite get_project_by_id_touch, Hget, Hst in Hother.
  split; [done |]. split; [| split; [exact Hother | split; [| done]]].
  - intros Hearly i q Hq Hm. rewrite Hearly. cbn [fst].
    rewrite Hfiles, projects_history.
    unfold update_project_status, execute_update.
    rewrite engine_touch, (get_project_by_id_engine _ _ _ Hget). cbn [fst].
    rewrite update_projects_lookup, projects_touch, Hq. cbn. rewrite Hm.
    by eexists.
  - intros Hblock. apply Hother. by rewrite Hblock.
Qed.

(** A new lead that is sent a design request moves to 'Design'. *)
Lemma design_email_status_witness :
  exists q', projects (design_email_sent clock0 "p1" "matt@example.com" true
                         "" [] (db_in "New")).1 !! 0%nat = Some q' /\
             id q' = "p1" /\ status q' = Some "Design".
Proof.
  destruct (design_email_status clock0 "p1" "matt@example.com" "" []
              (db_in "New") (project_in "New") "New" eq_refl eq_refl)
    as (_ & Hearly & _).
  exact (Hearly eq_refl 0%nat (project_in "New") eq_refl eq_refl).
Defined.

(** A project in status 'Block A' that is sent a design request stays in
    'Block A'. *)
Lemma design_email_leaves_block_a :
  let r := design_email_sent clock0 "p1" "matt@example.com" true "" []
             (db_in "Block A") in
  r.2 = Ok tt /\
  (status <$> projects r.1) = [Some "Block A"] /\
  (status <$> projects r.1) <> [Some "Design"].
Proof. vm_compute. repeat split; congruence. Qed.

(** ** C6: where "mark won" and "mark lost" are offered *)

Lemma show_won_button_unfold status d :
  show_won_button status d =
    if Str.mem (status_lower status) closed_statuses
       || String.eqb (status_lower status) "new"
    then false
    else bool_decide (d <> None)
         || Str.mem (status_lower status) production_statuses.
Proof.
  unfold show_won_button, closed_statuses. generalize (status_lower status) as x.
  intros x. unfold Str.mem at 1 3. cbn [existsb]. rewrite !orb_false_r.
  destruct (String.eqb x "closed_-_won"), (String.eqb x "closed_-_lost"),
    (String.eqb x "completed"), (String.eqb x "archived"), (String.eqb x "new");
    cbn [orb]; try reflexivity.
  by destruct (bool_decide (d <> None)), (Str.mem x production_statuses).
Qed.

(** C6 (as amended): from the statuses Closed - Won, Closed - Lost,
    Completed and Archived (compared in lower case, blanks as
    underscores) neither action is offered and a click changes nothing.
    "Mark lost" is offered from every other status, New included.
    "Mark won" is not offered from New, and from the remaining statuses
    it is offered exactly when a deposit was received or the status is
    one of the production statuses. *)
Theorem won_lost_availability :
  (forall status d,
     show_lost_button status = negb (Str.mem (status_lower status) closed_statuses) /\
     (Str.mem (status_lower status) closed_statuses = true ->
        show_won_button status d = false)) /\
  (forall st, In st ["Closed - Won"; "Closed - Lost"; "Completed"; "Archived"] ->
     forall now project_id d reason s,
       project_lost_click now project_id (Some st) reason s = s /\
       project_won_click now project_id (Some st) d s = s) /\
  (forall status d, status_lower status = "new" ->
     show_lost_button status = true /\ show_won_button status d = false) /\
  (forall status d,
     Str.mem (status_lower status) closed_statuses = false ->
     status_lower status <> "new" ->
     (show_won_button status d = true <->
        d <> None \/ Str.mem (status_lower status) production_statuses = true)).
Proof.
  split; [| split; [| split]].
  - intros status d. split; [reflexivity |]. intros Hc.
    by rewrite show_won_button_unfold, Hc.
  - intros st Hin now project_id d reason s.
    cbn in Hin. destruct Hin as [<- | [<- | [<- | [<- | []]]]]; by split.
  - intros status d Hnew. unfold show_lost_button, show_won_button.
    by rewrite Hnew.
  - intros status d Hc Hnew. rewrite show_won_button_unfold, Hc.
    apply String.eqb_neq in Hnew. rewrite Hnew. cbn [orb].
    rewrite orb_true_iff, bool_decide_eq_true. tauto.
Qed.

(** From 'Design' with a deposit on record "mark won" is offered. *)
Lemma won_lost_availability_witness :
  show_won_button (Some "Design") (Some (mkDate 2024 3 14)) = true.
Proof.
  apply (proj2 (proj2 (proj2 won_lost_availability))
           (Some "Design") (Some (mkDate 2024 3 14)) eq_refl).
  - discriminate.
  - left. discriminate.
Defined.

(** "Mark lost" fires from 'New', and "mark won" is not offered from
    'Design' while no deposit was received. *)
Lemma lost_offered_from_new_won_not_from_design :
  show_lost_button (Some "New") = true /\
  (status <$> projects (project_lost_click clock0 "p1" (Some "New") ""
                          (db_in "New"))) = [Some "Closed - Lost"] /\
  show_won_button (Some "Design") None = false /\
  project_won_click clock0 "p1" (Some "Design") None (db_in "Design")
    = db_in "Design".
Proof. vm_compute. repeat split; congruence. Qed.

(** ** C9: snoozing an alert *)

(** [set_snooze_until] assigns the one column. *)
Lemma set_snooze_until_frame v p :
  snooze_until (set_snooze_until v p) = v /\
  id (set_snooze_until v p) = id p /\
  tenant_id (set_snooze_until v p) = tenant_id p /\
  client_name (set_snooze_until v p) = client_name p /\
  status (set_snooze_until v p) = status p /\
  notes (set_snooze_until v p) = notes p /\
  source (set_snooze_until v p) = source p /\
  is_active_v3 (set_snooze_until v p) = is_active_v3 p /\
  estimated_value (set_snooze_until v p) = estimated_value p /\
  commission_rate (set_snooze_until v p) = commission_rate p /\
  deposit_received_date (set_snooze_until v p) = deposit_received_date p /\
  deposit_amount (set_snooze_until v p) = deposit_amount p /\
  master_spec_file_id (set_snooze_until v p) = master_spec_file_id p /\
  master_spec_file_name (set_snooze_until v p) = master_spec_file_name p /\
  master_spec_locked_at (set_snooze_until v p) = master_spec_locked_at p /\
  signed_spec_file_id (set_snooze_until v p) = signed_spec_file_id p /\
  signed_spec_file_name (set_snooze_until v p) = signed_spec_file_name p /\
  production_locked (set_snooze_until v p) = production_locked p /\
  primary_contact_name (set_snooze_until v p) = primary_contact_name p /\
  primary_contact_phone (set_snooze_until v p) = primary_contact_phone p /\
  primary_contact_email (set_snooze_until v p) = primary_contact_email p /\
  site_address (set_snooze_until v p) = site_address p /\
  action_due_date (set_snooze_until v p) = action_due_date p /\
  status_updated_at (set_snooze_until v p) = status_updated_at p /\
  last_touched (set_snooze_until v p) = last_touched p /\
  created_at (set_snooze_until v p) = created_at p /\
  updated_at (set_snooze_until v p) = updated_at p.
Proof. repeat split. Qed.






Lemma alert_of_id now q a : alert_of now q = Some a -> a_id a = id q.
Proof.
  unfold alert_of. destruct (status_updated_at q); [| done].
  repeat match goal with |- context [if ?b then _ else _] => destruct b end;
    by intros [= <-].
Qed.



(** Without the snooze the same project is nine business days late and
    raises the designer nudge; snoozing it for 24 hours silences it. *)
Example alert_without_snooze :
  get_system_alerts clock0 (design_db None) =
    [mkAlert "p1" (Some "Acme Co") (Some "Design") "matt_nudge" 9] /\
  get_system_alerts clock0 (snooze_click clock0 "p1" (design_db None)) = [].
Proof. by vm_compute. Qed.

(** ** C10: the webhook intake *)

(** C10 (as amended): a POST to the endpoint whose JSON object has its
    name, phone and email (aliases [client_name] and [phone_number]
    included) all empty is answered 400 with status "error" and creates
    no project; a payload carrying only notes is such a payload.  A
    payload with one of the three non-empty creates exactly one project,
    with status 'New' and [is_active_v3] TRUE, and is answered 200,
    provided the database engine is available; without an engine it is
    also answered 400 with status "error" and nothing is created. *)
Theorem webhook_intake now new_id data s :
  let r := do_POST now new_id ENDPOINT (JsonObject data) s in
  (lead_name data = "" /\ lead_phone data = "" /\ lead_email data = "" ->
     r = (s, mkResponse 400 (Some ("error", "No lead data provided")))) /\
  (forall notes, data = {["notes" := JStr notes]} ->
     r = (s, mkResponse 400 (Some ("error", "No lead data provided")))) /\
  (lead_name data <> "" \/ lead_phone data <> "" \/ lead_email data <> "" ->
     engine s = true ->
     code r.2 = 200 /\ (exists m, payload r.2 = Some ("success", m)) /\
     exists row, projects r.1 = projects s ++ [row] /\ id row = new_id /\
                 status row = Some "New" /\ is_active_v3 row = Some true) /\
  (lead_name data <> "" \/ lead_phone data <> "" \/ lead_email data <> "" ->
     engine s = false ->
     r = (s, mkResponse 400 (Some ("error", "Failed to create lead")))).
Proof.
  cbn zeta. unfold do_POST, ENDPOINT. cbn [String.eqb Ascii.eqb Bool.eqb].
  unfold create_lead_from_zapier. fold (lead_name data) (lead_phone data) (lead_email data).
  assert (forall x, Str.truthy x = false <-> x = "") as Hempty
    by (intros [|]; split; done).
  assert (forall x, Str.truthy x = true <-> x <> "") as Hfull
    by (intros [|]; split; done).
  assert (lead_name data <> "" \/ lead_phone data <> "" \/ lead_email data <> "" ->
          negb (Str.truthy (lead_name data)) && negb (Str.truthy (lead_phone data))
            && negb (Str.truthy (lead_email data)) = false) as Hsome.
  { intros [H | [H | H]]; apply Hfull in H; rewrite H; cbn;
      by rewrite ?andb_false_r. }
  split; [| split; [| split]].
  - intros (Hn & Hp & He). by rewrite Hn, Hp, He.
  - intros notes ->. reflexivity.
  - intros Hne He. rewrite (Hsome Hne). unfold create_lead. rewrite He.
    cbn [fst snd code payload]. split; [done |]. split; [by eexists |].
    eexists. split; [reflexivity |]. done.
  - intros Hne He. rewrite (Hsome Hne). unfold create_lead. by rewrite He.
Qed.

(** [acme_payload] posted to an empty database with an engine. *)
Lemma webhook_intake_witness :
  let r := do_POST clock0 "p1" ENDPOINT (JsonObject acme_payload) (empty_db true) in
  code r.2 = 200 /\
  exists row, projects r.1 = [row] /\ id row = "p1" /\
              status row = Some "New" /\ is_active_v3 row = Some true.
Proof.
  cbn zeta.
  destruct (webhook_intake clock0 "p1" acme_payload (empty_db true))
    as (_ & _ & Hok & _).
  destruct Hok as (Hcode & _ & Hrow); [left; discriminate | reflexivity |].
  split; [exact Hcode | exact Hrow].
Defined.

(** The same payload while no engine is available: the name is not
    empty, yet the answer is 400 with status "error" and no project is
    created. *)
Lemma webhook_rejects_named_lead_without_engine :
  lead_name acme_payload = "Acme Co" /\
  do_POST clock0 "p1" ENDPOINT (JsonObject acme_payload) (empty_db false)
    = (empty_db false, mkResponse 400 (Some ("error", "Failed to create lead"))).
Proof. by vm_compute. Qed.

(** ** C7: the report period *)

Section ReportPeriod.

Variable strptime : string -> result date.

Lemma pay_period_of_cases d :
  (day d <= 15 -> pay_period_of d = 1) /\ (16 <= day d -> pay_period_of d = 2).
Proof.
  unfold pay_period_of, period_of_day.
  destruct (day d <=? 15) eqn:H; [apply Z.leb_le in H | apply Z.leb_gt in H];
    split; intros; cbn; lia.
Qed.

Lemma days_in_bounds start_day end_day period d :
  valid_date d ->
  (start_day, end_day, period) = (1, 15, 1) \/
  (start_day, end_day, period) = (16, 31, 2) ->
  (start_day <=? day d) && (day d <=? end_day) = (pay_period_of d =? period).
Proof.
  intros (_ & _ & Hd) Hcase.
  pose proof (days_in_month_bounds (year d) (month d)) as Hb.
  pose proof (pay_period_of_cases d) as [H1 H2].
  destruct Hcase as [[= -> -> ->] | [= -> -> ->]];
    destruct (Z_le_gt_dec (day d) 15) as [Hle | Hgt].
  - rewrite H1 by done. cbn. apply andb_true_intro. split; lia.
  - rewrite H2 by lia. cbn. apply andb_false_intro2. lia.
  - rewrite H1 by done. cbn. apply andb_false_intro1. lia.
  - rewrite H2 by lia. cbn. apply andb_true_intro. split; lia.
Qed.

Lemma report_filter_spec y m start_day end_day period commissions :
  (start_day, end_day, period) = (1, 15, 1) \/
  (start_day, end_day, period) = (16, 31, 2) ->
  dates_readable strptime commissions ->
  report_filter strptime y m start_day end_day commissions =
    Ok (List.filter (in_period strptime y m period) commissions).
Proof.
  intros Hcase. induction commissions as [|comm rest IH]; intros Hread; [done |].
  cbn [report_filter List.filter]. unfold in_period at 1, event_date.
  assert (dates_readable strptime rest) as Hrest
    by (intros c Hc; apply Hread; by right).
  destruct (Hread comm) as [Hmiss | (d & Hd & Hv)]; [by left | |].
  - rewrite Hmiss. by apply IH.
  - destruct (field_missing (payment_date comm)); [by apply IH |].
    rewrite Hd, (IH Hrest).
    rewrite <- !andb_assoc, (days_in_bounds start_day end_day period d Hv Hcase).
    rewrite !andb_assoc.
    by destruct ((year d =? y) && (month d =? m) && (pay_period_of d =? period)).
Qed.

(** C7: on the 16th the report period is Period 1 of the current month,
    on the 1st it is Period 2 of the previous month, and on every other
    day it is the period in progress; the bounds returned with it are
    days 1 to 15 for Period 1 and days 16 to 31 for Period 2, and
    filtering a list of payments with them keeps exactly the payments of
    that year, month and period.  [today] is a date of the calendar
    after year 1, as the clock gives it. *)
Theorem report_period_selection today :
  valid_date today -> MINYEAR < year today ->
  exists y m period label start_day end_day,
    get_report_period_info today = Ok (y, m, period, label, start_day, end_day) /\
    (day today = 16 -> (y, m, period) = (year today, month today, 1)) /\
    (day today = 1 ->
       (y, m) = previous_month today /\ period = 2 /\
       (month today = 1 -> (y, m) = (year today - 1, 12)) /\
       (1 < month today -> (y, m) = (year today, month today - 1))) /\
    (day today <> 16 -> day today <> 1 ->
       (y, m) = (year today, month today) /\ period = get_current_period today /\
       (day today <= 15 -> period = 1) /\ (16 < day today -> period = 2)) /\
    (period = 1 -> (start_day, end_day) = (1, 15)) /\
    (period = 2 -> (start_day, end_day) = (16, 31)) /\
    (forall commissions, dates_readable strptime commissions ->
       get_report_period_commissions strptime today commissions =
         Ok (List.filter (in_period strptime y m period) commissions)).
Proof.
  intros (Hy & Hm & Hd) Hyear.
  assert (forall y m period label start_day end_day,
            get_report_period_info today = Ok (y, m, period, label, start_day, end_day) ->
            (start_day, end_day, period) = (1, 15, 1) \/
            (start_day, end_day, period) = (16, 31, 2) ->
            forall commissions, dates_readable strptime commissions ->
              get_report_period_commissions strptime today commissions =
                Ok (List.filter (in_period strptime y m period) commissions)) as Hfilter.
  { intros y m period label sd ed Hinfo Hcase commissions Hread.
    unfold get_report_period_commissions. rewrite Hinfo.
    by apply report_filter_spec. }
  unfold get_report_period_info in *.
  destruct (day today =? 16) eqn:H16; [apply Z.eqb_eq in H16 | apply Z.eqb_neq in H16].
  { do 6 eexists. split; [reflexivity |].
    repeat split; try done; try lia.
    apply (Hfilter _ _ _ _ _ _ eq_refl). by left. }
  destruct (day today =? 1) eqn:H1; [apply Z.eqb_eq in H1 | apply Z.eqb_neq in H1].
  { unfold date_pred, replace_day in *. cbn [year month day] in *.
    cbn [Z.ltb Z.compare] in *. unfold previous_month.
    destruct (1 <? month today) eqn:Hm1;
      [apply Z.ltb_lt in Hm1 | apply Z.ltb_ge in Hm1].
    - do 6 eexists. split; [reflexivity |]. cbn [year month day].
      assert ((month today =? 1) = false) as -> by (apply Z.eqb_neq; lia).
      repeat split; try done; try lia.
      apply (Hfilter _ _ _ _ _ _ eq_refl). by right.
    - assert ((MINYEAR <? year today) = true) as Hmin by (by apply Z.ltb_lt).
      rewrite Hmin in *. do 6 eexists. split; [reflexivity |]. cbn [year month day].
      assert ((month today =? 1) = true) as -> by (apply Z.eqb_eq; lia).
      repeat split; try done; try lia.
      apply (Hfilter _ _ _ _ _ _ eq_refl). by right. }
  unfold get_current_period.
  destruct (day today <=? 15) eqn:H15; [apply Z.leb_le in H15 | apply Z.leb_gt in H15].
  - do 6 eexists. split; [reflexivity |]. repeat split; try done; try lia.
    apply (Hfilter _ _ _ _ _ _ eq_refl). by left.
  - do 6 eexists. split; [reflexivity |]. repeat split; try done; try lia.
    apply (Hfilter _ _ _ _ _ _ eq_refl). by right.
Qed.

End ReportPeriod.

(** On 2024-03-01 the report is for Period 2 of February 2024. *)
Lemma report_period_selection_witness :
  exists y m period label start_day end_day,
    get_report_period_info (mkDate 2024 3 1)
      = Ok (y, m, period, label, start_day, end_day) /\
    (y, m) = (2024, 2) /\ period = 2 /\ (start_day, end_day) = (16, 31).
Proof.
  assert (valid_date (mkDate 2024 3 1)) as Hv
    by (unfold valid_date, MINYEAR, MAXYEAR; cbn; lia).
  assert (MINYEAR < year (mkDate 2024 3 1)) as Hy by (unfold MINYEAR; cbn; lia).
  destruct (report_period_selection no_strptime (mkDate 2024 3 1) Hv Hy)
    as (y & m & period & label & sd & ed & Hinfo & _ & H1 & _ & _ & H2 & _).
  destruct (H1 eq_refl) as (Hym & Hp & _).
  exists y, m, period, label, sd, ed.
  split; [exact Hinfo |]. split; [exact Hym |]. split; [exact Hp |]. by apply H2.
Defined.

(** The label of that report, and the one for a month of 31 days. *)
Example report_period_labels :
  get_report_period_info (mkDate 2024 3 1)
    = Ok (2024, 2, 2, "February 2024 16th - 29th", 16, 31) /\
  get_report_period_info (mkDate 2024 4 1)
    = Ok (2024, 3, 2, "March 2024 16th - 31th", 16, 31) /\
  get_report_period_info (mkDate 2024 4 16)
    = Ok (2024, 4, 1, "April 2024 1st - 15th", 1, 15).
Proof. by vm_compute. Qed.


(** ** C8: grouping the events by pay period *)

Lemma key_ge_iff a b :
  key_ge a b <->
  b.1.1 < a.1.1 \/ (a.1.1 = b.1.1 /\ (b.1.2 < a.1.2 \/ (a.1.2 = b.1.2 /\ b.2 <= a.2))).
Proof.
  unfold key_ge, key_compare.
  destruct (Z.compare_spec a.1.1 b.1.1);
    [| split; intros; first [lia | congruence] ..].
  destruct (Z.compare_spec a.1.2 b.1.2);
    [| split; intros; first [lia | congruence] ..].
  destruct (Z.compare_spec a.2 b.2); split; intros; first [lia | congruence].
Qed.

Lemma key_gt_lex a b :
  key_gt a b <->
  b.1.1 < a.1.1 \/ (a.1.1 = b.1.1 /\ (b.1.2 < a.1.2 \/ (a.1.2 = b.1.2 /\ b.2 < a.2))).
Proof.
  unfold key_gt, key_compare.
  destruct (Z.compare_spec a.1.1 b.1.1);
    [| split; intros; first [lia | congruence] ..].
  destruct (Z.compare_spec a.1.2 b.1.2);
    [| split; intros; first [lia | congruence] ..].
  destruct (Z.compare_spec a.2 b.2); split; intros; first [lia | congruence].
Qed.

Lemma key_gt_iff a b : key_gt a b <-> key_ge a b /\ a <> b.
Proof.
  rewrite key_gt_lex, key_ge_iff. destruct a as [[a1 a2] a3], b as [[b1 b2] b3].
  cbn [fst snd]. split.
  - intros H. split; [lia |]. intros [= -> -> ->]. lia.
  - intros [H Hne].
    destruct (decide (a1 = b1)) as [-> |]; [| lia].
    destruct (decide (a2 = b2)) as [-> |]; [| lia].
    destruct (decide (a3 = b3)) as [-> |]; [done | lia].
Qed.

#[local] Instance key_ge_trans : Transitive key_ge.
Proof. intros a b c. rewrite !key_ge_iff. lia. Qed.

#[local] Instance key_ge_total : Total key_ge.
Proof. intros a b. rewrite !key_ge_iff. lia. Qed.

Lemma StronglySorted_key_gt (l : list period_key) :
  StronglySorted key_ge l -> NoDup l -> StronglySorted key_gt l.
Proof.
  induction 1 as [| k l Hs IH Hall]; intros Hnd; [constructor |].
  apply NoDup_cons in Hnd as [Hk Hnd]. constructor; [by apply IH |].
  apply Forall_forall. intros x Hx. apply key_gt_iff. split.
  - rewrite Forall_forall in Hall. by apply Hall.
  - intros ->. done.
Qed.

Lemma extend_extend o l1 l2 : extend (extend o l1) l2 = extend o (l1 ++ l2).
Proof.
  destruct o as [l0 |]; cbn; [by rewrite app_assoc |].
  by destruct l1.
Qed.

Lemma extend_nil o : extend o [] = o.
Proof. destruct o; cbn; by rewrite ?app_nil_r. Qed.

Section Grouping.

Variable strptime : string -> result date.

Lemma get_pay_period_info_date d :
  get_pay_period_info strptime (FDate d) = Ok (period_of_day (day d)).
Proof. reflexivity. Qed.

Lemma events_of_key_cons k comm rest :
  events_of_key strptime k (comm :: rest) =
    (if bool_decide (event_key strptime comm = Some k) then [comm] else [])
      ++ events_of_key strptime k rest.
Proof. unfold events_of_key. cbn [List.filter]. by destruct (bool_decide _). Qed.

(** One turn of the loop on a dated event. *)
Lemma group_turn (G : gmap period_key period_group) comm k g0 :
  keyed G -> group_key g0 = k -> g_commissions g0 = [] ->
  let G1 := alter (append_commission comm) k
              (match G !! k with Some _ => G | None => <[k := g0]> G end) in
  keyed G1 /\
  forall k', group_events G1 k' =
    extend (group_events G k') (if bool_decide (k = k') then [comm] else []).
Proof.
  intros HG Hk Hnil. cbn zeta. split.
  - intros k' g. destruct (decide (k = k')) as [<- | Hne].
    + rewrite lookup_alter_eq. destruct (G !! k) as [g1 |] eqn:Hg1.
      * rewrite Hg1. intros [= <-]. exact (HG k g1 Hg1).
      * rewrite lookup_insert_eq. intros [= <-]. exact Hk.
    + rewrite lookup_alter_ne by done. destruct (G !! k) as [g1 |] eqn:Hg1.
      * apply HG.
      * rewrite lookup_insert_ne by done. apply HG.
  - intros k'. destruct (decide (k = k')) as [<- | Hne].
    + rewrite bool_decide_eq_true_2 by done.
      unfold group_events. rewrite lookup_alter_eq.
      destruct (G !! k) as [g1 |] eqn:Hg1.
      * by rewrite Hg1.
      * rewrite lookup_insert_eq. cbn. by rewrite Hnil.
    + rewrite bool_decide_eq_false_2 by done. rewrite extend_nil.
      unfold group_events. rewrite lookup_alter_ne by done. destruct (G !! k) as [g1 |] eqn:Hg1; [done |].
      by rewrite lookup_insert_ne.
Qed.

Lemma group_loop_spec commissions :
  dates_readable strptime commissions ->
  forall G, keyed G ->
  exists G', group_loop strptime commissions G = Ok G' /\ keyed G' /\
    forall k, group_events G' k = extend (group_events G k) (events_of_key strptime k commissions).
Proof.
  induction commissions as [|comm rest IH]; intros Hread G HG.
  { exists G. split; [done |]. split; [done |]. intros k. by rewrite extend_nil. }
  assert (dates_readable strptime rest) as Hrest
    by (intros c Hc; apply Hread; by right).
  cbn [group_loop].
  destruct (field_missing (payment_date comm)) eqn:Hmiss.
  { destruct (IH Hrest G HG) as (G' & Hrun & HG' & Hcs).
    exists G'. split; [done |]. split; [done |]. intros k.
    rewrite events_of_key_cons. unfold event_key, event_date. rewrite Hmiss.
    by rewrite bool_decide_eq_false_2. }
  destruct (Hread comm) as [Hm | (d & Hd & _)]; [by left | congruence |].
  rewrite Hd, get_pay_period_info_date.
  destruct (period_of_day (day d)) as [[[pn pl] po] sd] eqn:Hperiod.
  set (k := (year d, month d, pn)).
  assert (event_key strptime comm = Some k) as Hkey.
  { unfold event_key, event_date, pay_period_of. rewrite Hmiss, Hd. cbn.
    by rewrite Hperiod. }
  destruct (group_turn G comm k
              (mkGroup (strftime_B_Y d) pn pl po sd (year d) (month d) [])
              HG eq_refl eq_refl) as [HG1 Hcs1].
  destruct (IH Hrest _ HG1) as (G' & Hrun & HG' & Hcs).
  exists G'. split; [exact Hrun |]. split; [done |]. intros k'.
  rewrite Hcs, Hcs1, extend_extend, events_of_key_cons, Hkey.
  do 2 f_equal. destruct (decide (k = k')) as [-> | Hne].
  - by rewrite !bool_decide_eq_true_2.
  - rewrite !bool_decide_eq_false_2; [done | congruence | done].
Qed.

Lemma omap_lookup_keys (G : gmap period_key period_group) (l : list period_key) :
  (forall k, k ∈ l -> is_Some (G !! k)) ->
  (omap (fun key => (fun g => (key, g)) <$> G !! key) l).*1 = l.
Proof.
  induction l as [|k l IH]; intros Hl; [done |].
  cbn [omap list_omap]. destruct (Hl k) as [g Hg]; [by left |].
  rewrite Hg. cbn. f_equal. apply IH. intros k' Hk'. apply Hl. by right.
Qed.

Lemma elem_of_omap_lookup (G : gmap period_key period_group)
    (l : list period_key) k g :
  (k, g) ∈ omap (fun key => (fun g => (key, g)) <$> G !! key) l <->
  k ∈ l /\ G !! k = Some g.
Proof.
  rewrite list_elem_of_omap. split.
  - intros (k' & Hk' & Hg). destruct (G !! k') as [g' |] eqn:Hl; [| done].
    cbn in Hg. injection Hg as <- <-. done.
  - intros [Hk Hg]. exists k. split; [done |]. by rewrite Hg.
Qed.

End Grouping.

(** C8: a payment date whose day is at most 15 is in Period 1 and one
    whose day is at least 16 is in Period 2; grouping a list of events
    returns one group per key (year, month, pay period) that occurs, the
    key of each event being taken from its payment date alone; a group
    holds exactly the events of its key, in their order, and the groups
    come with their keys strictly decreasing, newest first.  Events
    without a payment date are in no group. *)
Theorem group_commissions_by_period_spec strptime commissions :
  dates_readable strptime commissions ->
  (forall d, (day d <= 15 -> pay_period_of d = 1) /\
             (16 <= day d -> pay_period_of d = 2)) /\
  exists groups,
    group_commissions_by_period strptime commissions = Ok groups /\
    StronglySorted key_gt groups.*1 /\
    (forall k g, (k, g) ∈ groups ->
       group_key g = k /\
       g_commissions g = events_of_key strptime k commissions /\
       g_commissions g <> []) /\
    (forall comm d, comm ∈ commissions -> event_date strptime comm = Some d ->
       exists g, ((year d, month d, pay_period_of d), g) ∈ groups /\
                 comm ∈ g_commissions g) /\
    (forall comm, event_date strptime comm = None ->
       forall k g, (k, g) ∈ groups -> comm ∉ g_commissions g).
Proof.
  intros Hread. split; [apply pay_period_of_cases |].
  unfold group_commissions_by_period.
  destruct (group_loop_spec strptime commissions Hread ∅) as (G & -> & HG & Hcs);
    [by intros k g; rewrite lookup_empty |].
  assert (forall k, group_events G k =
                    match events_of_key strptime k commissions with
                    | [] => None
                    | l => Some l
                    end) as Hev.
  { intros k. rewrite Hcs. unfold group_events. rewrite lookup_empty. cbn.
    by destruct (events_of_key strptime k commissions). }
  set (sorted_keys := merge_sort key_ge (map_to_list G).*1).
  assert (forall k, k ∈ sorted_keys <-> is_Some (G !! k)) as Hkeys.
  { intros k. unfold sorted_keys. rewrite merge_sort_Permutation.
    rewrite list_elem_of_fmap. split.
    - intros ([k' g] & -> & Hin). apply elem_of_map_to_list in Hin. by exists g.
    - intros [g Hg]. exists (k, g). split; [done |]. by apply elem_of_map_to_list. }
  assert (forall k g, G !! k = Some g ->
            g_commissions g = events_of_key strptime k commissions /\
            g_commissions g <> []) as Hgroup.
  { intros k g Hg. pose proof (Hev k) as Hk. unfold group_events in Hk.
    rewrite Hg in Hk. cbn in Hk.
    destruct (events_of_key strptime k commissions); [done |].
    injection Hk as ->. done. }
  eexists. split; [reflexivity |]. split; [| split; [| split]].
  - rewrite omap_lookup_keys by (intros k; apply Hkeys).
    apply StronglySorted_key_gt.
    + apply StronglySorted_merge_sort; apply _.
    + unfold sorted_keys. rewrite merge_sort_Permutation.
      apply NoDup_fst_map_to_list.
  - intros k g [Hk Hg]%elem_of_omap_lookup. split; [by apply HG |].
    by apply Hgroup.
  - intros comm d Hin Hd.
    pose (k := ((year d, month d, pay_period_of d) : period_key)).
    change (exists g, (k, g) ∈ omap (fun key => (fun g => (key, g)) <$> G !! key)
                                 sorted_keys /\ comm ∈ g_commissions g).
    assert (comm ∈ events_of_key strptime k commissions) as Hcomm.
    { apply elem_of_filter_bool. split; [done |]. apply bool_decide_eq_true.
      unfold event_key. by rewrite Hd. }
    pose proof (Hev k) as Hk. unfold group_events in Hk.
    destruct (G !! k) as [g |] eqn:Hg.
    + exists g. split.
      * apply elem_of_omap_lookup. split; [| done]. apply Hkeys. by exists g.
      * by rewrite (proj1 (Hgroup k g Hg)).
    + cbn in Hk.
      destruct (events_of_key strptime k commissions); [| done].
      by apply elem_of_nil in Hcomm.
  - intros comm Hnone k g [Hk Hg]%elem_of_omap_lookup Hin.
    rewrite (proj1 (Hgroup k g Hg)) in Hin.
    apply elem_of_filter_bool in Hin as [_ Hkey]. apply bool_decide_eq_true in Hkey.
    unfold event_key in Hkey. by rewrite Hnone in Hkey.
Qed.

(** The three events of [sample_events] fall in April period 1, March
    period 2 and March period 1, in that order. *)
Lemma group_commissions_by_period_spec_witness :
  exists groups,
    group_commissions_by_period no_strptime sample_events = Ok groups /\
    groups.*1 = [(2024, 4, 1); (2024, 3, 2); (2024, 3, 1)] /\
    StronglySorted key_gt groups.*1.
Proof.
  assert (dates_readable no_strptime sample_events) as Hread.
  { intros comm Hin. right. unfold sample_events in Hin.
    repeat (apply elem_of_cons in Hin as [-> | Hin]);
      [.. | by apply elem_of_nil in Hin];
      (eexists; split; [reflexivity |]);
      unfold valid_date, MINYEAR, MAXYEAR; cbn; lia. }
  destruct (group_commissions_by_period_spec no_strptime sample_events Hread)
    as (_ & groups & Hrun & Hsorted & _).
  exists groups. split; [exact Hrun |]. split; [| exact Hsorted].
  clear Hread Hsorted. vm_compute in Hrun. injection Hrun as <-. reflexivity.
Defined.

(** * Part III: further properties of the code *)

(** ** Business days: splitting, whole weeks, bounds *)

Lemma weekdays_from_until_split lo mid hi :
  lo <= mid <= hi ->
  weekdays_from_until lo hi = weekdays_from_until lo mid + weekdays_from_until mid hi.
Proof.
  intros [H1 H2]. remember (Z.to_nat (mid - lo)) as n eqn:Hn.
  revert lo H1 Hn. induction n as [|n IH]; intros lo H1 Hn.
  - assert (lo = mid) as -> by lia.
    rewrite (weekdays_from_until_empty mid mid) by lia. lia.
  - rewrite (weekdays_from_until_step lo hi) by lia.
    rewrite (weekdays_from_until_step lo mid) by lia.
    rewrite (IH (lo + 1)) by lia. lia.
Qed.

Lemma weekdays_from_until_bounds lo hi :
  0 <= weekdays_from_until lo hi <= Z.max 0 (hi - lo).
Proof.
  destruct (Z_le_gt_dec hi lo) as [Hle | Hgt].
  { rewrite weekdays_from_until_empty by done. lia. }
  remember (Z.to_nat (hi - lo)) as n eqn:Hn.
  assert (lo <= hi) as Hlo by lia. clear Hgt.
  revert lo Hlo Hn. induction n as [|n IH]; intros lo Hlo Hn.
  - rewrite weekdays_from_until_empty by lia. lia.
  - rewrite weekdays_from_until_step by lia.
    specialize (IH (lo + 1)). destruct (is_weekday lo); lia.
Qed.

Lemma weekdays_week lo : weekdays_from_until lo (lo + 7) = 5.
Proof.
  assert (0 <= weekday_of_ordinal lo < 7) as Hw
    by (unfold weekday_of_ordinal; apply Z.mod_pos_bound; lia).
  do 7 (rewrite weekdays_from_until_step by lia).
  rewrite weekdays_from_until_empty by lia.
  rewrite <- (Z.add_0_r lo) at 1. rewrite <- !Z.add_assoc.
  rewrite !(is_weekday_shift lo _ _ eq_refl).
  assert (weekday_of_ordinal lo = 0 \/ weekday_of_ordinal lo = 1 \/
          weekday_of_ordinal lo = 2 \/ weekday_of_ordinal lo = 3 \/
          weekday_of_ordinal lo = 4 \/ weekday_of_ordinal lo = 5 \/
          weekday_of_ordinal lo = 6) as Hcases by lia.
  destruct Hcases as [-> | [-> | [-> | [-> | [-> | [-> | ->]]]]]]; reflexivity.
Qed.

Lemma weekdays_weeks lo (k : nat) :
  weekdays_from_until lo (lo + 7 * Z.of_nat k) = 5 * Z.of_nat k.
Proof.
  induction k as [|k IH].
  - rewrite weekdays_from_until_empty; lia.
  - rewrite (weekdays_from_until_split lo (lo + 7 * Z.of_nat k)) by lia.
    rewrite IH. replace (lo + 7 * Z.of_nat (S k)) with (lo + 7 * Z.of_nat k + 7) by lia.
    rewrite weekdays_week. lia.
Qed.

Lemma date_leb_toordinal a b :
  wf_date a -> wf_date b -> date_leb a b = true -> toordinal a <= toordinal b.
Proof.
  intros Ha Hb. unfold date_leb. rewrite (date_compare_toordinal a b) by done.
  destruct (Z.compare_spec (toordinal a) (toordinal b)); [lia | lia | done].
Qed.

(** X1: the business days from [a] to [c] are those from [a] to [b] plus
    those from [b] to [c], for any date [b] between the two. *)
Theorem calculate_business_days_split a b c :
  valid_date (as_date a) -> valid_date (as_date b) -> valid_date (as_date c) ->
  date_leb (as_date a) (as_date b) = true ->
  date_leb (as_date b) (as_date c) = true ->
  calculate_business_days (Some a) (Some c) =
    calculate_business_days (Some a) (Some b)
    + calculate_business_days (Some b) (Some c).
Proof.
  intros Ha Hb Hc Hab Hbc. rewrite !calculate_business_days_count.
  apply weekdays_from_until_split. split; apply date_leb_toordinal;
    auto using valid_date_wf.
Qed.

Lemma calculate_business_days_split_witness :
  calculate_business_days (Some (PyDate (mkDate 2024 1 1)))
    (Some (PyDate (mkDate 2024 1 15))) =
  calculate_business_days (Some (PyDate (mkDate 2024 1 1)))
    (Some (PyDate (mkDate 2024 1 6)))
  + calculate_business_days (Some (PyDate (mkDate 2024 1 6)))
      (Some (PyDate (mkDate 2024 1 15))).
Proof.
  apply calculate_business_days_split;
    try (unfold valid_date, MINYEAR, MAXYEAR; cbn; lia); reflexivity.
Defined.

(** X2: whatever the day of the week it starts on, a span of whole
    weeks holds five business days per week. *)
Theorem calculate_business_days_whole_weeks d (k : nat) :
  valid_date d ->
  calculate_business_days (Some (PyDate d))
    (Some (PyDate (date_add_days_nat (7 * k) d))) = 5 * Z.of_nat k.
Proof.
  intros Hd. rewrite calculate_business_days_count. cbn [as_date].
  rewrite toordinal_add_days by (by apply valid_date_wf).
  replace (Z.of_nat (7 * k)) with (7 * Z.of_nat k) by lia.
  apply weekdays_weeks.
Qed.

Lemma calculate_business_days_whole_weeks_witness :
  calculate_business_days (Some (PyDate (mkDate 2024 2 28)))
    (Some (PyDate (date_add_days_nat (7 * 2) (mkDate 2024 2 28)))) = 10.
Proof.
  apply (calculate_business_days_whole_weeks (mkDate 2024 2 28) 2).
  unfold valid_date; repeat split; by vm_compute.
Defined.

(** X3: the result is never negative and never more than the number of
    days from the first date to the second; so it is 0 whenever the
    second date is not after the first. *)
Theorem calculate_business_days_bounds f t :
  0 <= calculate_business_days (Some f) (Some t)
    <= Z.max 0 (toordinal (as_date t) - toordinal (as_date f)).
Proof.
  rewrite calculate_business_days_count. apply weekdays_from_until_bounds.
Qed.


(** ** Alerts: what an alert says, and that it stays due *)

Lemma elem_of_alert_query_iff now s q :
  q ∈ alert_query now s <->
  engine s = true /\ q ∈ projects s /\ alert_candidate now q = true.
Proof.
  unfold alert_query. destruct (engine s).
  - rewrite merge_sort_Permutation, elem_of_filter_bool. tauto.
  - split; [by intros ?%elem_of_nil | by intros [? _]].
Qed.

Lemma weekdays_from_until_mono lo hi hi' :
  hi <= hi' -> weekdays_from_until lo hi <= weekdays_from_until lo hi'.
Proof.
  intros H. destruct (Z_le_gt_dec hi lo) as [Hle | Hgt].
  - rewrite (weekdays_from_until_empty lo hi) by done.
    apply weekdays_from_until_bounds.
  - rewrite (weekdays_from_until_split lo hi hi') by lia.
    pose proof (weekdays_from_until_bounds hi hi'). lia.
Qed.

Lemma alert_candidate_status now p :
  alert_candidate now p = true ->
  String.eqb (tenant_id p) TENANT_ID = true /\ is_active_v3 p = Some true /\
  (status p = Some "Design" \/ status p = Some "Quoting" \/
   status p = Some "Awaiting Deposit") /\
  status_updated_at p <> None /\ not_snoozed now p = true.
Proof.
  unfold alert_candidate. rewrite !andb_true_iff, !bool_decide_eq_true.
  intros [[[[Ht Ha] Hs] Hu] Hn]. repeat split; try done.
  destruct (status p) as [st |]; [| done].
  apply Str_mem_In in Hs. cbn in Hs.
  destruct Hs as [<- | [<- | [<- | []]]]; auto.
Qed.

Lemma alert_of_threshold now p t st ty n :
  status_updated_at p = Some t -> status p = Some st ->
  In (st, ty, n) [("Design", "matt_nudge", 3); ("Quoting", "bruno_nudge", 1);
                  ("Awaiting Deposit", "customer_nudge", 3)] ->
  alert_of now p =
    let bd := calculate_business_days (Some (PyDateTime t))
                (Some (PyDateTime now)) in
    if n <? bd then Some (mkAlert (id p) (client_name p) (Some st) ty bd)
    else None.
Proof.
  intros Hu Hst Hin. unfold alert_of. rewrite Hu, Hst. cbn zeta.
  generalize (calculate_business_days (Some (PyDateTime t))
                (Some (PyDateTime now))) as bd.
  intros bd. cbn in Hin.
  destruct Hin as [[= <- <- <-] | [[= <- <- <-] | [[= <- <- <-] | []]]];
    generalize (3 <? bd) as b3, (1 <? bd) as b1; intros b3 b1.
  - by destruct b3.
  - change (status_lower (Some "Quoting")) with "quoting".
    by destruct b3, b1.
  - by destruct b3, b1.
Qed.

Lemma alert_candidate_threshold now p :
  alert_candidate now p = true ->
  exists st ty n,
    status p = Some st /\
    In (st, ty, n) [("Design", "matt_nudge", 3); ("Quoting", "bruno_nudge", 1);
                    ("Awaiting Deposit", "customer_nudge", 3)].
Proof.
  intros (_ & _ & [H | [H | H]] & _)%alert_candidate_status.
  - exists "Design", "matt_nudge", 3. cbn. auto.
  - exists "Quoting", "bruno_nudge", 1. cbn. auto.
  - exists "Awaiting Deposit", "customer_nudge", 3. cbn. auto.
Qed.

(** X4: every alert of [get_system_alerts] belongs to an active project
    of the tenant whose status is exactly 'Design', 'Quoting' or
    'Awaiting Deposit'; it is a [matt_nudge] after more than 3 business
    days in 'Design', a [bruno_nudge] after more than 1 in 'Quoting', a
    [customer_nudge] after more than 3 in 'Awaiting Deposit', the days
    being counted from [status_updated_at] to the current date. *)
Theorem get_system_alerts_sound now s a :
  a ∈ get_system_alerts now s ->
  exists p t,
    p ∈ projects s /\ a_id a = id p /\ a_client_name a = client_name p /\
    a_status a = status p /\ is_active_v3 p = Some true /\
    tenant_id p = TENANT_ID /\ status_updated_at p = Some t /\
    business_days a =
      calculate_business_days (Some (PyDateTime t)) (Some (PyDateTime now)) /\
    ((a_status a = Some "Design" /\ alert_type a = "matt_nudge"
        /\ 3 < business_days a) \/
     (a_status a = Some "Quoting" /\ alert_type a = "bruno_nudge"
        /\ 1 < business_days a) \/
     (a_status a = Some "Awaiting Deposit" /\ alert_type a = "customer_nudge"
        /\ 3 < business_days a)).
Proof.
  unfold get_system_alerts. rewrite list_elem_of_omap.
  intros (p & Hp & Ha). apply elem_of_alert_query_iff in Hp as (_ & Hp & Hc).
  destruct (alert_candidate_threshold _ _ Hc) as (st & ty & n & Hst & Hin).
  apply alert_candidate_status in Hc as (Ht & Hact & _ & Hu & _).
  apply String.eqb_eq in Ht.
  destruct (status_updated_at p) as [t |] eqn:Hu'; [| done].
  rewrite (alert_of_threshold now p t st ty n Hu' Hst Hin) in Ha. cbn zeta in Ha.
  destruct (Z.ltb_spec n
              (calculate_business_days (Some (PyDateTime t))
                 (Some (PyDateTime now)))) as [Hlt |]; [| done].
  injection Ha as <-. exists p, t. cbn. repeat split; try done.
  cbn in Hin. destruct Hin as [[= <- <- <-] | [[= <- <- <-] | [[= <- <- <-] | []]]];
    auto 10.
Qed.

Lemma get_system_alerts_sound_witness :
  exists p t,
    p ∈ projects (design_db None) /\ "p1" = id p /\
    Some "Acme Co" = client_name p /\ Some "Design" = status p /\
    is_active_v3 p = Some true /\ tenant_id p = TENANT_ID /\
    status_updated_at p = Some t /\
    9 = calculate_business_days (Some (PyDateTime t)) (Some (PyDateTime clock0)) /\
    ((Some "Design" = Some "Design" /\ "matt_nudge" = "matt_nudge" /\ 3 < 9) \/
     (Some "Design" = Some "Quoting" /\ "matt_nudge" = "bruno_nudge" /\ 1 < 9) \/
     (Some "Design" = Some "Awaiting Deposit" /\ "matt_nudge" = "customer_nudge"
        /\ 3 < 9)).
Proof.
  apply (get_system_alerts_sound clock0 (design_db None)
           (mkAlert "p1" (Some "Acme Co") (Some "Design") "matt_nudge" 9)).
  vm_compute. by left.
Defined.

(** X5: an alert does not go away with time: if a project has an alert
    today and is not snoozed on a later day, it has an alert of the same
    type on that day, with at least as many business days. *)
Theorem get_system_alerts_stay_due now now' s a :
  valid_date (dt_date now) -> valid_date (dt_date now') ->
  date_leb (dt_date now) (dt_date now') = true ->
  a ∈ get_system_alerts now s ->
  (forall p, p ∈ projects s -> id p = a_id a -> not_snoozed now' p = true) ->
  exists a',
    a' ∈ get_system_alerts now' s /\ a_id a' = a_id a /\
    a_status a' = a_status a /\ alert_type a' = alert_type a /\
    business_days a <= business_days a'.
Proof.
  intros Hv Hv' Hle Ha Hsn. unfold get_system_alerts in *.
  apply list_elem_of_omap in Ha as (p & Hp & Ha).
  apply elem_of_alert_query_iff in Hp as (He & Hp & Hc).
  pose proof (alert_of_id _ _ _ Ha) as Hid.
  assert (alert_candidate now' p = true) as Hc'.
  { specialize (Hsn p Hp (eq_sym Hid)). revert Hc. unfold alert_candidate.
    rewrite !andb_true_iff. tauto. }
  destruct (alert_candidate_threshold _ _ Hc) as (st & ty & n & Hst & Hin').
  destruct (status_updated_at p) as [t |] eqn:Hu;
    [| by unfold alert_of in Ha; rewrite Hu in Ha].
  rewrite (alert_of_threshold now p t st ty n Hu Hst Hin') in Ha.
  cbn zeta in Ha. rewrite !calculate_business_days_count in Ha.
  cbn [as_date] in Ha.
  assert (weekdays_from_until (toordinal (dt_date t)) (toordinal (dt_date now))
          <= weekdays_from_until (toordinal (dt_date t)) (toordinal (dt_date now')))
    as Hmono.
  { apply weekdays_from_until_mono, date_leb_toordinal; auto using valid_date_wf. }
  assert (forall a', alert_of now' p = Some a' ->
            a' ∈ omap (alert_of now') (alert_query now' s)) as Hin.
  { intros a' Ha'. apply list_elem_of_omap. exists p. split; [| done].
    by apply elem_of_alert_query_iff. }
  assert (forall m : Z,
            (m <? weekdays_from_until (toordinal (dt_date t))
                    (toordinal (dt_date now))) = true ->
            (m <? weekdays_from_until (toordinal (dt_date t))
                    (toordinal (dt_date now'))) = true) as Hth.
  { intros m. rewrite !Z.ltb_lt. lia. }
  destruct (n <? _) eqn:Hb in Ha; [| done]. injection Ha as <-.
  apply Hth in Hb. eexists. split.
  - apply Hin. rewrite (alert_of_threshold now' p t st ty n Hu Hst Hin').
    cbn zeta. rewrite !calculate_business_days_count. cbn [as_date].
    rewrite Hb. reflexivity.
  - cbn. repeat split; try done.
Qed.

Lemma get_system_alerts_stay_due_witness :
  exists a',
    a' ∈ get_system_alerts (mkDateTime (mkDate 2024 3 20) 0) (design_db None) /\
    a_id a' = "p1" /\ a_status a' = Some "Design" /\
    alert_type a' = "matt_nudge" /\ 9 <= business_days a'.
Proof.
  apply (get_system_alerts_stay_due clock0 (mkDateTime (mkDate 2024 3 20) 0)
           (design_db None)
           (mkAlert "p1" (Some "Acme Co") (Some "Design") "matt_nudge" 9)).
  - unfold valid_date; repeat split; by vm_compute.
  - unfold valid_date; repeat split; by vm_compute.
  - reflexivity.
  - vm_compute. by left.
  - intros p Hp _. apply list_elem_of_singleton in Hp as ->. reflexivity.
Defined.


(** ** Cold storage and the lists of closed projects *)

Lemma elem_of_update_projects project_id f s q :
  q ∈ projects (update_projects project_id f s) <->
  exists p, p ∈ projects s /\ q = (if row_matches project_id p then f p else p).
Proof.
  unfold update_projects. cbn. rewrite elem_of_map.
  split; intros (p & H1 & H2); exists p; done.
Qed.

Lemma row_matches_tenant project_id p :
  row_matches project_id p = true -> tenant_id p = TENANT_ID.
Proof.
  unfold row_matches. intros [_ H]%andb_prop. by apply String.eqb_eq.
Qed.

Lemma row_matches_intro p :
  tenant_id p = TENANT_ID -> row_matches (id p) p = true.
Proof.
  intros H. unfold row_matches. rewrite H, !String.eqb_refl. done.
Qed.

(** After [UPDATE projects SET status = st, ...] the rows of the project
    carry the new status, whatever they held before. *)
Lemma status_update_rows project_id st g s q :
  (forall p, id (g p) = id p /\ tenant_id (g p) = tenant_id p) ->
  q ∈ projects (update_projects project_id (fun p => set_status (Some st) (g p)) s) ->
  row_matches project_id q = true ->
  exists p, p ∈ projects s /\ row_matches project_id p = true /\
            q = set_status (Some st) (g p).
Proof.
  intros Hg (p & Hp & ->)%elem_of_update_projects Hq.
  destruct (row_matches project_id p) eqn:Hm; [by exists p |]. congruence.
Qed.

Lemma elem_of_status_list key s q :
  q ∈ status_list key s <->
  engine s = true /\ q ∈ projects s /\ listed_under key q = true.
Proof.
  unfold status_list. destruct (engine s).
  - rewrite merge_sort_Permutation, elem_of_filter_bool. tauto.
  - split; [by intros ?%elem_of_nil | by intros [? _]].
Qed.

Lemma in_ledger_scope_iff p :
  in_ledger_scope p = true <-> tenant_id p = TENANT_ID /\ is_active_v3 p = Some true.
Proof.
  unfold in_ledger_scope.
  by rewrite andb_true_iff, bool_decide_eq_true, String.eqb_eq.
Qed.

Lemma engine_history project_id entry_type content s :
  engine (add_project_history project_id entry_type content s).1 = engine s.
Proof. unfold add_project_history. by destruct (engine s) eqn:He. Qed.

Lemma history_history project_id entry_type content s :
  engine s = true ->
  project_history (add_project_history project_id entry_type content s).1 =
    project_history s ++ [mkHistory project_id entry_type content].
Proof. intros He. unfold add_project_history. by rewrite He. Qed.

(** X6: archiving puts the active project on the list of archived
    projects; restoring it afterwards takes it off that list and leaves
    it in 'Block A', not in the status it had before it was archived.
    The two moves are recorded in the history. *)
Theorem archive_then_restore now now' project_id s :
  engine s = true ->
  let s1 := (archive_project now project_id s).1 in
  let s2 := (restore_project now' project_id s1).1 in
  (forall p, p ∈ projects s -> row_matches project_id p = true ->
     is_active_v3 p = Some true ->
     set_status (Some "Archived") (set_last_touched (Some now) p)
       ∈ get_archived_projects s1) /\
  (forall q, q ∈ projects s2 -> row_matches project_id q = true ->
     status q = Some "Block A" /\ last_touched q = Some now') /\
  (forall q, q ∈ get_archived_projects s2 -> id q <> project_id) /\
  project_history s2 =
    project_history s ++
      [mkHistory project_id "STATUS_CHANGE" "[SYSTEM] Project moved to Cold Storage";
       mkHistory project_id "STATUS_CHANGE"
         "[SYSTEM] Project restored from Cold Storage to Block A"].
Proof.
  intros He s1 s2.
  assert (engine s1 = true) as He1.
  { unfold s1, archive_project. rewrite He. cbn [fst]. by rewrite engine_history. }
  assert (projects s1 =
          projects (update_projects project_id
                      (fun p => set_status (Some "Archived")
                                  (set_last_touched (Some now) p)) s)) as Hp1.
  { unfold s1, archive_project. rewrite He. cbn [fst]. by rewrite projects_history. }
  assert (projects s2 =
          projects (update_projects project_id
                      (fun p => set_status (Some "Block A")
                                  (set_last_touched (Some now') p)) s1)) as Hp2.
  { unfold s2, restore_project. rewrite He1. cbn [fst]. by rewrite projects_history. }
  assert (forall q, q ∈ projects s2 -> row_matches project_id q = true ->
            status q = Some "Block A" /\ last_touched q = Some now') as Hrows.
  { intros q Hq Hm. rewrite Hp2 in Hq.
    apply status_update_rows in Hq as (p & _ & _ & ->); done. }
  split; [| split; [| split]].
  - intros p Hp Hm Hact. apply elem_of_status_list. split; [done |]. split.
    + rewrite Hp1. apply elem_of_update_projects. exists p. by rewrite Hm.
    + unfold listed_under. apply andb_true_intro. split; [| reflexivity].
      apply in_ledger_scope_iff. split; [| done].
      by apply row_matches_tenant in Hm.
  - exact Hrows.
  - intros q (_ & Hq & Hl)%elem_of_status_list Hid.
    unfold listed_under in Hl. apply andb_prop in Hl as [Hsc Hl].
    apply in_ledger_scope_iff in Hsc as [Ht _].
    destruct (Hrows q Hq) as [Hst _].
    { subst project_id. by apply row_matches_intro. }
    by rewrite Hst in Hl.
  - unfold s2, restore_project. rewrite He1. cbn [fst].
    rewrite history_history by done. cbn [project_history update_projects with_projects].
    unfold s1, archive_project. rewrite He. cbn [fst].
    rewrite history_history by done. cbn. by rewrite <- app_assoc.
Qed.

Lemma archive_then_restore_witness :
  let s1 := (archive_project clock0 "p1" (db_in "Quoting")).1 in
  let s2 := (restore_project clock0 "p1" s1).1 in
  (forall p, p ∈ projects (db_in "Quoting") -> row_matches "p1" p = true ->
     is_active_v3 p = Some true ->
     set_status (Some "Archived") (set_last_touched (Some clock0) p)
       ∈ get_archived_projects s1) /\
  (forall q, q ∈ projects s2 -> row_matches "p1" q = true ->
     status q = Some "Block A" /\ last_touched q = Some clock0) /\
  (forall q, q ∈ get_archived_projects s2 -> id q <> "p1") /\
  project_history s2 =
    project_history (db_in "Quoting") ++
      [mkHistory "p1" "STATUS_CHANGE" "[SYSTEM] Project moved to Cold Storage";
       mkHistory "p1" "STATUS_CHANGE"
         "[SYSTEM] Project restored from Cold Storage to Block A"].
Proof. apply (archive_then_restore clock0 clock0 "p1" (db_in "Quoting")). reflexivity. Defined.


(** ** Closing a project: the work lists and the lists of closed projects *)

Lemma elem_of_get_new_leads s l :
  l ∈ get_new_leads s <->
  engine s = true /\
  exists p, p ∈ projects s /\ new_lead_where p = true /\ l = lead_of_project s p.
Proof.
  unfold get_new_leads. destruct (engine s).
  - rewrite list_elem_of_fmap. split.
    + intros (p & -> & Hp). rewrite merge_sort_Permutation in Hp.
      apply elem_of_filter_bool in Hp as [Hp Hw]. split; [done |]. by exists p.
    + intros (_ & p & Hp & Hw & ->). exists p. split; [done |].
      rewrite merge_sort_Permutation. by apply elem_of_filter_bool.
  - split; [by intros ?%elem_of_nil | by intros [? _]].
Qed.

Lemma elem_of_get_urgent_items s q :
  q ∈ get_urgent_items s <->
  engine s = true /\ q ∈ projects s /\ urgent_where q = true.
Proof.
  unfold get_urgent_items. destruct (engine s).
  - rewrite merge_sort_Permutation, elem_of_filter_bool. tauto.
  - split; [by intros ?%elem_of_nil | by intros [? _]].
Qed.

Lemma new_lead_where_iff p :
  new_lead_where p = true <->
  tenant_id p = TENANT_ID /\ status p = Some "New" /\ is_active_v3 p = Some true.
Proof.
  unfold new_lead_where.
  rewrite !andb_true_iff, !bool_decide_eq_true, String.eqb_eq. tauto.
Qed.

Lemma urgent_where_status p :
  urgent_where p = true -> tenant_id p = TENANT_ID /\ status p = Some "CONFIRMED".
Proof.
  unfold urgent_where. rewrite !andb_true_iff, !bool_decide_eq_true.
  intros [[[Hs Hst] _] _]. apply in_ledger_scope_iff in Hs as [Ht _]. done.
Qed.

(** A database in which every row of the project holds status [st], a
    status none of the work lists selects. *)
Lemma settled_rows_off_lists project_id st s :
  (forall q, q ∈ projects s -> row_matches project_id q = true ->
     status q = Some st) ->
  ~ In st ["Design"; "Quoting"; "Awaiting Deposit"; "New"; "CONFIRMED"] ->
  (forall later a, a ∈ get_system_alerts later s -> a_id a <> project_id) /\
  (forall q, q ∈ get_urgent_items s -> id q <> project_id) /\
  (forall l, l ∈ get_new_leads s -> l_id l <> project_id).
Proof.
  intros Hrows Hst. split; [| split].
  - intros later a Ha Hid. unfold get_system_alerts in Ha.
    apply list_elem_of_omap in Ha as (p & Hp & Ha).
    apply elem_of_alert_query_iff in Hp as (_ & Hp & Hc).
    apply alert_of_id in Ha. rewrite Ha in Hid.
    apply alert_candidate_status in Hc as (Ht & _ & Hs & _).
    apply String.eqb_eq in Ht.
    rewrite (Hrows p Hp) in Hs by (subst; by apply row_matches_intro).
    apply Hst. cbn. destruct Hs as [[= ->] | [[= ->] | [= ->]]]; auto.
  - intros q (_ & Hq & Hw)%elem_of_get_urgent_items Hid.
    apply urgent_where_status in Hw as [Ht Hs].
    rewrite (Hrows q Hq) in Hs by (subst; by apply row_matches_intro).
    apply Hst. cbn. injection Hs as ->. auto 10.
  - intros l (_ & p & Hp & Hw & ->)%elem_of_get_new_leads Hid. cbn in Hid.
    apply new_lead_where_iff in Hw as (Ht & Hs & _).
    rewrite (Hrows p Hp) in Hs by (subst; by apply row_matches_intro).
    apply Hst. cbn. injection Hs as ->. auto 10.
Qed.

(** The state after [UPDATE projects SET status = st, last_touched =
    now] followed by a history entry. *)
Lemma status_move_rows project_id st now s s' :
  projects s' =
    projects (update_projects project_id
                (fun p => set_status (Some st) (set_last_touched (Some now) p)) s) ->
  forall q, q ∈ projects s' -> row_matches project_id q = true ->
    status q = Some st /\ last_touched q = Some now.
Proof.
  intros Hp q Hq Hm. rewrite Hp in Hq.
  apply status_update_rows in Hq as (p & _ & _ & ->); done.
Qed.

Lemma status_move_listed project_id st now key s s' :
  engine s' = true ->
  projects s' =
    projects (update_projects project_id
                (fun p => set_status (Some st) (set_last_touched (Some now) p)) s) ->
  (Str.lower st = key ->
   forall p, p ∈ projects s -> row_matches project_id p = true ->
     is_active_v3 p = Some true ->
     set_status (Some st) (set_last_touched (Some now) p) ∈ status_list key s') /\
  (Str.lower st <> key ->
   forall q, q ∈ status_list key s' -> id q <> project_id).
Proof.
  intros He Hp. split.
  - intros Hkey p Hin Hm Hact. apply elem_of_status_list. split; [done |]. split.
    + rewrite Hp. apply elem_of_update_projects. exists p. by rewrite Hm.
    + unfold listed_under. apply andb_true_intro. split.
      * apply in_ledger_scope_iff. split; [| done]. by apply row_matches_tenant in Hm.
      * cbn. rewrite Hkey. apply String.eqb_refl.
  - intros Hkey q (_ & Hq & Hl)%elem_of_status_list Hid.
    unfold listed_under in Hl. apply andb_prop in Hl as [Hsc Hl].
    apply in_ledger_scope_iff in Hsc as [Ht _].
    destruct (status_move_rows _ _ _ _ _ Hp q Hq) as [Hst _].
    { subst project_id. by apply row_matches_intro. }
    rewrite Hst in Hl. by apply String.eqb_eq in Hl.
Qed.

Lemma mark_project_won_state now project_id s :
  engine s = true ->
  engine (mark_project_won now project_id s).1 = true /\
  projects (mark_project_won now project_id s).1 =
    projects (update_projects project_id
                (fun p => set_status (Some "Closed - Won")
                            (set_last_touched (Some now) p)) s).
Proof.
  intros He. unfold mark_project_won. rewrite He. cbn [fst].
  by rewrite engine_history, projects_history.
Qed.

Lemma mark_project_lost_state now project_id reason s :
  engine s = true ->
  engine (mark_project_lost now project_id reason s).1 = true /\
  projects (mark_project_lost now project_id reason s).1 =
    projects (update_projects project_id
                (fun p => set_status (Some "Closed - Lost")
                            (set_last_touched (Some now) p)) s).
Proof.
  intros He. unfold mark_project_lost. rewrite He. cbn [fst].
  by rewrite engine_history, projects_history.
Qed.

Lemma archive_project_state now project_id s :
  engine s = true ->
  engine (archive_project now project_id s).1 = true /\
  projects (archive_project now project_id s).1 =
    projects (update_projects project_id
                (fun p => set_status (Some "Archived")
                            (set_last_touched (Some now) p)) s).
Proof.
  intros He. unfold archive_project. rewrite He. cbn [fst].
  by rewrite engine_history, projects_history.
Qed.

(** X7: once a project is marked won, marked lost or archived, it has no
    system alert at any later time, and it is neither an urgent item nor
    a hot lead. *)
Theorem closed_project_off_work_lists now project_id reason s s' :
  engine s = true ->
  s' = (mark_project_won now project_id s).1 \/
  s' = (mark_project_lost now project_id reason s).1 \/
  s' = (archive_project now project_id s).1 ->
  (forall later a, a ∈ get_system_alerts later s' -> a_id a <> project_id) /\
  (forall q, q ∈ get_urgent_items s' -> id q <> project_id) /\
  (forall l, l ∈ get_new_leads s' -> l_id l <> project_id).
Proof.
  intros He [-> | [-> | ->]].
  - apply (settled_rows_off_lists project_id "Closed - Won").
    + intros q Hq Hm.
      by apply (status_move_rows _ _ _ _ _
                  (proj2 (mark_project_won_state now project_id s He)) q Hq).
    + cbn. intros H. by repeat destruct H as [H | H].
  - apply (settled_rows_off_lists project_id "Closed - Lost").
    + intros q Hq Hm.
      by apply (status_move_rows _ _ _ _ _
                  (proj2 (mark_project_lost_state now project_id reason s He)) q Hq).
    + cbn. intros H. by repeat destruct H as [H | H].
  - apply (settled_rows_off_lists project_id "Archived").
    + intros q Hq Hm.
      by apply (status_move_rows _ _ _ _ _
                  (proj2 (archive_project_state now project_id s He)) q Hq).
    + cbn. intros H. by repeat destruct H as [H | H].
Qed.

Lemma closed_project_off_work_lists_witness :
  (forall later a,
     a ∈ get_system_alerts later (mark_project_won clock0 "p1" (design_db None)).1 ->
     a_id a <> "p1") /\
  (forall q, q ∈ get_urgent_items (mark_project_won clock0 "p1" (design_db None)).1 ->
     id q <> "p1") /\
  (forall l, l ∈ get_new_leads (mark_project_won clock0 "p1" (design_db None)).1 ->
     l_id l <> "p1").
Proof.
  apply (closed_project_off_work_lists clock0 "p1" "" (design_db None));
    [reflexivity | by left].
Defined.

(** X8: a project marked won is listed by [get_won_projects] when it is
    active and by neither [get_lost_projects] nor [get_archived_projects];
    a project marked lost is listed by [get_lost_projects] and by neither
    of the other two. *)
Theorem won_lost_lists now project_id reason s :
  engine s = true ->
  let sw := (mark_project_won now project_id s).1 in
  let sl := (mark_project_lost now project_id reason s).1 in
  (forall p, p ∈ projects s -> row_matches project_id p = true ->
     is_active_v3 p = Some true ->
     set_status (Some "Closed - Won") (set_last_touched (Some now) p)
       ∈ get_won_projects sw /\
     set_status (Some "Closed - Lost") (set_last_touched (Some now) p)
       ∈ get_lost_projects sl) /\
  (forall q, q ∈ get_lost_projects sw \/ q ∈ get_archived_projects sw ->
     id q <> project_id) /\
  (forall q, q ∈ get_won_projects sl \/ q ∈ get_archived_projects sl ->
     id q <> project_id).
Proof.
  intros He sw sl.
  destruct (mark_project_won_state now project_id s He) as [Hew Hpw].
  destruct (mark_project_lost_state now project_id reason s He) as [Hel Hpl].
  split; [| split].
  - intros p Hp Hm Hact. split.
    + by apply (proj1 (status_move_listed _ _ _ "closed - won" _ _ Hew Hpw)).
    + by apply (proj1 (status_move_listed _ _ _ "closed - lost" _ _ Hel Hpl)).
  - intros q [Hq | Hq]; revert q Hq;
      by apply (proj2 (status_move_listed _ _ _ _ _ _ Hew Hpw)).
  - intros q [Hq | Hq]; revert q Hq;
      by apply (proj2 (status_move_listed _ _ _ _ _ _ Hel Hpl)).
Qed.

Lemma won_lost_lists_witness :
  let sw := (mark_project_won clock0 "p1" (db_in "Quoting")).1 in
  let sl := (mark_project_lost clock0 "p1" "price" (db_in "Quoting")).1 in
  (forall p, p ∈ projects (db_in "Quoting") -> row_matches "p1" p = true ->
     is_active_v3 p = Some true ->
     set_status (Some "Closed - Won") (set_last_touched (Some clock0) p)
       ∈ get_won_projects sw /\
     set_status (Some "Closed - Lost") (set_last_touched (Some clock0) p)
       ∈ get_lost_projects sl) /\
  (forall q, q ∈ get_lost_projects sw \/ q ∈ get_archived_projects sw ->
     id q <> "p1") /\
  (forall q, q ∈ get_won_projects sl \/ q ∈ get_archived_projects sl ->
     id q <> "p1").
Proof. apply (won_lost_lists clock0 "p1" "price" (db_in "Quoting")). reflexivity. Defined.


(** ** Promotion and demotion *)

Lemma set_active_each_projects flag ids s :
  projects (set_active_each flag ids s) =
    List.map (fun p => if existsb (fun pid => row_matches pid p) ids
                       then set_is_active_v3 (Some flag) p else p) (projects s).
Proof.
  revert s. induction ids as [|pid ids IH]; intros s; cbn [set_active_each existsb].
  - by rewrite map_id.
  - rewrite IH. unfold update_projects. cbn [projects with_projects].
    rewrite map_map. apply map_ext. intros p.
    destruct (row_matches pid p) eqn:Hm; cbn [orb]; [| done].
    change (existsb (fun x => row_matches x (set_is_active_v3 (Some flag) p)) ids)
      with (existsb (fun x => row_matches x p) ids).
    by destruct (existsb _ ids).
Qed.

Lemma set_active_each_frame flag ids s :
  engine (set_active_each flag ids s) = engine s /\
  commissions (set_active_each flag ids s) = commissions s /\
  production_logistics (set_active_each flag ids s) = production_logistics s /\
  project_history (set_active_each flag ids s) = project_history s /\
  project_touches (set_active_each flag ids s) = project_touches s.
Proof.
  revert s. induction ids as [|pid ids IH]; intros s; cbn [set_active_each]; [done |].
  destruct (IH (update_projects pid (set_is_active_v3 (Some flag)) s))
    as (-> & -> & -> & -> & ->). done.
Qed.

Lemma set_active_each_rows flag ids project_id s q :
  project_id ∈ ids -> q ∈ projects (set_active_each flag ids s) ->
  row_matches project_id q = true -> is_active_v3 q = Some flag.
Proof.
  intros Hin Hq Hm. rewrite set_active_each_projects in Hq.
  apply elem_of_map in Hq as (p & -> & _).
  destruct (existsb _ ids) eqn:Hex; [done |].
  assert (existsb (fun pid => row_matches pid p) ids = true) as Hex'; [| congruence].
  apply existsb_exists. exists project_id. by rewrite <- list_elem_of_In.
Qed.

(** X9: a demoted project is hidden from every list: it has no system
    alert, it is no urgent item and no hot lead, it is on none of the
    lists of archived, won and lost projects, and the commission ledger
    holds no payment of it.  Promoting it afterwards makes its rows
    active again. *)
Theorem demote_hides_project project_ids project_id s :
  engine s = true -> project_id ∈ project_ids ->
  let r := demote_projects project_ids s in
  r.2 = true /\
  (forall q, q ∈ projects r.1 -> row_matches project_id q = true ->
     is_active_v3 q = Some false) /\
  (forall later a, a ∈ get_system_alerts later r.1 -> a_id a <> project_id) /\
  (forall q, q ∈ get_urgent_items r.1 -> id q <> project_id) /\
  (forall l, l ∈ get_new_leads r.1 -> l_id l <> project_id) /\
  (forall key q, q ∈ status_list key r.1 -> id q <> project_id) /\
  (forall e, e ∈ get_paid_commissions_for_ledger r.1 -> pay_id e <> project_id) /\
  (forall q, q ∈ projects (promote_projects project_ids r.1).1 ->
     row_matches project_id q = true -> is_active_v3 q = Some true).
Proof.
  intros He Hin r.
  assert (r = (set_active_each false project_ids s, true)) as Hr.
  { unfold r, demote_projects. rewrite He. destruct project_ids; [| done].
    by apply elem_of_nil in Hin. }
  rewrite Hr. cbn [fst snd].
  assert (forall q, q ∈ projects (set_active_each false project_ids s) ->
            id q = project_id -> tenant_id q = TENANT_ID ->
            is_active_v3 q <> Some true) as Hoff.
  { intros q Hq Hid Ht. rewrite (set_active_each_rows false project_ids project_id s q);
      [done | done | done |]. subst project_id. by apply row_matches_intro. }
  split; [done |]. split; [| split; [| split; [| split; [| split; [| split]]]]].
  - intros q Hq Hm. by apply (set_active_each_rows false project_ids project_id s).
  - intros later a Ha Hid. unfold get_system_alerts in Ha.
    apply list_elem_of_omap in Ha as (p & Hp & Ha).
    apply elem_of_alert_query_iff in Hp as (_ & Hp & Hc).
    apply alert_of_id in Ha. rewrite Ha in Hid.
    apply alert_candidate_status in Hc as (Ht & Hact & _).
    apply String.eqb_eq in Ht. by apply (Hoff p).
  - intros q (_ & Hq & Hw)%elem_of_get_urgent_items Hid.
    unfold urgent_where in Hw. rewrite !andb_true_iff in Hw.
    destruct Hw as [[[[Ht Hact]%in_ledger_scope_iff _] _] _]. by apply (Hoff q).
  - intros l (_ & p & Hp & Hw & ->)%elem_of_get_new_leads Hid. cbn in Hid.
    apply new_lead_where_iff in Hw as (Ht & _ & Hact). by apply (Hoff p).
  - intros key q (_ & Hq & Hl)%elem_of_status_list Hid.
    unfold listed_under in Hl. apply andb_prop in Hl as [Hsc _].
    apply in_ledger_scope_iff in Hsc as [Ht Hact]. by apply (Hoff q).
  - intros e He' Hid. apply elem_of_ledger in He';
      [| by rewrite (proj1 (set_active_each_frame _ _ _))].
    destruct He' as [([p c] & -> & Hj & Hw) | ([p c] & -> & Hj & Hw)];
      apply elem_of_joined in Hj as (Hp & _ & _); cbn in Hid.
    + apply deposit_where_iff in Hw as [[Ht Hact]%in_ledger_scope_iff _].
      by apply (Hoff p).
    + apply final_where_iff in Hw as [[Ht Hact]%in_ledger_scope_iff _].
      by apply (Hoff p).
  - intros q Hq Hm.
    assert ((promote_projects project_ids (set_active_each false project_ids s)).1
            = set_active_each true project_ids (set_active_each false project_ids s))
      as Hpr.
    { unfold promote_projects. rewrite (proj1 (set_active_each_frame _ _ _)), He.
      destruct project_ids; [| done]. by apply elem_of_nil in Hin. }
    rewrite Hpr in Hq.
    exact (set_active_each_rows true project_ids project_id _ q Hin Hq Hm).
Qed.

Lemma demote_hides_project_witness :
  let r := demote_projects ["p1"] (ledger_db true) in
  r.2 = true /\
  (forall q, q ∈ projects r.1 -> row_matches "p1" q = true ->
     is_active_v3 q = Some false) /\
  (forall later a, a ∈ get_system_alerts later r.1 -> a_id a <> "p1") /\
  (forall q, q ∈ get_urgent_items r.1 -> id q <> "p1") /\
  (forall l, l ∈ get_new_leads r.1 -> l_id l <> "p1") /\
  (forall key q, q ∈ status_list key r.1 -> id q <> "p1") /\
  (forall e, e ∈ get_paid_commissions_for_ledger r.1 -> pay_id e <> "p1") /\
  (forall q, q ∈ projects (promote_projects ["p1"] r.1).1 ->
     row_matches "p1" q = true -> is_active_v3 q = Some true).
Proof.
  apply (demote_hides_project ["p1"] "p1" (ledger_db true)); [reflexivity |].
  apply list_elem_of_singleton. reflexivity.
Defined.

(** X10: [promote_projects] and [demote_projects] answer [False] and
    change nothing for an empty list of ids and when there is no engine;
    otherwise they answer [True] and change no column but [is_active_v3],
    and no row of another project or tenant. *)
Theorem promote_demote_frame flag project_ids s :
  let r := if flag : bool then promote_projects project_ids s
           else demote_projects project_ids s in
  (project_ids = [] \/ engine s = false -> r = (s, false)) /\
  (project_ids <> [] -> engine s = true -> r.2 = true) /\
  commissions r.1 = commissions s /\
  project_history r.1 = project_history s /\
  project_touches r.1 = project_touches s /\
  production_logistics r.1 = production_logistics s /\
  length (projects r.1) = length (projects s) /\
  (forall i p, projects s !! i = Some p ->
     exists q, projects r.1 !! i = Some q /\
       set_is_active_v3 (is_active_v3 q) p = q /\
       ((forall pid, pid ∈ project_ids -> row_matches pid p = false) -> q = p)).
Proof.
  intros r.
  assert (r = (s, false) \/
          (project_ids <> [] /\ engine s = true /\
           r = (set_active_each flag project_ids s, true))) as Hr.
  { unfold r, promote_projects, demote_projects.
    destruct flag, project_ids, (engine s); auto. }
  split; [| split].
  - intros Hno. destruct Hr as [Hr | (Hne & He & _)]; [done |].
    destruct Hno; congruence.
  - intros Hne He. destruct Hr as [Hr | (_ & _ & ->)]; [| done].
    exfalso. revert Hr. unfold r, promote_projects, demote_projects.
    rewrite He. by destruct flag, project_ids.
  - destruct Hr as [-> | (_ & _ & ->)]; cbn [fst].
    { repeat split; try done. intros i p Hp. exists p. by destruct p. }
    destruct (set_active_each_frame flag project_ids s) as (_ & -> & -> & -> & ->).
    rewrite set_active_each_projects. repeat split; try done.
    + by rewrite length_map.
    + intros i p Hp. rewrite lookup_map, Hp. cbn. eexists. split; [done |].
      destruct (existsb _ project_ids) eqn:Hex.
      * split; [done |]. intros Hall.
        apply existsb_exists in Hex as (pid & Hpid & Hm).
        rewrite Hall in Hm; [done | by apply list_elem_of_In].
      * split; [by destruct p | done].
Qed.

Lemma promote_demote_frame_witness :
  demote_projects [] (ledger_db true) = (ledger_db true, false) /\
  (demote_projects ["p1"] (ledger_db true)).2 = true.
Proof.
  split.
  - apply (proj1 (promote_demote_frame false [] (ledger_db true))). by left.
  - by apply (proj1 (proj2 (promote_demote_frame false ["p1"] (ledger_db true)))).
Defined.


(** ** Hot leads *)

Lemma latest_history_app project_id entry_type s hs hs' :
  project_history s = hs ++ hs' ->
  latest_history project_id entry_type s =
    default ""
      (h_content <$>
         last (List.filter
                 (fun h => String.eqb (h_project_id h) project_id
                           && String.eqb (h_entry_type h) entry_type) hs
               ++ List.filter
                 (fun h => String.eqb (h_project_id h) project_id
                           && String.eqb (h_entry_type h) entry_type) hs')).
Proof. intros H. unfold latest_history. by rewrite H, List.filter_app. Qed.

Lemma filter_none {A} (c : A -> bool) (l : list A) :
  (forall x, x ∈ l -> c x = false) -> List.filter c l = [].
Proof.
  induction l as [|x l IH]; intros H; [done |]. cbn.
  rewrite (H x) by left. apply IH. intros y Hy. apply H. by right.
Qed.

Lemma or_text_truthy text : (if Str.truthy text then text else "") = text.
Proof. by destruct text. Qed.

(** X11: a lead created with [create_lead] under a fresh id is a hot
    lead at once: [get_new_leads] lists it with the name given
    ("Unknown" for an empty one), and with the phone and the email that
    were given, which it reads back from the history. *)
Theorem create_lead_is_hot_lead now new_id name phone email notes source
    site_address s :
  engine s = true ->
  (forall h, h ∈ project_history s -> h_project_id h <> new_id) ->
  mkLead new_id (Some (if Str.truthy name then name else "Unknown")) phone email
    (Some notes) (Some source) (Some "New") (Some now)
    ∈ get_new_leads
        (create_lead now new_id name phone email notes source site_address s).1.
Proof.
  intros He Hfresh. unfold create_lead. rewrite He. cbn [fst].
  set (row := mkProject new_id _ _ _ _ _ _ _ _ _ _ _ _ _ _ _ _ _ _ _ _ _ _ _ _ _ _).
  set (h1 := if Str.truthy phone then _ else _).
  set (h2 := if Str.truthy email then _ else _).
  set (s' := with_history _ _).
  assert (forall ty, List.filter
            (fun h => String.eqb (h_project_id h) new_id
                      && String.eqb (h_entry_type h) ty) (project_history s) = [])
    as Hold.
  { intros ty. apply filter_none. intros h Hh. apply Hfresh in Hh.
    apply String.eqb_neq in Hh. by rewrite Hh. }
  apply elem_of_get_new_leads. split; [done |]. exists row. split; [| split].
  - cbn. apply elem_of_app. right. by left.
  - reflexivity.
  - unfold lead_of_project. change (id row) with new_id.
    change (client_name row)
      with (Some (if Str.truthy name then name else "Unknown")).
    f_equal.
    + rewrite (latest_history_app new_id "phone" s' (project_history s) (h1 ++ h2))
        by done.
      rewrite Hold. cbn [app]. subst h1 h2.
      destruct phone as [|c phone]; destruct email as [|c' email]; cbn;
        rewrite ?String.eqb_refl; by cbn.
    + rewrite (latest_history_app new_id "email" s' (project_history s) (h1 ++ h2))
        by done.
      rewrite Hold. cbn [app]. subst h1 h2.
      destruct phone as [|c phone]; destruct email as [|c' email]; cbn;
        rewrite ?String.eqb_refl; by cbn.
Qed.

Lemma create_lead_is_hot_lead_witness :
  mkLead "p1" (Some "Unknown") "555-1234" "" (Some "") (Some "zapier")
    (Some "New") (Some clock0)
    ∈ get_new_leads
        (create_lead clock0 "p1" "" "555-1234" "" "" "zapier" "" (empty_db true)).1.
Proof.
  apply (create_lead_is_hot_lead clock0 "p1" "" "555-1234" "" "" "zapier" ""
           (empty_db true)); [reflexivity |].
  intros h Hh. by apply elem_of_nil in Hh.
Defined.


(** A status move of the rows selected by [u], all of them rows of
    [project_id], followed by a history entry that is neither a phone
    nor an email. *)
Lemma leads_after_contact project_id (u : project -> bool) g h s s' :
  engine s' = engine s ->
  projects s' = List.map (fun p => if u p then set_status (Some "Block A") (g p) else p)
                  (projects s) ->
  project_history s' = project_history s ++ [h] ->
  h_entry_type h <> "phone" -> h_entry_type h <> "email" ->
  (forall p, u p = true -> row_matches project_id p = true) ->
  (forall p, row_matches project_id p = true -> status p = Some "New" ->
     u p = true) ->
  forall l, l ∈ get_new_leads s' <-> l ∈ get_new_leads s /\ l_id l <> project_id.
Proof.
  intros He Hp Hh Hph Hem Hu1 Hu2 l.
  assert (forall pid ty, ty = "phone" \/ ty = "email" ->
            latest_history pid ty s' = latest_history pid ty s) as Hlatest.
  { intros pid ty Hty. rewrite (latest_history_app pid ty s' _ _ Hh).
    cbn [List.filter].
    assert (String.eqb (h_entry_type h) ty = false) as ->.
    { apply String.eqb_neq. intros Heq. destruct Hty; congruence. }
    by rewrite andb_false_r, app_nil_r. }
  assert (forall p, lead_of_project s' p = lead_of_project s p) as Hlead.
  { intros p. unfold lead_of_project. rewrite !Hlatest; auto. }
  rewrite !elem_of_get_new_leads, He, Hp. split.
  - intros (Hen & q & Hq & Hw & ->). apply elem_of_map in Hq as (p & -> & Hin).
    destruct (u p) eqn:Hup.
    { apply new_lead_where_iff in Hw as (_ & Hst & _). done. }
    rewrite Hlead. split.
    + split; [done |]. by exists p.
    + cbn. intros Hid. apply new_lead_where_iff in Hw as (Ht & Hst & _).
      rewrite Hu2 in Hup; [done | | done]. subst project_id.
      by apply row_matches_intro.
  - intros [(Hen & p & Hin & Hw & ->) Hid]. split; [done |]. cbn in Hid.
    exists p. split; [| by rewrite Hlead].
    apply elem_of_map. exists p. split; [| done].
    destruct (u p) eqn:Hup; [| done].
    apply Hu1, row_matches_id in Hup. done.
Qed.

(** X12: writing a note on a lead, or pressing "Call" on its card, takes
    exactly that project off the list of hot leads: the leads listed
    afterwards are the leads listed before whose id is another one, with
    the same name, phone and email. *)
Theorem contacted_lead_leaves_hot_leads now project_id text s s' :
  s' = (add_lead_note now project_id text s).1 \/
  s' = hot_lead_call_click now project_id text s ->
  forall l, l ∈ get_new_leads s' <-> l ∈ get_new_leads s /\ l_id l <> project_id.
Proof.
  intros Hs' l. destruct (engine s) eqn:He.
  2: { assert (engine s' = false) as He'.
       { destruct Hs' as [-> | ->];
           unfold add_lead_note, hot_lead_call_click, update_lead_status,
             execute_update, add_project_history; by rewrite ?He; cbn; rewrite ?He. }
       unfold get_new_leads. rewrite He, He'. split; [by intros ?%elem_of_nil |].
       by intros [?%elem_of_nil _]. }
  destruct Hs' as [-> | ->].
  - apply (leads_after_contact project_id
             (fun p => row_matches project_id p && bool_decide (status p = Some "New"))
             (fun p => set_updated_at (Some now) (set_status_updated_at (Some now) p))
             (mkHistory project_id "note" text));
      try (unfold add_lead_note; rewrite He; done); try done.
    + by intros p [H _]%andb_prop.
    + intros p Hm Hst. rewrite Hm. by apply bool_decide_eq_true.
  - apply (leads_after_contact project_id (row_matches project_id)
             (fun p => set_updated_at (Some now) (set_status_updated_at (Some now) p))
             (mkHistory project_id "LEAD_CALLED" ("Called " +:+ text)));
      try (unfold hot_lead_call_click, update_lead_status, execute_update,
             add_project_history; rewrite He; cbn; rewrite ?He; done);
      try done; auto.
Qed.


Lemma contacted_lead_leaves_hot_leads_witness :
  lead_of_project (db_in "New") (project_in "New")
    ∈ get_new_leads (hot_lead_call_click clock0 "p1" "Acme Co" (db_in "New")) <->
  lead_of_project (db_in "New") (project_in "New") ∈ get_new_leads (db_in "New") /\
  l_id (lead_of_project (db_in "New") (project_in "New")) <> "p1".
Proof.
  apply (contacted_lead_leaves_hot_leads clock0 "p1" "Acme Co" (db_in "New")).
  by right.
Defined.


(** ** The commissions table: one row per project *)

Lemma existsb_find_none {A} (c : A -> bool) (l : list A) :
  existsb c l = false <-> List.find c l = None.
Proof.
  induction l as [|x l IH]; [done |]. cbn. destruct (c x); [done |]. apply IH.
Qed.

(** The shape shared by the three upserts: the rows of the project are
    rewritten in place, or one row is added when there is none. *)
Lemma upsert_keys project_id (f : commission -> commission) row
    (cs : list commission) :
  (forall c, c_project_id (f c) = c_project_id c) ->
  c_project_id row = project_id ->
  NoDup (c_project_id <$> cs) ->
  NoDup (c_project_id <$>
           (if existsb (fun c => String.eqb (c_project_id c) project_id) cs
            then List.map (fun c => if String.eqb (c_project_id c) project_id
                                    then f c else c) cs
            else cs ++ [row])).
Proof.
  intros Hf Hrow Hnd. destruct (existsb _ cs) eqn:Hex.
  - replace (c_project_id <$> List.map _ cs) with (c_project_id <$> cs); [done |].
    clear Hex Hnd. induction cs as [|c cs IH]; [done |]. cbn.
    rewrite <- IH. f_equal. destruct (String.eqb _ _); by rewrite ?Hf.
  - rewrite fmap_app. cbn. apply NoDup_app. split; [done |]. split.
    + intros x Hx ->%list_elem_of_singleton.
      apply list_elem_of_fmap in Hx as (c & Hc & Hin).
      assert (existsb (fun c => String.eqb (c_project_id c) project_id) cs = true);
        [| congruence].
      apply existsb_exists. exists c. split; [by apply list_elem_of_In |].
      apply String.eqb_eq. congruence.
    + apply NoDup_singleton.
Qed.

Lemma record_final_payment_unfold project_id amount payment_date cs :
  record_final_payment project_id amount payment_date cs =
    if existsb (fun c => String.eqb (c_project_id c) project_id) cs
    then List.map
           (fun c =>
              if String.eqb (c_project_id c) project_id
              then mkCommission (c_project_id c) (c_total_value c)
                     (c_deposit_amount c) (c_deposit_received_date c)
                     (Some payment_date) (Some amount) (c_commission_notes c)
              else c) cs
    else cs ++ [mkCommission project_id (Some amount) None None
                  (Some payment_date) (Some amount) None].
Proof.
  unfold record_final_payment.
  destruct (existsb _ cs) eqn:Hex.
  - destruct (List.find _ cs) eqn:Hf; [done |].
    apply existsb_find_none in Hf. congruence.
  - apply existsb_find_none in Hex. by rewrite Hex.
Qed.

(** The rows of the other projects under an upsert: the same rows, in
    the same order. *)
Lemma upsert_others project_id (f : commission -> commission) row
    (cs : list commission) :
  (forall c, c_project_id (f c) = c_project_id c) ->
  c_project_id row = project_id ->
  List.filter (fun c => negb (String.eqb (c_project_id c) project_id))
    (if existsb (fun c => String.eqb (c_project_id c) project_id) cs
     then List.map (fun c => if String.eqb (c_project_id c) project_id
                             then f c else c) cs
     else cs ++ [row]) =
  List.filter (fun c => negb (String.eqb (c_project_id c) project_id)) cs.
Proof.
  intros Hf Hrow. destruct (existsb _ cs).
  - induction cs as [|c cs IH]; [done |]. cbn [List.map List.filter].
    destruct (String.eqb (c_project_id c) project_id) eqn:Heq.
    + by rewrite Hf, Heq.
    + rewrite Heq. cbn [negb]. by rewrite IH.
  - rewrite List.filter_app. cbn [List.filter].
    rewrite Hrow, String.eqb_refl. cbn [negb]. by rewrite app_nil_r.
Qed.

(** X13: the commissions table holds at most one row per project, and
    the three functions that write to it keep it so:
    [mark_deposit_received], [close_project_with_final_payment] and
    [save_commission_amounts] rewrite the row of the project when there
    is one and add one only when there is none.  They leave the rows of
    the other projects alone: after the call the table holds exactly the
    rows of other projects it held before, unchanged and in the same
    order. *)
Theorem commissions_one_row_per_project now project_id deposit_date notes
    (amount total : Q) s s' :
  NoDup (c_project_id <$> commissions s) ->
  s' = (mark_deposit_received now project_id deposit_date amount s).1 \/
  s' = (close_project_with_final_payment now project_id amount s).1 \/
  s' = (save_commission_amounts project_id total amount deposit_date notes s).1 ->
  NoDup (c_project_id <$> commissions s') /\
  List.filter (fun c => negb (String.eqb (c_project_id c) project_id))
    (commissions s') =
  List.filter (fun c => negb (String.eqb (c_project_id c) project_id))
    (commissions s) /\
  (forall c', c_project_id c' <> project_id ->
     (c' ∈ commissions s' <-> c' ∈ commissions s)) /\
  (engine s = true -> exists c', c' ∈ commissions s' /\ c_project_id c' = project_id).
Proof.
  intros Hnd Hs'.
  assert (forall cs cs' : list commission,
            List.filter (fun c => negb (String.eqb (c_project_id c) project_id)) cs'
            = List.filter (fun c => negb (String.eqb (c_project_id c) project_id)) cs ->
            forall c', c_project_id c' <> project_id -> (c' ∈ cs' <-> c' ∈ cs))
    as Hiff.
  { intros cs cs' Hfil c' Hne.
    assert (negb (String.eqb (c_project_id c') project_id) = true) as Hc
      by (by apply negb_true_iff, String.eqb_neq).
    split; intros Hin.
    - assert (c' ∈ List.filter
                     (fun c => negb (String.eqb (c_project_id c) project_id)) cs')
        as Hin' by (by apply elem_of_filter_bool).
      rewrite Hfil in Hin'. by apply elem_of_filter_bool in Hin' as [? _].
    - assert (c' ∈ List.filter
                     (fun c => negb (String.eqb (c_project_id c) project_id)) cs)
        as Hin' by (by apply elem_of_filter_bool).
      rewrite <- Hfil in Hin'. by apply elem_of_filter_bool in Hin' as [? _]. }
  assert (forall f row,
            (forall c, c_project_id (f c) = c_project_id c) ->
            c_project_id row = project_id ->
            let cs' :=
              if existsb (fun c => String.eqb (c_project_id c) project_id)
                   (commissions s)
              then List.map (fun c => if String.eqb (c_project_id c) project_id
                                      then f c else c) (commissions s)
              else commissions s ++ [row] in
            NoDup (c_project_id <$> cs') /\
            List.filter (fun c => negb (String.eqb (c_project_id c) project_id)) cs'
            = List.filter (fun c => negb (String.eqb (c_project_id c) project_id))
                (commissions s) /\
            (forall c', c_project_id c' <> project_id ->
               (c' ∈ cs' <-> c' ∈ commissions s)) /\
            (exists c', c' ∈ cs' /\ c_project_id c' = project_id)) as Hgen.
  { intros f row Hf Hrow cs'. split; [by apply upsert_keys |].
    assert (List.filter (fun c => negb (String.eqb (c_project_id c) project_id)) cs'
            = List.filter (fun c => negb (String.eqb (c_project_id c) project_id))
                (commissions s)) as Hfil by (by apply upsert_others).
    split; [exact Hfil |]. split; [by apply Hiff |]. subst cs'.
    destruct (existsb _ (commissions s)) eqn:Hex.
    - apply existsb_exists in Hex as (c & Hc & Heq). exists (f c). split.
      + apply elem_of_map. exists c. rewrite Heq. split; [done |].
        by apply list_elem_of_In.
      + rewrite Hf. by apply String.eqb_eq.
    - exists row. split; [| done]. apply elem_of_app. right. by left. }
  destruct (engine s) eqn:He.
  2: { assert (s' = s) as ->.
       { destruct Hs' as [-> | [-> | ->]];
           unfold mark_deposit_received, close_project_with_final_payment,
             save_commission_amounts; by rewrite He. }
       split; [done |]. split; [done |]. split; [done | done]. }
  destruct Hs' as [-> | [-> | ->]].
  - unfold mark_deposit_received. rewrite He. cbn [fst commissions with_commissions].
    unfold upsert_deposit. cbn [commissions update_projects with_projects].
    destruct (Hgen (fun c => mkCommission (c_project_id c) (c_total_value c)
                               (Some amount) deposit_date (c_final_payment_date c)
                               (c_total_amount_received c) (c_commission_notes c))
                (mkCommission project_id None (Some amount) deposit_date None None None))
      as (H1 & H2 & H3 & H4); done.
  - unfold close_project_with_final_payment. rewrite He.
    cbn [fst commissions with_commissions]. rewrite record_final_payment_unfold.
    cbn [commissions update_projects with_projects].
    destruct (Hgen (fun c => mkCommission (c_project_id c) (c_total_value c)
                               (c_deposit_amount c) (c_deposit_received_date c)
                               (Some (dt_date now)) (Some amount)
                               (c_commission_notes c))
                (mkCommission project_id (Some amount) None None
                   (Some (dt_date now)) (Some amount) None))
      as (H1 & H2 & H3 & H4); done.
  - unfold save_commission_amounts. rewrite He.
    cbn [fst commissions with_commissions]. unfold upsert_amounts.
    destruct (Hgen (fun c => mkCommission (c_project_id c) (Some total) (Some amount)
                               (match deposit_date with
                                | Some d => Some d
                                | None => c_deposit_received_date c
                                end)
                               (c_final_payment_date c) (c_total_amount_received c)
                               notes)
                (mkCommission project_id (Some total) (Some amount) deposit_date
                   None None notes))
      as (H1 & H2 & H3 & H4); done.
Qed.

(** A table with the rows of "p1" and "p2": closing out "p1" keeps the
    row of "p2". *)
Lemma commissions_one_row_per_project_witness :
  let s := with_commissions
             [ledger_commission;
              mkCommission "p2" (Some 900%Q) None None None None None]
             (ledger_db true) in
  let s' := (close_project_with_final_payment clock0 "p1" 5000 s).1 in
  NoDup (c_project_id <$> commissions s') /\
  List.filter (fun c => negb (String.eqb (c_project_id c) "p1")) (commissions s') =
    [mkCommission "p2" (Some 900%Q) None None None None None] /\
  (mkCommission "p2" (Some 900%Q) None None None None None ∈ commissions s' <->
   mkCommission "p2" (Some 900%Q) None None None None None ∈ commissions s) /\
  exists c', c' ∈ commissions s' /\ c_project_id c' = "p1".
Proof.
  cbn zeta.
  destruct (commissions_one_row_per_project clock0 "p1" None None 5000 0
              (with_commissions
                 [ledger_commission;
                  mkCommission "p2" (Some 900%Q) None None None None None]
                 (ledger_db true))
              (close_project_with_final_payment clock0 "p1" 5000
                 (with_commissions
                    [ledger_commission;
                     mkCommission "p2" (Some 900%Q) None None None None None]
                    (ledger_db true))).1) as (H1 & H2 & H3 & H4).
  - cbn. apply NoDup_cons. split; [| apply NoDup_singleton].
    intros Hin%list_elem_of_singleton. discriminate Hin.
  - right. by left.
  - split; [exact H1 |]. split; [rewrite H2; reflexivity |].
    split; [by apply H3 | by apply H4].
Defined.

(** ** Commission amounts: what is saved is what is read *)

Lemma find_upsert project_id (f : commission -> commission) row
    (cs : list commission) :
  (forall c, c_project_id (f c) = c_project_id c) ->
  c_project_id row = project_id ->
  List.find (fun c => String.eqb (c_project_id c) project_id)
    (if existsb (fun c => String.eqb (c_project_id c) project_id) cs
     then List.map (fun c => if String.eqb (c_project_id c) project_id
                             then f c else c) cs
     else cs ++ [row]) =
  Some (match List.find (fun c => String.eqb (c_project_id c) project_id) cs with
        | Some c => f c
        | None => row
        end).
Proof.
  intros Hf Hrow. destruct (existsb _ cs) eqn:Hex.
  - induction cs as [|c cs IH]; [done |]. cbn in *.
    destruct (String.eqb (c_project_id c) project_id) eqn:Heq.
    + cbn. by rewrite Hf, Heq.
    + cbn. rewrite Heq. cbn in Hex. by apply IH.
  - apply existsb_find_none in Hex. rewrite Hex.
    induction cs as [|c cs IH]; cbn in *.
    + by rewrite Hrow, String.eqb_refl.
    + destruct (String.eqb (c_project_id c) project_id) eqn:Heq; [done |].
      by apply IH.
Qed.

(** X14: [get_commission_data] reads back what [save_commission_amounts]
    wrote: the total value, the deposit amount and the notes are the
    ones saved; the deposit date is the one saved or, when none was
    given, the date the row held before; the final payment is untouched. *)
Theorem save_commission_amounts_read_back project_id (total_value deposit_amount : Q)
    deposit_date notes s :
  engine s = true ->
  let before :=
    List.find (fun c => String.eqb (c_project_id c) project_id) (commissions s) in
  let r := save_commission_amounts project_id total_value deposit_amount
             deposit_date notes s in
  let c := get_commission_data project_id r.1 in
  r.2 = true /\
  c_project_id c = project_id /\
  c_total_value c = Some total_value /\
  c_deposit_amount c = Some deposit_amount /\
  c_commission_notes c = notes /\
  c_deposit_received_date c =
    match deposit_date with
    | Some d => Some d
    | None => before ≫= c_deposit_received_date
    end /\
  c_final_payment_date c = before ≫= c_final_payment_date /\
  c_total_amount_received c = before ≫= c_total_amount_received /\
  projects r.1 = projects s.
Proof.
  intros He before r c. subst r c. unfold save_commission_amounts. rewrite He.
  cbn [fst snd]. unfold get_commission_data.
  cbn [engine commissions with_commissions]. rewrite He. unfold upsert_amounts.
  rewrite find_upsert by done. cbn [default]. fold before.
  destruct before as [c0 |] eqn:Hb.
  - apply find_some in Hb as [_ Hid%String.eqb_eq]. cbn. by destruct deposit_date.
  - cbn. by destruct deposit_date.
Qed.

Lemma save_commission_amounts_read_back_witness :
  let r := save_commission_amounts "p1" 6000 3000 None (Some "revised")
             (ledger_db true) in
  let c := get_commission_data "p1" r.1 in
  c_total_value c = Some 6000%Q /\ c_deposit_amount c = Some 3000%Q /\
  c_deposit_received_date c = Some (mkDate 2024 3 14).
Proof.
  destruct (save_commission_amounts_read_back "p1" 6000 3000 None (Some "revised")
              (ledger_db true) eq_refl) as (_ & _ & H1 & H2 & _ & H3 & _).
  cbn zeta. rewrite H1, H2, H3. done.
Defined.


(** ** Block G: a project is closed out once *)

Lemma closeout_status_cases install today :
  closeout_status install today = "Confirmed" \/
  closeout_status install today = "completed".
Proof.
  unfold closeout_status. destruct install as [d |]; [| by right].
  destruct (date_ltb today d); auto.
Qed.

Lemma commissions_touch project_id touch_type note s :
  commissions (add_project_touch project_id touch_type note s).1 = commissions s.
Proof. unfold add_project_touch, execute_update. by destruct (engine s). Qed.

Lemma add_project_note_frame now project_id note s :
  engine (add_project_note now project_id note s).1 = engine s /\
  commissions (add_project_note now project_id note s).1 = commissions s.
Proof. unfold add_project_note, execute_update. by destruct (engine s) eqn:He. Qed.

(** X15: after a successful click on "Final Balance Received - Close
    Project", Block G does not offer the button for that project again,
    and the project has no system alert and is neither an urgent item
    nor a hot lead. *)
Theorem closeout_click_once now project_id status0 final_amount note touch_note
    s s' :
  closeout_click now project_id status0 final_amount note touch_note s = (s', true) ->
  (forall q, q ∈ projects s' -> row_matches project_id q = true ->
     closeout_offered project_id (status q) s' = false) /\
  (forall later a, a ∈ get_system_alerts later s' -> a_id a <> project_id) /\
  (forall q, q ∈ get_urgent_items s' -> id q <> project_id) /\
  (forall l, l ∈ get_new_leads s' -> l_id l <> project_id).
Proof.
  unfold closeout_click. destruct (closeout_offered project_id status0 s); [| done].
  destruct (close_project_with_final_payment now project_id final_amount s)
    as [s1 success] eqn:Hclose.
  destruct success; [| done]. intros [= <-].
  unfold close_project_with_final_payment in Hclose.
  destruct (engine s) eqn:He; [| done]. injection Hclose as <-.
  set (st := closeout_status (recorded_install_date project_id s) (dt_date now)).
  set (s1 := with_commissions _ _).
  set (s2 := (add_project_note now project_id note s1).1).
  set (s3 := (add_project_touch project_id "project_closed" touch_note s2).1).
  assert (engine s3 = true) as He3.
  { unfold s3. rewrite engine_touch. unfold s2.
    by rewrite (proj1 (add_project_note_frame _ _ _ _)). }
  assert (commissions s3 = commissions s1) as Hc3.
  { unfold s3. rewrite commissions_touch. unfold s2.
    by rewrite (proj2 (add_project_note_frame _ _ _ _)). }
  assert (forall q, q ∈ projects s3 -> row_matches project_id q = true ->
            status q = Some st) as Hrows.
  { intros q Hq Hm. unfold s3 in Hq. rewrite projects_touch in Hq.
    unfold s2, add_project_note, execute_update in Hq. cbn in Hq.
    rewrite He in Hq. cbn [fst] in Hq.
    apply elem_of_update_projects in Hq as (p1 & Hp1 & ->).
    assert (status (if row_matches project_id p1
                    then set_notes
                           match notes p1 with
                           | Some "" | None => Some note
                           | Some n => Some (n +:+ String (ascii_of_nat 10) note)
                           end (set_updated_at (Some now) p1)
                    else p1) = status p1 /\
            row_matches project_id p1 = true) as [-> Hm1].
    { destruct (row_matches project_id p1) eqn:Hm1; [done | congruence]. }
    apply elem_of_update_projects in Hp1 as (p & Hp & ->).
    destruct (row_matches project_id p) eqn:Hm0; [done | congruence]. }
  split.
  - intros q Hq Hm. rewrite (Hrows q Hq Hm). unfold closeout_offered.
    destruct (closeout_status_cases (recorded_install_date project_id s)
                (dt_date now)) as [Hst | Hst]; fold st in Hst; rewrite Hst.
    + reflexivity.
    + change (status_lower (Some "completed")) with "completed".
      cbn [Str.mem existsb List.map closeout_statuses].
      unfold get_commission_data. rewrite He3, Hc3.
      unfold s1. cbn [commissions with_commissions update_projects with_projects].
      rewrite record_final_payment_unfold, find_upsert by done.
      cbn [default]. by destruct (List.find _ (commissions s)).
  - apply (settled_rows_off_lists project_id st); [exact Hrows |].
    destruct (closeout_status_cases (recorded_install_date project_id s)
                (dt_date now)) as [Hst | Hst]; fold st in Hst; rewrite Hst;
      cbn; intros H; by repeat destruct H as [H | H].
Qed.

Lemma closeout_click_once_witness :
  (forall q,
     q ∈ projects (closeout_click clock0 "p1" (Some "ACTIVE PRODUCTION") 5000
                     "closed" "closed" (closeout_db None)).1 ->
     row_matches "p1" q = true ->
     closeout_offered "p1" (status q)
       (closeout_click clock0 "p1" (Some "ACTIVE PRODUCTION") 5000
          "closed" "closed" (closeout_db None)).1 = false) /\
  get_urgent_items
    (closeout_click clock0 "p1" (Some "ACTIVE PRODUCTION") 5000
       "closed" "closed" (closeout_db None)).1 = [].
Proof.
  destruct (closeout_click_once clock0 "p1" (Some "ACTIVE PRODUCTION") 5000
              "closed" "closed" (closeout_db None)
              (closeout_click clock0 "p1" (Some "ACTIVE PRODUCTION") 5000
                 "closed" "closed" (closeout_db None)).1 eq_refl)
    as (H1 & _ & _ & _).
  split; [exact H1 | reflexivity].
Defined.


(** ** From deposit to closeout: what the ledger shows *)

Lemma elem_of_upsert project_id (f : commission -> commission) row
    (cs : list commission) c' :
  c' ∈ (if existsb (fun c => String.eqb (c_project_id c) project_id) cs
        then List.map (fun c => if String.eqb (c_project_id c) project_id
                                then f c else c) cs
        else cs ++ [row]) ->
  c_project_id c' = project_id ->
  (forall c, c_project_id (f c) = c_project_id c) ->
  (exists c, c ∈ cs /\ c_project_id c = project_id /\ c' = f c) \/
  (c' = row /\ forall c, c ∈ cs -> c_project_id c <> project_id).
Proof.
  intros Hin Hid Hf. destruct (existsb _ cs) eqn:Hex.
  - apply elem_of_map in Hin as (c & -> & Hc).
    destruct (String.eqb (c_project_id c) project_id) eqn:Heq.
    + left. exists c. by apply String.eqb_eq in Heq.
    + apply String.eqb_neq in Heq. done.
  - assert (forall c, c ∈ cs -> c_project_id c <> project_id) as Hnone.
    { intros c Hc Heq.
      assert (existsb (fun c => String.eqb (c_project_id c) project_id) cs = true);
        [| congruence].
      apply existsb_exists. exists c. split; [by apply list_elem_of_In |].
      by apply String.eqb_eq. }
    apply elem_of_app in Hin as [Hin | ->%list_elem_of_singleton]; [| by right].
    by apply Hnone in Hin.
Qed.

Lemma upsert_has_row project_id (f : commission -> commission) row
    (cs : list commission) :
  (forall c, c_project_id (f c) = c_project_id c) ->
  c_project_id row = project_id ->
  exists c', c' ∈ (if existsb (fun c => String.eqb (c_project_id c) project_id) cs
                   then List.map (fun c => if String.eqb (c_project_id c) project_id
                                           then f c else c) cs
                   else cs ++ [row]) /\ c_project_id c' = project_id.
Proof.
  intros Hf Hrow. pose proof (find_upsert project_id f row cs Hf Hrow) as Hfind.
  apply find_some in Hfind as [Hin Heq]. eexists. split.
  - apply list_elem_of_In, Hin.
  - by apply String.eqb_eq.
Qed.

(** The commission rows of a project after its deposit was recorded and
    the project was closed out. *)
Lemma deposit_closeout_rows now now' project_id d (D T : Q) s :
  engine s = true ->
  let s1 := (mark_deposit_received now project_id (Some d) D s).1 in
  let s2 := (close_project_with_final_payment now' project_id T s1).1 in
  (exists c, c ∈ commissions s2 /\ c_project_id c = project_id) /\
  (forall c, c ∈ commissions s2 -> c_project_id c = project_id ->
     c_deposit_amount c = Some D /\ c_deposit_received_date c = Some d /\
     c_final_payment_date c = Some (dt_date now') /\
     c_total_amount_received c = Some T).
Proof.
  intros He s1 s2.
  assert (engine s1 = true) as He1.
  { unfold s1, mark_deposit_received. by rewrite He. }
  assert (commissions s1 = upsert_deposit project_id (Some d) D (commissions s))
    as Hc1.
  { unfold s1, mark_deposit_received. by rewrite He. }
  assert (commissions s2 =
          record_final_payment project_id T (dt_date now') (commissions s1)) as Hc2.
  { unfold s2, close_project_with_final_payment. by rewrite He1. }
  rewrite Hc2, record_final_payment_unfold. split.
  - by apply upsert_has_row.
  - intros c Hc Hid. apply elem_of_upsert in Hc; [| done | done].
    destruct Hc as [(c1 & Hc1' & Hid1 & ->) | Hc].
    + rewrite Hc1 in Hc1'. unfold upsert_deposit in Hc1'.
      apply elem_of_upsert in Hc1'; [| done | done].
      by destruct Hc1' as [(c0 & _ & _ & ->) | [-> _]].
    + destruct Hc as [-> Hnone]. exfalso.
      destruct (upsert_has_row project_id
        (fun c => mkCommission (c_project_id c) (c_total_value c) (Some D) (Some d)
                    (c_final_payment_date c) (c_total_amount_received c)
                    (c_commission_notes c))
        (mkCommission project_id None (Some D) (Some d) None None None)
        (commissions s)) as (c1 & Hin1 & Hid1); [done | done |].
      apply (Hnone c1); [| done]. by rewrite Hc1.
Qed.

(** X16: once the deposit [D] of an active project was recorded and the
    project was closed out with a total received of [T], the ledger
    shows its deposit event, of amount [D] on the date of the deposit,
    and, when [T >= D] and [T > 0], its final event, of amount [T - D]
    on the day of the closeout, so that the two add up to [T]; when
    [T < D] or [T = 0] it shows no final event of the project. *)
Theorem deposit_then_closeout_ledger now now' project_id d (D T : Q) s p :
  engine s = true -> p ∈ projects s -> row_matches project_id p = true ->
  is_active_v3 p = Some true ->
  let s1 := (mark_deposit_received now project_id (Some d) D s).1 in
  let s2 := (close_project_with_final_payment now' project_id T s1).1 in
  let ledger := get_paid_commissions_for_ledger s2 in
  (exists e, e ∈ ledger /\ pay_id e = project_id /\ payment_type e = "deposit") /\
  ((D <= T)%Q -> (0 < T)%Q ->
   exists e, e ∈ ledger /\ pay_id e = project_id /\ payment_type e = "final") /\
  (forall e, e ∈ ledger -> pay_id e = project_id ->
     (payment_type e = "deposit" /\ payment_amount e = D /\
      payment_date e = FDate d) \/
     (payment_type e = "final" /\ payment_amount e = (T - D)%Q /\
      payment_date e = FDate (dt_date now') /\ (D <= T)%Q /\ (0 < T)%Q)).
Proof.
  intros He Hp Hm Hact s1 s2 ledger.
  destruct (deposit_closeout_rows now now' project_id d D T s He)
    as [(c & Hc & Hcid) Hrows].
  fold s1 s2 in Hc, Hrows.
  assert (engine s1 = true) as He1.
  { unfold s1, mark_deposit_received. by rewrite He. }
  assert (engine s2 = true) as He2.
  { unfold s2, close_project_with_final_payment. by rewrite He1. }
  set (st := closeout_status (recorded_install_date project_id s1) (dt_date now')).
  set (p2 := set_status (Some st)
               (set_updated_at (Some now')
                  (set_status_updated_at (Some now')
                     (set_deposit_received_date (Some d)
                        (set_deposit_amount (Some D)
                           (set_status (Some "ACTIVE PRODUCTION")
                              (set_updated_at (Some now) p))))))).
  assert (p2 ∈ projects s2) as Hp2.
  { unfold s2, close_project_with_final_payment. rewrite He1.
    cbn [fst projects with_commissions]. apply elem_of_update_projects.
    eexists. split.
    - unfold s1, mark_deposit_received. rewrite He.
      cbn [fst projects with_commissions]. apply elem_of_update_projects.
      exists p. split; [done |]. rewrite Hm. reflexivity.
    - change (row_matches project_id ?x) with (row_matches project_id p) at 1.
      by rewrite Hm. }
  assert (in_ledger_scope p2 = true) as Hscope.
  { apply in_ledger_scope_iff. split; [| done]. by apply row_matches_tenant in Hm. }
  assert ((p2, c) ∈ joined s2) as Hj.
  { apply elem_of_joined. repeat split; try done.
    rewrite Hcid. by apply row_matches_id in Hm. }
  destruct (Hrows c Hc Hcid) as (HD & Hd & Hf & HT).
  split; [| split].
  - exists (deposit_row (p2, c)). split; [| by apply row_matches_id in Hm].
    apply elem_of_ledger; [done |]. left. exists (p2, c). split; [done |].
    split; [done |]. apply deposit_where_iff. by rewrite Hd.
  - intros HDT HT0. exists (final_row (p2, c)).
    split; [| by apply row_matches_id in Hm].
    apply elem_of_ledger; [done |]. right. exists (p2, c). split; [done |].
    split; [done |]. apply final_where_iff. by rewrite Hf, HD, HT.
  - intros e Hin Hid. apply elem_of_ledger in Hin; [| done].
    destruct Hin as [([p' c'] & -> & Hj' & Hw) | ([p' c'] & -> & Hj' & Hw)];
      apply elem_of_joined in Hj' as (_ & Hc' & Hid'); cbn in Hid;
      destruct (Hrows c' Hc') as (HD' & Hd' & Hf' & HT'); try congruence.
    + left. cbn. by rewrite HD', Hd'.
    + right. apply final_where_iff in Hw as (_ & _ & Hle & Hlt).
      rewrite HD', HT' in Hle. rewrite HT' in Hlt. cbn in Hle, Hlt.
      cbn. rewrite HD', HT', Hf'. cbn. repeat split; try done.
      unfold greatest0.
      assert (Qle_bool 0 (T - D) = true) as ->; [| done].
      apply Qle_bool_iff. by apply Qle_minus_iff in Hle.
Qed.

Lemma deposit_then_closeout_ledger_witness :
  let s1 := (mark_deposit_received clock0 "p1" (Some (mkDate 2024 3 1)) 2500
               (closeout_db None)).1 in
  let s2 := (close_project_with_final_payment clock0 "p1" 5000 s1).1 in
  exists e, e ∈ get_paid_commissions_for_ledger s2 /\ pay_id e = "p1" /\
            payment_type e = "final".
Proof.
  destruct (deposit_then_closeout_ledger clock0 clock0 "p1" (mkDate 2024 3 1)
              2500 5000 (closeout_db None) closeout_project)
    as (_ & Hfinal & _); try reflexivity.
  - by left.
  - apply Hfinal; by vm_compute.
Defined.


(** ** The pricing-request email *)

Lemma attachment_entries_frame project_id (text : string -> string)
    (files : list string) s :
  let s' := fold_left
              (fun acc fname =>
                 (add_project_history project_id "EMAIL_ATTACHMENT" (text fname) acc).1)
              files s in
  projects s' = projects s /\ engine s' = engine s /\
  project_touches s' = project_touches s.
Proof.
  revert s. induction files as [|f files IH]; intros s; cbn; [done |].
  destruct (IH (add_project_history project_id "EMAIL_ATTACHMENT" (text f) s).1)
    as (-> & -> & ->).
  rewrite projects_history, engine_history.
  unfold add_project_history. by destruct (engine s).
Qed.

(** X17: a pricing-request email that was sent moves the project to
    'Quoting' when its status, in lower case, is one of [migrated],
    [lead], [new], [pending], [design], and leaves the projects table as
    it was in every other status: a project already quoted, awaiting its
    deposit or in production is not moved back.  A project without a
    status makes the handler raise [AttributeError] after the touch was
    recorded.  A failed send changes nothing. *)
Theorem pricing_email_status now project_id recipient files s p :
  get_project_by_id project_id s = Some p ->
  let r := pricing_email_sent now project_id recipient true files s in
  (forall st, status p = Some st ->
     r.2 = Ok tt /\
     (Str.mem (Str.lower st) pricing_statuses = true ->
        forall i q, projects s !! i = Some q -> row_matches project_id q = true ->
          exists q', projects r.1 !! i = Some q' /\ id q' = id q /\
                     status q' = Some "Quoting" /\
                     status_updated_at q' = Some now) /\
     (Str.mem (Str.lower st) pricing_statuses = false ->
        projects r.1 = projects s)) /\
  (status p = None ->
     r.2 = Raise AttributeError /\ projects r.1 = projects s /\
     exists t, project_touches r.1 = project_touches s ++ [t] /\
               t_project_id t = project_id /\ t_touch_type t = "email_sent") /\
  pricing_email_sent now project_id recipient false files s = (s, Ok tt).
Proof.
  intros Hget. cbn zeta. unfold pricing_email_sent.
  pose proof (get_project_by_id_engine _ _ _ Hget) as He.
  set (note := match files with [] => "" | _ => _ end).
  set (s1 := (add_project_touch project_id "email_sent" _ s).1).
  set (text := fun fname : string =>
                 "[SYSTEM] File permissions updated and attachment attempted for "
                   +:+ fname).
  destruct (attachment_entries_frame project_id text files s1) as (Hp2 & He2 & Ht2).
  cbn zeta in Hp2, He2, Ht2. unfold text in Hp2, He2, Ht2.
  set (s2 := fold_left _ files s1) in *.
  assert (get_project_by_id project_id s2 = Some p) as Hget2.
  { unfold get_project_by_id. rewrite He2, Hp2. unfold s1.
    rewrite engine_touch, projects_touch. exact Hget. }
  rewrite Hget2. split; [| split; [| done]].
  - intros st Hst. rewrite Hst.
    destruct (Str.mem (Str.lower st) pricing_statuses) eqn:Hmem; cbn [fst snd].
    + split; [done |]. split; [| done]. intros _ i q Hq Hm.
      rewrite projects_history. unfold update_project_status, execute_update.
      rewrite He2. unfold s1 at 1. rewrite engine_touch, He. cbn [fst].
      rewrite update_projects_lookup, Hp2. unfold s1. rewrite projects_touch, Hq.
      cbn. rewrite Hm. by eexists.
    + split; [done |]. split; [done |]. intros _.
      rewrite projects_history, Hp2. unfold s1. by rewrite projects_touch.
  - intros Hst. rewrite Hst. cbn [fst snd]. split; [done |]. split.
    + rewrite Hp2. unfold s1. by rewrite projects_touch.
    + rewrite Ht2. unfold s1, add_project_touch, execute_update. rewrite He.
      cbn. by eexists.
Qed.

Lemma pricing_email_status_witness :
  exists q', projects (pricing_email_sent clock0 "p1" "bruno@example.com" true
                         [] (db_in "Design")).1 !! 0%nat = Some q' /\
             id q' = "p1" /\ status q' = Some "Quoting" /\
             status_updated_at q' = Some clock0.
Proof.
  destruct (pricing_email_status clock0 "p1" "bruno@example.com" []
              (db_in "Design") (project_in "Design") eq_refl) as (Hst & _).
  destruct (Hst "Design" eq_refl) as (_ & Hmove & _).
  exact (Hmove eq_refl 0%nat (project_in "Design") eq_refl eq_refl).
Defined.


(** ** Dates against today *)

Lemma date_compare_eq a b : date_compare a b = Eq <-> a = b.
Proof.
  unfold date_compare. split.
  - destruct (Z.compare_spec (year a) (year b)); try done.
    destruct (Z.compare_spec (month a) (month b)); try done.
    intros Hd%Z.compare_eq. destruct a, b; cbn in *. congruence.
  - intros ->. by rewrite !Z.compare_refl.
Qed.

(** X18: the three helpers agree on every real date: it is overdue
    exactly when [days_until_mountain] is negative, today exactly when
    it is 0, and otherwise it lies that many days ahead.  For no date at
    all the helpers answer "not overdue", "not today" and 0 days. *)
Theorem mountain_helpers_agree today x :
  valid_date today -> valid_date (as_date x) ->
  (is_overdue_mountain today (Some x) = true <->
     days_until_mountain today (Some x) < 0) /\
  (is_today_mountain today (Some x) = true <->
     days_until_mountain today (Some x) = 0) /\
  (is_overdue_mountain today (Some x) = false /\
   is_today_mountain today (Some x) = false <->
     0 < days_until_mountain today (Some x)) /\
  is_overdue_mountain today None = false /\
  is_today_mountain today None = false /\
  days_until_mountain today None = 0.
Proof.
  intros Ht%valid_date_wf Hx%valid_date_wf.
  unfold is_overdue_mountain, is_today_mountain, days_until_mountain, date_ltb.
  pose proof (date_compare_toordinal (as_date x) today Hx Ht) as Hcmp.
  pose proof (date_compare_eq (as_date x) today) as Heq.
  destruct (Z.compare_spec (toordinal (as_date x)) (toordinal today)) as [H | H | H];
    rewrite Hcmp in *.
  - assert (as_date x = today) as Hsame by (by apply Heq).
    rewrite bool_decide_eq_true, bool_decide_eq_false.
    intuition (try done; try lia).
  - assert (as_date x <> today) as Hne by (intros E; by apply Heq in E).
    rewrite bool_decide_eq_true, bool_decide_eq_false.
    intuition (try done; try lia).
  - assert (as_date x <> today) as Hne by (intros E; by apply Heq in E).
    rewrite bool_decide_eq_true, bool_decide_eq_false.
    intuition (try done; try lia).
Qed.

Lemma mountain_helpers_agree_witness :
  is_overdue_mountain (mkDate 2024 3 14) (Some (PyDateTime (mkDateTime (mkDate 2024 2 29) 0)))
    = true <->
  days_until_mountain (mkDate 2024 3 14)
    (Some (PyDateTime (mkDateTime (mkDate 2024 2 29) 0))) < 0.
Proof.
  apply (mountain_helpers_agree (mkDate 2024 3 14)
           (PyDateTime (mkDateTime (mkDate 2024 2 29) 0)));
    unfold valid_date; repeat split; by vm_compute.
Defined.


(** ** The ledger view: the report period and the groups *)

Lemma strftime_B_Y_month d d' :
  year d = year d' -> month d = month d' -> strftime_B_Y d = strftime_B_Y d'.
Proof. unfold strftime_B_Y. by intros -> ->. Qed.

(** The report period of a day, and the label that
    [send_period_report] builds for the same period. *)
Lemma get_report_period_info_label today :
  valid_date today -> MINYEAR < year today ->
  exists y m period label start_day end_day,
    get_report_period_info today = Ok (y, m, period, label, start_day, end_day) /\
    ((start_day, end_day, period) = (1, 15, 1) \/
     (start_day, end_day, period) = (16, 31, 2)) /\
    period_report_range y m period = Ok label /\
    ((day today = 16 \/ day today = 1) <->
       (y, m, period) <> (year today, month today, get_current_period today)).
Proof.
  intros (Hy & Hm & Hd) Hyear. unfold MINYEAR, MAXYEAR in *.
  assert (forall y m, 1 <= y <= 9999 -> 1 <= m <= 12 ->
            (MINYEAR <=? y) && (y <=? MAXYEAR) && (1 <=? m) && (m <=? 12) = true)
    as Hrange.
  { intros y m Hy' Hm'. unfold MINYEAR, MAXYEAR.
    repeat (apply andb_true_intro; split); lia. }
  unfold get_report_period_info, period_report_range, get_current_period.
  destruct (day today =? 16) eqn:H16; [apply Z.eqb_eq in H16 | apply Z.eqb_neq in H16].
  { do 6 eexists. split; [reflexivity |]. split; [by left |].
    rewrite Hrange by done. cbn [Z.eqb Pos.eqb]. split; [done |].
    rewrite H16. cbn. split; [intros _ | auto]. intros Heq. injection Heq. intros. lia. }
  destruct (day today =? 1) eqn:H1; [apply Z.eqb_eq in H1 | apply Z.eqb_neq in H1].
  { unfold date_pred, replace_day. cbn [year month day]. cbn [Z.ltb Z.compare].
    destruct (1 <? month today) eqn:Hm1;
      [apply Z.ltb_lt in Hm1 | apply Z.ltb_ge in Hm1].
    - do 6 eexists. split; [reflexivity |]. split; [by right |].
      cbn [year month]. rewrite Hrange by lia. cbn [Z.eqb Pos.eqb].
      split; [done |]. split; [intros _ | auto]. intros Heq. injection Heq. intros. lia.
    - assert ((MINYEAR <? year today) = true) as -> by (apply Z.ltb_lt; done).
      do 6 eexists. split; [reflexivity |]. split; [by right |].
      cbn [year month]. rewrite Hrange by lia. cbn [Z.eqb Pos.eqb].
      split; [done |]. split; [intros _ | auto]. intros Heq. injection Heq. intros. lia. }
  destruct (day today <=? 15) eqn:H15.
  - do 6 eexists. split; [reflexivity |]. split; [by left |].
    rewrite Hrange by done. cbn [Z.eqb Pos.eqb]. split; [done |].
    split; [lia | done].
  - do 6 eexists. split; [reflexivity |]. split; [by right |].
    rewrite Hrange by done. cbn [Z.eqb Pos.eqb]. split; [done |].
    split; [lia | done].
Qed.

Lemma in_period_event_key strptime y m period comm :
  in_period strptime y m period comm =
    bool_decide (event_key strptime comm = Some (y, m, period)).
Proof.
  unfold in_period, event_key. destruct (event_date strptime comm) as [d |]; cbn.
  - destruct (Z.eqb_spec (year d) y), (Z.eqb_spec (month d) m),
      (Z.eqb_spec (pay_period_of d) period); cbn; symmetry;
      (apply bool_decide_eq_true || apply bool_decide_eq_false); congruence.
  - symmetry. by apply bool_decide_eq_false.
Qed.

Lemma filter_ext_bool {A} (c c' : A -> bool) (l : list A) :
  (forall x, c x = c' x) -> List.filter c l = List.filter c' l.
Proof.
  intros H. induction l as [|x l IH]; [done |]. cbn. by rewrite H, IH.
Qed.

(** The groups of [group_commissions_by_period] are the non-empty
    lists of events per key. *)
Lemma groups_of_keys strptime commissions :
  dates_readable strptime commissions ->
  exists groups,
    group_commissions_by_period strptime commissions = Ok groups /\
    forall k, match events_of_key strptime k commissions with
              | [] => forall g, (k, g) ∉ groups
              | l => exists g, (k, g) ∈ groups /\ g_commissions g = l
              end.
Proof.
  intros Hread. unfold group_commissions_by_period.
  destruct (group_loop_spec strptime commissions Hread ∅) as (G & -> & HG & Hcs);
    [by intros k g; rewrite lookup_empty |].
  eexists. split; [reflexivity |]. intros k.
  assert (forall g, (k, g) ∈ omap (fun key => (fun g => (key, g)) <$> G !! key)
                              (merge_sort key_ge (map_to_list G).*1)
                    <-> G !! k = Some g) as Hin.
  { intros g. rewrite elem_of_omap_lookup, merge_sort_Permutation. split; [tauto |].
    intros Hg. split; [| done]. apply list_elem_of_fmap. exists (k, g).
    split; [done |]. by apply elem_of_map_to_list. }
  specialize (Hcs k). unfold group_events in Hcs. rewrite lookup_empty in Hcs.
  cbn in Hcs. destruct (events_of_key strptime k commissions) as [|c l].
  - intros g Hg. apply Hin in Hg. by rewrite Hg in Hcs.
  - destruct (G !! k) as [g |] eqn:Hg; [| done]. exists g. split.
    + by apply Hin.
    + cbn in Hcs. congruence.
Qed.

(** X19: the payments that [get_report_period_commissions] selects for
    the report are the group that [group_commissions_by_period] holds
    under the key of the report period (there is no such group exactly
    when there is nothing to report), and the label of the report is the
    one [send_period_report] builds for that year, month and period. *)
Theorem report_period_is_a_group strptime today commissions :
  valid_date today -> MINYEAR < year today ->
  dates_readable strptime commissions ->
  exists y m period label start_day end_day report groups,
    get_report_period_info today = Ok (y, m, period, label, start_day, end_day) /\
    get_report_period_commissions strptime today commissions = Ok report /\
    group_commissions_by_period strptime commissions = Ok groups /\
    period_report_range y m period = Ok label /\
    match report with
    | [] => forall g, ((y, m, period), g) ∉ groups
    | _ => exists g, ((y, m, period), g) ∈ groups /\ g_commissions g = report
    end.
Proof.
  intros Hv Hyear Hread.
  destruct (get_report_period_info_label today Hv Hyear)
    as (y & m & period & label & sd & ed & Hinfo & Hcase & Hlabel & _).
  destruct (groups_of_keys strptime commissions Hread) as (groups & Hgroups & Hkeys).
  exists y, m, period, label, sd, ed,
    (events_of_key strptime (y, m, period) commissions), groups.
  split; [done |]. split; [| split; [done | split; [done |]]].
  - unfold get_report_period_commissions. rewrite Hinfo.
    rewrite (report_filter_spec strptime y m sd ed period commissions Hcase Hread).
    f_equal. apply filter_ext_bool. intros comm. apply in_period_event_key.
  - pose proof (Hkeys (y, m, period)) as Hk.
    by destruct (events_of_key strptime (y, m, period) commissions).
Qed.

Lemma report_period_is_a_group_witness :
  exists y m period label start_day end_day report groups,
    get_report_period_info (mkDate 2024 4 1)
      = Ok (y, m, period, label, start_day, end_day) /\
    get_report_period_commissions no_strptime (mkDate 2024 4 1) sample_events
      = Ok report /\
    group_commissions_by_period no_strptime sample_events = Ok groups /\
    period_report_range y m period = Ok label /\
    match report with
    | [] => forall g, ((y, m, period), g) ∉ groups
    | _ => exists g, ((y, m, period), g) ∈ groups /\ g_commissions g = report
    end.
Proof.
  apply (report_period_is_a_group no_strptime (mkDate 2024 4 1) sample_events).
  - unfold valid_date; repeat split; by vm_compute.
  - by vm_compute.
  - intros comm Hc. right. unfold sample_events in Hc.
    repeat (apply elem_of_cons in Hc as [-> | Hc]);
      try (eexists; split; [reflexivity |]; unfold valid_date; repeat split;
           by vm_compute).
    by apply elem_of_nil in Hc.
Defined.


(** X20: the deadline alert is raised exactly on the 16th and on the
    1st, which are exactly the days on which the report period is not
    the period in progress; its text then names the period and the month
    that [get_report_period_info] reports on.  On any other day there is
    no alert and the text is empty. *)
Theorem deadline_alert_matches_report today :
  valid_date today -> MINYEAR < year today ->
  exists flag text y m period label start_day end_day,
    get_deadline_alert today = Ok (flag, text) /\
    get_report_period_info today = Ok (y, m, period, label, start_day, end_day) /\
    (flag = true <-> day today = 16 \/ day today = 1) /\
    (flag = true <->
       (y, m, period) <> (year today, month today, get_current_period today)) /\
    (flag = false -> text = "") /\
    (flag = true ->
       text = deadline_text (if period =? 1 then "1" else "2")
                (strftime_B_Y (mkDate y m 1))).
Proof.
  intros (Hy & Hm & Hd) Hyear.
  unfold get_deadline_alert, get_report_period_info, get_current_period.
  destruct (day today =? 16) eqn:H16; [apply Z.eqb_eq in H16 | apply Z.eqb_neq in H16].
  { do 8 eexists. split; [reflexivity |]. split; [reflexivity |].
    rewrite H16. cbn. repeat split; auto; try done;
      try (intros _ Heq; injection Heq; intros; lia). }
  destruct (day today =? 1) eqn:H1; [apply Z.eqb_eq in H1 | apply Z.eqb_neq in H1].
  { unfold date_pred, replace_day. cbn [year month day]. cbn [Z.ltb Z.compare].
    destruct (1 <? month today) eqn:Hm1;
      [apply Z.ltb_lt in Hm1 | apply Z.ltb_ge in Hm1].
    - do 8 eexists. split; [reflexivity |]. split; [reflexivity |].
      cbn [year month]. repeat split; auto; try done;
        try (intros _ Heq; injection Heq; intros; lia).
    - assert ((MINYEAR <? year today) = true) as -> by (apply Z.ltb_lt; done).
      do 8 eexists. split; [reflexivity |]. split; [reflexivity |].
      cbn [year month]. repeat split; auto; try done;
        try (intros _ Heq; injection Heq; intros; lia). }
  destruct (day today <=? 15) eqn:H15.
  - do 8 eexists. split; [reflexivity |]. split; [reflexivity |].
    repeat split; try done; try (intros [|]; lia).
  - do 8 eexists. split; [reflexivity |]. split; [reflexivity |].
    repeat split; try done; try (intros [|]; lia).
Qed.

Lemma deadline_alert_matches_report_witness :
  exists flag text y m period label start_day end_day,
    get_deadline_alert (mkDate 2024 1 1) = Ok (flag, text) /\
    get_report_period_info (mkDate 2024 1 1)
      = Ok (y, m, period, label, start_day, end_day) /\
    (flag = true <-> day (mkDate 2024 1 1) = 16 \/ day (mkDate 2024 1 1) = 1) /\
    (flag = true <->
       (y, m, period) <> (year (mkDate 2024 1 1), month (mkDate 2024 1 1),
                          get_current_period (mkDate 2024 1 1))) /\
    (flag = false -> text = "") /\
    (flag = true ->
       text = deadline_text (if period =? 1 then "1" else "2")
                (strftime_B_Y (mkDate y m 1))).
Proof.
  apply (deadline_alert_matches_report (mkDate 2024 1 1)).
  - unfold valid_date; repeat split; by vm_compute.
  - by vm_compute.
Defined.


(** ** The ledger view: unreadable dates and the labels of a group *)

Lemma group_loop_unreadable strptime commissions comm text e :
  comm ∈ commissions -> payment_date comm = FStr text -> text <> "" ->
  strptime text = Raise e ->
  forall G, exists e', group_loop strptime commissions G = Raise e'.
Proof.
  intros Hin Hdate Htext Hraise.
  induction commissions as [|c rest IH]; intros G; [by apply elem_of_nil in Hin |].
  cbn [group_loop]. apply elem_of_cons in Hin as [<- | Hin].
  - rewrite Hdate. cbn. destruct text; [done |]. cbn. rewrite Hraise. by eexists.
  - destruct (field_missing (payment_date c)); [by apply IH |].
    destruct (to_date strptime (payment_date c)) as [d | e0]; [| by eexists].
    rewrite get_pay_period_info_date.
    destruct (period_of_day (day d)) as [[[n l] p] sd]. by apply IH.
Qed.

Lemma report_filter_unreadable strptime y m start_day end_day commissions comm
    text e :
  comm ∈ commissions -> payment_date comm = FStr text -> text <> "" ->
  strptime text = Raise e ->
  exists e', report_filter strptime y m start_day end_day commissions = Raise e'.
Proof.
  intros Hin Hdate Htext Hraise.
  induction commissions as [|c rest IH]; [by apply elem_of_nil in Hin |].
  cbn [report_filter]. apply elem_of_cons in Hin as [<- | Hin].
  - rewrite Hdate. cbn. destruct text; [done |]. cbn. rewrite Hraise. by eexists.
  - destruct (IH Hin) as [e' ->].
    destruct (field_missing (payment_date c)); [by eexists |].
    destruct (to_date strptime (payment_date c)); by eexists.
Qed.

(** X21: one payment whose date is a text that cannot be read makes the
    whole ledger view fail: [get_pay_period_info] raises on it, and so do
    [group_commissions_by_period] and [get_report_period_commissions] on
    every list that holds it, whatever the other payments are. *)
Theorem unreadable_date_fails_ledger strptime today commissions comm text e :
  comm ∈ commissions -> payment_date comm = FStr text -> text <> "" ->
  strptime text = Raise e ->
  get_pay_period_info strptime (payment_date comm) = Raise e /\
  (exists e', group_commissions_by_period strptime commissions = Raise e') /\
  (exists e', get_report_period_commissions strptime today commissions = Raise e').
Proof.
  intros Hin Hdate Htext Hraise. split; [| split].
  - unfold get_pay_period_info. rewrite Hdate. cbn. by rewrite Hraise.
  - unfold group_commissions_by_period.
    destruct (group_loop_unreadable strptime commissions comm text e
                Hin Hdate Htext Hraise ∅) as [e' ->]. by eexists.
  - unfold get_report_period_commissions.
    destruct (get_report_period_info today) as [[[[[[y m] period] label] sd] ed] | e0];
      [| by eexists].
    by apply (report_filter_unreadable strptime y m sd ed commissions comm text e).
Qed.

Lemma unreadable_date_fails_ledger_witness :
  get_pay_period_info no_strptime
    (payment_date (mkPayment "p9" None None 0 0 0 (FStr "soon") None "deposit"))
    = Raise ValueError /\
  (exists e',
     group_commissions_by_period no_strptime
       (sample_events ++ [mkPayment "p9" None None 0 0 0 (FStr "soon") None "deposit"])
       = Raise e') /\
  (exists e',
     get_report_period_commissions no_strptime (mkDate 2024 3 14)
       (sample_events ++ [mkPayment "p9" None None 0 0 0 (FStr "soon") None "deposit"])
       = Raise e').
Proof.
  apply (unreadable_date_fails_ledger no_strptime (mkDate 2024 3 14)
           (sample_events ++ [mkPayment "p9" None None 0 0 0 (FStr "soon") None "deposit"])
           (mkPayment "p9" None None 0 0 0 (FStr "soon") None "deposit")
           "soon" ValueError); try done.
  apply elem_of_app. right. by left.
Defined.

Lemma group_turn_lookup (G : gmap period_key period_group) comm
    (k : period_key) g0 k' g :
  alter (append_commission comm) k
    (match G !! k with Some _ => G | None => <[k := g0]> G end) !! k' = Some g ->
  (k = k' /\ exists g1, g = append_commission comm g1 /\
                        (G !! k = Some g1 \/ g1 = g0)) \/
  G !! k' = Some g.
Proof.
  destruct (decide (k = k')) as [<- | Hne].
  - rewrite lookup_alter_eq. destruct (G !! k) as [g1 |] eqn:Hg1.
    + rewrite Hg1. cbn. intros [= <-]. left. split; [done |]. exists g1. auto.
    + rewrite lookup_insert_eq. cbn. intros [= <-]. left. split; [done |].
      exists g0. auto.
  - rewrite lookup_alter_ne by done. destruct (G !! k) as [g1 |] eqn:Hg1; [auto |].
    rewrite lookup_insert_ne by done. auto.
Qed.

Lemma group_loop_labels strptime commissions :
  forall G G', group_loop strptime commissions G = Ok G' ->
    (forall k g, G !! k = Some g ->
       group_key g = k /\
       month_name g = strftime_B_Y (mkDate (g_year g) (g_month g) 1) /\
       (period_num g, period_label g, paid_on g, submission_due g)
         = period_of_day (if period_num g =? 1 then 1 else 16)) ->
    (forall k g, G' !! k = Some g ->
       group_key g = k /\
       month_name g = strftime_B_Y (mkDate (g_year g) (g_month g) 1) /\
       (period_num g, period_label g, paid_on g, submission_due g)
         = period_of_day (if period_num g =? 1 then 1 else 16)).
Proof.
  induction commissions as [|c rest IH]; intros G G' Hrun HG.
  { cbn in Hrun. by injection Hrun as <-. }
  cbn [group_loop] in Hrun.
  destruct (field_missing (payment_date c)); [by apply (IH G) |].
  destruct (to_date strptime (payment_date c)) as [d | e0]; [| done].
  rewrite get_pay_period_info_date in Hrun.
  destruct (period_of_day (day d)) as [[[n l] p] sd] eqn:Hper.
  apply (IH _ G' Hrun). intros k g Hlook.
  apply group_turn_lookup in Hlook as [(<- & g1 & -> & Hg1) | Hlook];
    [| by apply HG].
  assert (group_key g1 = (year d, month d, n) /\
          month_name g1 = strftime_B_Y (mkDate (g_year g1) (g_month g1) 1) /\
          (period_num g1, period_label g1, paid_on g1, submission_due g1)
            = period_of_day (if period_num g1 =? 1 then 1 else 16)) as Hg; [| done].
  destruct Hg1 as [Hg1 | ->]; [by apply HG |]. cbn.
  split; [done |]. split; [by apply strftime_B_Y_month |].
  rewrite <- Hper. unfold period_of_day in *.
  destruct (day d <=? 15); injection Hper as <- <- <- <-; reflexivity.
Qed.

(** X22: every group of [group_commissions_by_period] carries the labels
    of its own key: the month name is the one of its year and month, and
    the period label, the pay day and the submission day are those of
    Period 1 ("1st - 15th", paid on the 20th, due on the 16th) or of
    Period 2 ("16th - End of Month", paid on the 5th, due on the 1st)
    according to the period of the key. *)
Theorem group_labels_of_key strptime commissions groups k g :
  group_commissions_by_period strptime commissions = Ok groups ->
  (k, g) ∈ groups ->
  (g_year g, g_month g, period_num g) = k /\
  month_name g = strftime_B_Y (mkDate k.1.1 k.1.2 1) /\
  ((k.2 = 1 /\ period_label g = "1st - 15th" /\ paid_on g = "Paid on the 20th" /\
    submission_due g = "Submission Due: 16th") \/
   (k.2 = 2 /\ period_label g = "16th - End of Month" /\
    paid_on g = "Paid on the 5th" /\ submission_due g = "Submission Due: 1st")).
Proof.
  unfold group_commissions_by_period.
  destruct (group_loop strptime commissions ∅) as [G | e] eqn:Hrun; [| done].
  intros [= <-] Hin. apply elem_of_omap_lookup in Hin as [_ Hg].
  destruct (group_loop_labels strptime commissions ∅ G Hrun) with (k := k) (g := g)
    as (Hkey & Hname & Hlab); [by intros k' g'; rewrite lookup_empty | done |].
  unfold group_key in Hkey. subst k. cbn [fst snd]. split; [done |].
  split; [done |]. unfold period_of_day in Hlab.
  destruct (period_num g =? 1) eqn:Hn; cbn in Hlab; injection Hlab as Hp -> -> ->.
  - left. by rewrite Hp.
  - right. by rewrite Hp.
Qed.

Lemma group_labels_of_key_witness :
  exists groups g,
    group_commissions_by_period no_strptime sample_events = Ok groups /\
    ((2024, 3, 2), g) ∈ groups /\
    period_label g = "16th - End of Month" /\
    paid_on g = "Paid on the 5th".
Proof.
  destruct (group_commissions_by_period no_strptime sample_events)
    as [groups | e] eqn:Hrun; [| by vm_compute in Hrun].
  assert (exists g, ((2024, 3, 2), g) ∈ groups) as [g Hg].
  { vm_compute in Hrun. injection Hrun as <-. eexists. right. left. }
  exists groups, g. split; [done |]. split; [done |].
  destruct (group_labels_of_key no_strptime sample_events groups (2024, 3, 2) g
              Hrun Hg) as (_ & _ & [(Hk & _) | (_ & Hl & Hp & _)]).
  - cbn in Hk. lia.
  - by split.
Defined.

(** ** Deleting a project *)

(** X23: a successful [delete_project] removes every row of the project
    and every touch of it, and keeps the rows of the other projects; a
    second deletion of the same project then fails with "Project not
    found or already deleted".  A failed deletion changes nothing and
    comes with a message. *)
Theorem delete_project_once project_id s :
  let r := delete_project project_id s in
  (r.2.1 = true ->
     (forall q, q ∈ projects r.1 <->
                q ∈ projects s /\ row_matches project_id q = false) /\
     (forall t, t ∈ project_touches r.1 <->
                t ∈ project_touches s /\ t_project_id t <> project_id) /\
     delete_project project_id r.1 =
       (r.1, (false, Some "Project not found or already deleted"))) /\
  (r.2.1 = false -> r.1 = s /\ r.2.2 <> None).
Proof.
  cbn zeta. destruct (engine s) eqn:He.
  2: { assert (delete_project project_id s =
               (s, (false, Some "Database engine not available"))) as ->
         by (unfold delete_project; by rewrite He).
       cbn. split; [done |]. by split. }
  destruct (existsb (row_matches project_id) (projects s)) eqn:Hex.
  2: { assert (delete_project project_id s =
               (s, (false, Some "Project not found or already deleted"))) as ->
         by (unfold delete_project; by rewrite He, Hex).
       cbn. split; [done |]. by split. }
  assert (delete_project project_id s =
          (with_projects
             (List.filter (fun p => negb (row_matches project_id p)) (projects s))
             (with_touches
                (List.filter (fun t => negb (String.eqb (t_project_id t) project_id))
                   (project_touches s)) s), (true, None))) as ->
    by (unfold delete_project; by rewrite He, Hex).
  cbn [fst snd]. split; [| done]. intros _.
  assert (forall q, q ∈ List.filter (fun p => negb (row_matches project_id p))
                          (projects s) <->
                    q ∈ projects s /\ row_matches project_id q = false) as Hrows.
  { intros q. rewrite elem_of_filter_bool. by rewrite negb_true_iff. }
  split; [exact Hrows |]. split.
  - intros t. cbn. rewrite elem_of_filter_bool, negb_true_iff.
    by rewrite String.eqb_neq.
  - unfold delete_project. cbn [engine projects with_projects with_touches].
    rewrite He.
    assert (existsb (row_matches project_id)
              (List.filter (fun p => negb (row_matches project_id p)) (projects s))
            = false) as ->; [| done].
    apply not_true_is_false. intros (q & Hq & Hm)%existsb_exists.
    apply list_elem_of_In, Hrows in Hq as [_ Hq]. congruence.
Qed.

Lemma delete_project_once_witness :
  delete_project "p1" (delete_project "p1" (db_in "New")).1 =
    ((delete_project "p1" (db_in "New")).1,
     (false, Some "Project not found or already deleted")).
Proof.
  by apply (proj1 (delete_project_once "p1" (db_in "New"))).
Defined.


(** ** The action hub *)

Section ActionHubProperties.

Variable fromisoformat : string -> option date.
Variable strip : string -> string.

Lemma fold_place_action tomorrow day_5 items b0 :
  fold_left (place_action fromisoformat strip tomorrow day_5) items b0 =
    mkBuckets
      (red_items b0 ++
         List.filter
           (fun item =>
              negb (field_missing (ai_due_date item))
              && match due_of fromisoformat (ai_due_date item) with
                 | Some due => date_leb due tomorrow
                 | None => false
                 end) items)
      (yellow_items b0 ++
         List.filter
           (fun item =>
              negb (field_missing (ai_due_date item))
              && match due_of fromisoformat (ai_due_date item) with
                 | Some due => negb (date_leb due tomorrow)
                 | None => false
                 end) items)
      (grey_items b0 ++
         List.filter
           (fun item =>
              field_missing (ai_due_date item)
              && Str.truthy (strip (or_empty (ai_action_note item)))) items).
Proof.
  revert b0. induction items as [|item items IH]; intros b0.
  { cbn. rewrite !app_nil_r. by destruct b0. }
  cbn [fold_left List.filter]. rewrite IH. unfold place_action.
  destruct (field_missing (ai_due_date item)); cbn [negb andb].
  - destruct (Str.truthy _); cbn; by rewrite <- ?app_assoc.
  - destruct (due_of fromisoformat (ai_due_date item)) as [due |]; [| done].
    destruct (date_leb due tomorrow); cbn.
    + by rewrite <- app_assoc.
    + destruct (date_leb due day_5); cbn; by rewrite <- app_assoc.
Qed.

Lemma existsb_ai_id (reds : list action_item) item :
  existsb (fun r => String.eqb (ai_id r) (ai_id item)) reds = true <->
  ai_id item ∈ ai_id <$> reds.
Proof.
  rewrite existsb_exists, list_elem_of_fmap. split.
  - intros (r & Hr & Heq%String.eqb_eq). exists r. by rewrite list_elem_of_In.
  - intros (r & Heq & Hr). exists r. rewrite <- list_elem_of_In.
    split; [done |]. by apply String.eqb_eq.
Qed.

Lemma fold_place_urgent urgent b0 :
  exists added,
    fold_left place_urgent urgent b0 =
      mkBuckets (red_items b0 ++ added) (yellow_items b0) (grey_items b0) /\
    (forall u, u ∈ urgent -> ai_id u ∈ ai_id <$> (red_items b0 ++ added)) /\
    (forall u, u ∈ added -> u ∈ urgent /\ ai_id u ∉ ai_id <$> red_items b0) /\
    NoDup (ai_id <$> added).
Proof.
  revert b0. induction urgent as [|u urgent IH]; intros b0.
  { exists []. rewrite app_nil_r. split; [by destruct b0 |].
    split; [by intros u ?%elem_of_nil |]. split; [by intros u ?%elem_of_nil |].
    apply NoDup_nil_2. }
  cbn [fold_left]. unfold place_urgent at 2.
  destruct (existsb _ (red_items b0)) eqn:Hex.
  - destruct (IH b0) as (added & Hrun & Hall & Hadded & Hnd).
    exists added. split; [done |]. split; [| split; [| done]].
    + intros v [-> | Hv]%elem_of_cons; [| by apply Hall].
      apply existsb_ai_id in Hex. rewrite fmap_app. apply elem_of_app. by left.
    + intros v Hv. destruct (Hadded v Hv) as [H1 H2]. split; [by right | done].
  - destruct (IH (mkBuckets (red_items b0 ++ [u]) (yellow_items b0) (grey_items b0)))
      as (added & Hrun & Hall & Hadded & Hnd).
    cbn [red_items yellow_items grey_items] in *.
    exists (u :: added). split; [by rewrite Hrun, <- app_assoc |].
    assert (ai_id u ∉ ai_id <$> red_items b0) as Hu.
    { intros Hin%existsb_ai_id. congruence. }
    split; [| split].
    + intros v [-> | Hv]%elem_of_cons.
      * rewrite fmap_app. apply elem_of_app. right. cbn. by left.
      * specialize (Hall v Hv). by rewrite <- app_assoc in Hall.
    + intros v [-> | Hv]%elem_of_cons; [split; [by left | done] |].
      destruct (Hadded v Hv) as [H1 H2]. split; [by right |].
      intros Hin. apply H2. rewrite fmap_app. apply elem_of_app. by left.
    + cbn. apply NoDup_cons. split; [| done].
      intros (v & Heq & Hv)%list_elem_of_fmap.
      destruct (Hadded v Hv) as [_ H2]. apply H2.
      rewrite fmap_app. apply elem_of_app. right. cbn. rewrite Heq. by left.
Qed.

(** X24: the action hub sorts the action items by their due date alone:
    an item with a due date that can be read is urgent (red) when it is
    due tomorrow or earlier and upcoming (yellow) otherwise, however far
    ahead it is due; an item without a due date is pending (grey) when
    its note is not blank and is dropped otherwise; an item whose due
    date cannot be read is dropped.  The urgent items of the database
    are added to the red ones unless their id is there already, so every
    one of them is among the red items and none is added twice. *)
Theorem action_hub_buckets_spec today action_items urgent_items :
  let b := action_hub_buckets fromisoformat strip today action_items urgent_items in
  let dated item := negb (field_missing (ai_due_date item)) in
  let due_by_tomorrow item :=
    match due_of fromisoformat (ai_due_date item) with
    | Some due => date_leb due (date_succ today)
    | None => false
    end in
  let due_later item :=
    match due_of fromisoformat (ai_due_date item) with
    | Some due => negb (date_leb due (date_succ today))
    | None => false
    end in
  let red_actions :=
    List.filter (fun item => dated item && due_by_tomorrow item) action_items in
  yellow_items b =
    List.filter (fun item => dated item && due_later item) action_items /\
  grey_items b =
    List.filter (fun item => negb (dated item)
                             && Str.truthy (strip (or_empty (ai_action_note item))))
      action_items /\
  exists added,
    red_items b = red_actions ++ added /\
    (forall u, u ∈ urgent_items -> ai_id u ∈ ai_id <$> red_items b) /\
    (forall u, u ∈ added ->
       u ∈ urgent_items /\ ai_id u ∉ ai_id <$> red_actions) /\
    NoDup (ai_id <$> added).
Proof.
  cbn zeta. unfold action_hub_buckets. rewrite fold_place_action.
  cbn [red_items yellow_items grey_items app].
  destruct (fold_place_urgent urgent_items
              (mkBuckets
                 (List.filter
                    (fun item =>
                       negb (field_missing (ai_due_date item))
                       && match due_of fromisoformat (ai_due_date item) with
                          | Some due => date_leb due (date_succ today)
                          | None => false
                          end) action_items)
                 (List.filter
                    (fun item =>
                       negb (field_missing (ai_due_date item))
                       && match due_of fromisoformat (ai_due_date item) with
                          | Some due => negb (date_leb due (date_succ today))
                          | None => false
                          end) action_items)
                 (List.filter
                    (fun item =>
                       field_missing (ai_due_date item)
                       && Str.truthy (strip (or_empty (ai_action_note item))))
                    action_items)))
    as (added & -> & Hall & Hadded & Hnd).
  cbn [red_items yellow_items grey_items] in *.
  split; [done |]. split.
  - apply filter_ext_bool. intros item. by rewrite negb_involutive.
  - by exists added.
Qed.

End ActionHubProperties.


(** ** The victory lap *)

Lemma elem_of_victory_rows today s p pl :
  (p, pl) ∈ victory_rows today s <->
  exists yesterday,
    date_pred today = Ok yesterday /\ p ∈ projects s /\
    pl ∈ production_logistics s /\ id p = pl_project_id pl /\
    target_installation_date pl = Some yesterday /\
    in_ledger_scope p = true /\ victory_status_ok p = true.
Proof.
  unfold victory_rows. destruct (date_pred today) as [yesterday | e].
  - rewrite list_elem_of_bind. split.
    + intros (p' & Hin & Hp'). apply list_elem_of_bind in Hin as (pl' & Hin & Hpl').
      apply elem_of_filter_bool in Hpl' as [Hpl' Hc].
      apply andb_prop in Hc as [Hid%String.eqb_eq Hd%bool_decide_eq_true].
      destruct (in_ledger_scope p' && victory_status_ok p') eqn:Hok;
        [| by apply elem_of_nil in Hin].
      apply list_elem_of_singleton in Hin. injection Hin as -> ->.
      apply andb_prop in Hok as [? ?]. by exists yesterday.
    + intros (y & [= <-] & Hp & Hpl & Hid & Hd & Hsc & Hok).
      exists p. split; [| done]. apply list_elem_of_bind. exists pl. split.
      * rewrite Hsc, Hok. by left.
      * apply elem_of_filter_bool. split; [done |].
        apply andb_true_intro. split; [by apply String.eqb_eq |].
        by apply bool_decide_eq_true.
  - split; [by intros ?%elem_of_nil | by intros (y & ? & _)].
Qed.

Lemma logistics_history project_id entry_type content s :
  production_logistics (add_project_history project_id entry_type content s).1
    = production_logistics s.
Proof. unfold add_project_history. by destruct (engine s). Qed.

Lemma logistics_touch project_id touch_type note s :
  production_logistics (add_project_touch project_id touch_type note s).1
    = production_logistics s.
Proof. unfold add_project_touch, execute_update. by destruct (engine s). Qed.

Lemma logistics_status now project_id new_status s :
  production_logistics (update_project_status now project_id new_status s).1
    = production_logistics s.
Proof. unfold update_project_status, execute_update. by destruct (engine s). Qed.

(** X25: once the victory-lap email of a project was sent, the project
    is 'Completed' and is no longer a victory-lap item; the other items
    stay as they were.  Without a recipient, or when the send fails,
    nothing changes. *)
Theorem victory_lap_once client_name_leb contacts today now project_id recipient s :
  recipient <> "" ->
  let s' := victory_email_click now project_id recipient true s in
  (forall item,
     item ∈ get_victory_lap_items client_name_leb contacts today s' <->
     item ∈ get_victory_lap_items client_name_leb contacts today s /\
     v_id item <> project_id) /\
  (forall q, engine s = true -> q ∈ projects s' -> row_matches project_id q = true ->
     status q = Some "Completed") /\
  victory_email_click now project_id recipient false s = s /\
  victory_email_click now project_id "" true s = s.
Proof.
  intros Hrec s'.
  assert (Str.truthy recipient = true) as Htruthy by (by destruct recipient).
  assert (victory_email_click now project_id recipient false s = s) as Hfail.
  { unfold victory_email_click. by rewrite Htruthy. }
  split; [| split; [| done]].
  2: { intros q He. unfold s', victory_email_click. rewrite Htruthy. cbn [negb].
       rewrite projects_history. unfold update_project_status, execute_update.
       rewrite engine_history, engine_touch, He. cbn [fst].
       intros Hq Hm. apply status_update_rows in Hq as (p & _ & _ & ->); done. }
  intros item. unfold get_victory_lap_items.
  assert (engine s' = engine s) as He'.
  { unfold s', victory_email_click. rewrite Htruthy. cbn [negb].
    rewrite engine_history. unfold update_project_status, execute_update.
    rewrite engine_history, engine_touch.
    destruct (engine s) eqn:He; cbn; by rewrite ?engine_history, ?engine_touch. }
  rewrite He'. destruct (engine s) eqn:He.
  2: { split; [by intros ?%elem_of_nil | by intros [?%elem_of_nil _]]. }
  assert (production_logistics s' = production_logistics s) as Hpl.
  { unfold s', victory_email_click. rewrite Htruthy. cbn [negb].
    by rewrite logistics_history, logistics_status, logistics_history,
         logistics_touch. }
  assert (projects s' =
          projects (update_projects project_id
                      (fun p => set_status (Some "Completed")
                                  (set_updated_at (Some now)
                                     (set_status_updated_at (Some now) p))) s))
    as Hps.
  { unfold s', victory_email_click. rewrite Htruthy. cbn [negb].
    rewrite projects_history. unfold update_project_status, execute_update.
    rewrite engine_history, engine_touch, He. cbn [fst].
    unfold update_projects. cbn [projects with_projects].
    by rewrite projects_history, projects_touch. }
  assert (forall p pl, (p, pl) ∈ victory_rows today s' <->
                       (p, pl) ∈ victory_rows today s /\ id p <> project_id) as Hrows.
  { intros p pl. rewrite !elem_of_victory_rows. rewrite Hpl. split.
    - intros (y & Hy & Hp & Hin & Hid & Hd & Hsc & Hok).
      rewrite Hps in Hp. apply elem_of_update_projects in Hp as (p0 & Hp0 & ->).
      destruct (row_matches project_id p0) eqn:Hm; [done |]. split.
      + by exists y.
      + intros Heq. apply in_ledger_scope_iff in Hsc as [Ht _].
        rewrite <- Heq, row_matches_intro in Hm; done.
    - intros [(y & Hy & Hp & Hin & Hid & Hd & Hsc & Hok) Hne].
      exists y. repeat split; try done. rewrite Hps.
      apply elem_of_update_projects. exists p. split; [done |].
      destruct (row_matches project_id p) eqn:Hm; [| done].
      by apply row_matches_id in Hm. }
  rewrite !list_elem_of_fmap. split.
  - intros ([p pl] & -> & Hin). rewrite merge_sort_Permutation in Hin.
    apply Hrows in Hin as [Hin Hne]. split; [| done].
    exists (p, pl). split; [done |]. by rewrite merge_sort_Permutation.
  - intros [([p pl] & -> & Hin) Hne]. rewrite merge_sort_Permutation in Hin.
    exists (p, pl). split; [done |]. rewrite merge_sort_Permutation.
    apply Hrows. by split.
Qed.


Lemma victory_lap_once_witness :
  let s := closeout_db (Some (mkDate 2024 3 13)) in
  let item := mkVictoryItem "p1" (Some "Acme Co") (Some "ACTIVE PRODUCTION")
                (Some (mkDate 2024 3 13)) None in
  item ∈ get_victory_lap_items (fun _ _ => true) [] (mkDate 2024 3 14) s /\
  (item ∈ get_victory_lap_items (fun _ _ => true) [] (mkDate 2024 3 14)
            (victory_email_click clock0 "p1" "kam@example.com" true s) <->
   item ∈ get_victory_lap_items (fun _ _ => true) [] (mkDate 2024 3 14) s /\
   v_id item <> "p1").
Proof.
  cbn zeta. split.
  - vm_compute. by left.
  - apply (proj1 (victory_lap_once (fun _ _ => true) [] (mkDate 2024 3 14) clock0
                    "p1" "kam@example.com"
                    (closeout_db (Some (mkDate 2024 3 13))) ltac:(done))).
Defined.


(** ** The webhook: what a request can change *)

(** X26: whatever the path and the body of a POST, the handler answers
    200, 400, 404 or 500, and it changes the database only when it
    answers 200: then the path is the endpoint, the engine is available,
    and exactly one project, with the new id, was added.  Every other
    answer leaves the database as it was. *)
Theorem do_POST_changes_only_on_200 now new_id path b s :
  let r := do_POST now new_id path b s in
  (code r.2 = 200 \/ code r.2 = 400 \/ code r.2 = 404 \/ code r.2 = 500) /\
  (code r.2 <> 200 -> r.1 = s) /\
  (code r.2 = 200 ->
     path = ENDPOINT /\ engine s = true /\
     commissions r.1 = commissions s /\
     exists row, projects r.1 = projects s ++ [row] /\ id row = new_id /\
                 tenant_id row = TENANT_ID) /\
  (path <> ENDPOINT -> r = (s, mkResponse 404 None)).
Proof.
  cbn zeta. unfold do_POST, ENDPOINT.
  destruct (String.eqb_spec path "/api/lead_receiver") as [-> | Hpath].
  2: { cbn. repeat split; auto; done. }
  destruct b as [| data | ty]; cbn [fst snd code];
    try (repeat split; auto; done).
  unfold create_lead_from_zapier.
  destruct (negb _ && negb _ && negb _); [cbn; repeat split; auto; done |].
  unfold create_lead. destruct (engine s) eqn:He; cbn [fst snd code].
  - split; [auto |]. split; [done |]. split; [| done]. intros _.
    repeat split; try done. by eexists.
  - repeat split; auto; done.
Qed.


Lemma do_POST_changes_only_on_200_witness :
  (do_POST clock0 "p1" ENDPOINT BadJson (db_in "New")).1 = db_in "New".
Proof.
  by apply (proj1 (proj2 (do_POST_changes_only_on_200 clock0 "p1" ENDPOINT BadJson
                            (db_in "New")))).
Defined.

Lemma action_hub_buckets_spec_witness :
  yellow_items
    (action_hub_buckets (fun _ => None) (fun text => text) (mkDate 2024 3 14)
       [mkActionItem "p1" (FDate (mkDate 2024 12 24)) None;
        mkActionItem "p2" (FDate (mkDate 2024 3 15)) None;
        mkActionItem "p3" FNone (Some "call back")]
       [mkActionItem "p2" FNone None]) =
    [mkActionItem "p1" (FDate (mkDate 2024 12 24)) None].
Proof.
  by rewrite (proj1 (action_hub_buckets_spec (fun _ => None) (fun text => text)
                       (mkDate 2024 3 14)
                       [mkActionItem "p1" (FDate (mkDate 2024 12 24)) None;
                        mkActionItem "p2" (FDate (mkDate 2024 3 15)) None;
                        mkActionItem "p3" FNone (Some "call back")]
                       [mkActionItem "p2" FNone None])).
Defined.
